(** * pam-krb5: the authentication core ([auth.c]) and FAST armor setup ([fast.c])

    A shallow embedding of the two C files and the properties their
    specification states about them.

    The C code talks to three collaborators whose code is not part of the
    two files: the Kerberos library, the PAM framework and the C library
    (files, memory).  Each of them is a field of a [world] record: a
    function from the history of calls made so far (the trace) and the
    arguments of the call to the answer of the collaborator.  The embedded
    functions are state transformers over an explicit [state] (errno, the
    context structure, the [*creds] output parameter, the heap of
    credential structures, the PAM items and the trace).  *)

From Stdlib Require Import ZArith List String Ascii Bool Arith Lia.
Import ListNotations.

Local Open Scope string_scope.
Local Open Scope Z_scope.

(** ** Result codes

    The numeric values are those of the system headers the two files
    include ([security/_pam_types.h] of Linux-PAM, the [krb5] error table
    whose base is -1765328384, and [errno.h]); none of them is defined in
    the repository itself. *)

Module PAM.
Definition PAM_SUCCESS : Z := 0.
Definition PAM_SERVICE_ERR : Z := 3.
Definition PAM_AUTH_ERR : Z := 7.
Definition PAM_AUTHINFO_UNAVAIL : Z := 9.
Definition PAM_USER_UNKNOWN : Z := 10.
Definition PAM_NEW_AUTHTOK_REQD : Z := 12.
Definition PAM_ACCT_EXPIRED : Z := 13.
(* item types of pam_get_item / pam_set_item *)
Definition PAM_AUTHTOK : Z := 6.
Definition PAM_OLDAUTHTOK : Z := 7.
End PAM.

Module K5.
Definition KRB5KDC_ERR_NAME_EXP : Z := -1765328383.
Definition KRB5KDC_ERR_C_PRINCIPAL_UNKNOWN : Z := -1765328378.
Definition KRB5KDC_ERR_BADOPTION : Z := -1765328371.
Definition KRB5KDC_ERR_KEY_EXP : Z := -1765328361.
Definition KRB5KRB_AP_ERR_BAD_INTEGRITY : Z := -1765328353.
Definition KRB5_KDC_UNREACH : Z := -1765328228.
Definition KRB5_CC_NOMEM : Z := -1765328186.
Definition KRB5_REALM_CANT_RESOLVE : Z := -1765328164.
Definition ENOMEM : Z := 12.
Definition KRB5_WELLKNOWN_NAME : string := "WELLKNOWN".
Definition KRB5_ANON_NAME : string := "ANONYMOUS".
End K5.

Import PAM K5.

(** A failure code handed back by a collaborator together with "no
    result": an integer other than zero, by construction. *)
Inductive errcode : Type :=
| Neg (p : positive)
| Pos (p : positive).

Definition code_of (e : errcode) : Z :=
  match e with
  | Neg p => Z.neg p
  | Pos p => Z.pos p
  end.

(** A call with an output parameter: [inl v] is status 0 with [v] stored
    through the pointer, [inr e] is the non-zero status [code_of e] with
    the output left alone. *)
Definition answer (A : Type) : Type := (A + errcode)%type.

(** ** C strings *)

Definition NUL : ascii := Ascii.zero.
Definition NL : ascii := "010"%char.
Definition AT : ascii := "@"%char.

(** [strchr(s, c) != NULL] *)
Fixpoint strchr (s : string) (c : ascii) : bool :=
  match s with
  | EmptyString => false
  | String a s' => if Ascii.eqb a c then true else strchr s' c
  end.

(** [strlen] of a buffer that may hold NUL bytes read from a file: the
    number of characters before the first NUL. *)
Fixpoint strlen (s : string) : nat :=
  match s with
  | EmptyString => O
  | String a s' => if Ascii.eqb a NUL then O else S (strlen s')
  end.

(** The first [n] characters of a buffer. *)
Fixpoint strtake (n : nat) (s : string) : string :=
  match n, s with
  | S n', String a s' => String a (strtake n' s')
  | _, _ => EmptyString
  end.

(** [buf[i]], [None] past the end of what was stored. *)
Fixpoint char_at (i : nat) (s : string) : option ascii :=
  match s, i with
  | EmptyString, _ => None
  | String a _, O => Some a
  | String _ s', S i' => char_at i' s'
  end.

(** Text before and after the first occurrence of [c]; [None] when [c]
    does not occur. *)
Fixpoint split_at (c : ascii) (s : string) : option (string * string) :=
  match s with
  | EmptyString => None
  | String a s' =>
      if Ascii.eqb a c then Some (EmptyString, s')
      else match split_at c s' with
           | Some (l, r) => Some (String a l, r)
           | None => None
           end
  end.

(** ** Data of the Kerberos library *)

Record principal : Type := mk_principal {
  p_realm : string;
  p_comps : list string
}.

(** A [krb5_get_init_creds_opt] is opaque to the module: it is known by
    the setters applied to it, oldest first. *)
Inductive opt_setting : Type :=
| SetDefaultFlags (appname : string)
| SetForwardable (v : Z)
| SetProxiable (v : Z)
| SetTktLife (v : Z)
| SetRenewLife (v : Z)
| SetPa (attr value : string)
| SetPkinit (p : option principal) (user anchors : option string)
| SetAnonymous (v : Z)
| SetOutCcache (cache : string)
| SetFastCcacheName (cache : string).

Definition creds_opt : Type := list opt_setting.


(** ** The monad of the embedding

    A run from a state of type [S] ends with a value and a state, in
    behaviour the C standard leaves undefined (with the place it arises),
    or because the fuel given to a loop ran out. *)
Inductive outcome (S A : Type) : Type :=
| Ok (a : A) (s : S)
| Undefined (why : string)
| OutOfFuel.

Arguments Ok {S A} a s.
Arguments Undefined {S A} why.
Arguments OutOfFuel {S A}.

Definition run (S A : Type) : Type := S -> outcome S A.

Definition ret {S A : Type} (a : A) : run S A := fun s => Ok a s.

Definition bind {S A B : Type} (m : run S A) (k : A -> run S B) : run S B :=
  fun s =>
    match m s with
    | Ok a s' => k a s'
    | Undefined why => Undefined why
    | OutOfFuel => OutOfFuel
    end.

Notation "x <- m ;; k" := (bind m (fun x => k))
  (at level 61, m at next level, right associativity).
Notation "m ;;; k" := (bind m (fun _ => k))
  (at level 61, right associativity).

Definition undefined {S A : Type} (why : string) : run S A :=
  fun _ => Undefined why.

Definition get {S : Type} : run S S := fun s => Ok s s.

Definition modify {S : Type} (f : S -> S) : run S unit :=
  fun s => Ok tt (f s).

(** * [auth.c] *)

Module Auth.

(** ** Configuration, build and collaborators *)

(** The fields of [struct pam_args] that [auth.c] reads.  The context
    pointer [args->ctx] and what it points to are mutable and live in the
    [state]. *)
Record pam_args : Type := mk_args {
  debug : bool;
  forwardable : bool;
  lifetime : Z;
  renew_lifetime : Z;
  keytab : option string;
  realm : option string;
  prompt_princ : bool;
  search_k5login : bool;
  try_first_pass : bool;
  use_first_pass : bool;
  use_authtok : bool;
  try_pkinit : bool;
  use_pkinit : bool;
  pkinit_prompt : bool;
  pkinit_user : option string;
  pkinit_anchors : option string;
  preauth_opt : option (list (option string));
  preauth_opt_count : Z
}.

(** What the preprocessor decides: the [HAVE_*] tests of [config.h], the
    two smart card statuses of [hx509_err.h] (0 when the header does not
    define them) and the [BUFSIZ] of [stdio.h]. *)
Record build : Type := mk_build {
  HAVE_PKINIT : bool;
  HAVE_SET_DEFAULT_FLAGS : bool;
  HAVE_SET_PA : bool;
  HX509_PKCS11_NO_TOKEN : Z;
  HX509_PKCS11_NO_SLOT : Z;
  BUFSIZ : nat
}.

Record passwd : Type := mk_passwd {
  pw_dir : string;
  pw_uid : Z
}.

(** Calls that leave the module, in the order they are made. *)
Inductive event : Type :=
| EvConv (message : string) (echo_on : bool)
| EvGetPassword (prompt : option string)
| EvGetItem (item : Z)
| EvSetItem (item : Z) (pass : string)
| EvMalloc
| EvCalloc (addr : option nat)
| EvFree (addr : nat)
| EvFreeCredContents (addr : nat)
| EvParseName (text : string)
| EvUnparseName (p : option principal)
| EvAnameToLocalname (p : option principal)
| EvOptAlloc
| EvOptFree
| EvSetPkinit (p : option principal) (user anchors : option string)
| EvExchange (p : option principal) (pass service : option string)
             (opts : creds_opt)
| EvKtResolve (kt : string)
| EvKtStartSeqGet
| EvKtNextEntry
| EvCopyPrincipal (p : principal)
| EvVerify (creds : option nat) (server : option principal)
           (kt : option string)
| EvGetpwnam (user : string)
| EvAccess (file : string)
| EvFopen (file : string)
| EvFstat (file : string)
| EvFclose (file : string).

Definition history : Type := list event.

(** The collaborators.  Every answer may depend on the calls made so far. *)
Record world : Type := mk_world {
  (* int pamk5_conv(args, message, type, char **response): the status and
     the response stored through the pointer, if one was stored *)
  pamk5_conv : history -> string -> bool -> Z * option string;
  pamk5_get_password : history -> option string -> answer string;
  pam_get_item : history -> Z -> Z;
  pam_set_item : history -> Z -> string -> Z;
  (* malloc, calloc, strdup: whether storage was obtained *)
  malloc : history -> bool;
  krb5_parse_name : history -> string -> answer principal;
  krb5_unparse_name : history -> option principal -> answer string;
  krb5_aname_to_localname : history -> option principal -> answer string;
  pamk5_compat_opt_alloc : history -> Z;
  krb5_get_init_creds_opt_alloc : history -> Z;
  krb5_get_init_creds_opt_set_pkinit :
    history -> option principal -> option string -> option string -> Z;
  krb5_get_init_creds_password :
    history -> option principal -> option string -> option string ->
    creds_opt -> Z;
  krb5_kt_resolve : history -> string -> Z;
  krb5_kt_start_seq_get : history -> Z;
  krb5_kt_next_entry : history -> answer principal;
  krb5_copy_principal : history -> principal -> Z;
  krb5_verify_init_creds :
    history -> option nat -> option principal -> option string -> Z;
  pamk5_compat_getpwnam : history -> string -> option passwd;
  (* access, fopen and fstat fail with the errno they set *)
  access : history -> string -> answer unit;
  fopen : history -> string -> answer string;
  fstat : history -> string -> answer Z;
  (* the value found in the automatic variable creds_valid of
     pamk5_password_auth when it is read before any assignment *)
  uninitialized_creds_valid : Z
}.

(** Conventions.  A [string] that stands for a C string (a name, a
    password, a path) holds no NUL; the buffer [fgets] fills is the one
    place where NUL bytes are looked at.  A call that succeeds leaves
    errno as it found it.  An exchange that fails leaves the credential
    structure as it found it. *)

(** ** State *)

(** [struct context]: the account name and the principal. *)
Record context : Type := mk_context {
  name : string;
  princ : option principal
}.

(** [heap] lists the live [krb5_creds] structures, each with a flag that
    says whether it holds credential contents (ticket and keys) that
    [krb5_free_cred_contents] has not released yet; [leaked] lists the
    structures that were freed while they still held contents. *)
Record state : Type := mk_state {
  errno : Z;
  ctx : option context;
  creds_out : option nat;
  heap : list (nat * bool);
  leaked : list nat;
  next_addr : nat;
  authtok : option string;
  oldauthtok : option string;
  trace : history
}.

Definition set_errno (v : Z) (s : state) : state :=
  mk_state v (ctx s) (creds_out s) (heap s) (leaked s) (next_addr s)
           (authtok s) (oldauthtok s) (trace s).

Definition set_ctx (v : option context) (s : state) : state :=
  mk_state (errno s) v (creds_out s) (heap s) (leaked s) (next_addr s)
           (authtok s) (oldauthtok s) (trace s).

Definition set_creds_out (v : option nat) (s : state) : state :=
  mk_state (errno s) (ctx s) v (heap s) (leaked s) (next_addr s)
           (authtok s) (oldauthtok s) (trace s).

Definition set_heap (v : list (nat * bool)) (s : state) : state :=
  mk_state (errno s) (ctx s) (creds_out s) v (leaked s) (next_addr s)
           (authtok s) (oldauthtok s) (trace s).

Definition set_leaked (v : list nat) (s : state) : state :=
  mk_state (errno s) (ctx s) (creds_out s) (heap s) v (next_addr s)
           (authtok s) (oldauthtok s) (trace s).

Definition set_next_addr (v : nat) (s : state) : state :=
  mk_state (errno s) (ctx s) (creds_out s) (heap s) (leaked s) v
           (authtok s) (oldauthtok s) (trace s).

Definition set_item (item : Z) (v : option string) (s : state) : state :=
  if item =? PAM_AUTHTOK then
    mk_state (errno s) (ctx s) (creds_out s) (heap s) (leaked s)
             (next_addr s) v (oldauthtok s) (trace s)
  else
    mk_state (errno s) (ctx s) (creds_out s) (heap s) (leaked s)
             (next_addr s) (authtok s) v (trace s).

Definition get_item (item : Z) (s : state) : option string :=
  if item =? PAM_AUTHTOK then authtok s else oldauthtok s.

Definition log (e : event) (s : state) : state :=
  mk_state (errno s) (ctx s) (creds_out s) (heap s) (leaked s) (next_addr s)
           (authtok s) (oldauthtok s) (e :: trace s).

(** The monad of the embedding at the state of [auth.c]. *)
Definition M (A : Type) : Type := run state A.

(** A call to a collaborator: the answer is the world's for the history
    so far, and the call joins the history. *)
Definition call {A : Type} (e : event) (f : history -> A) : M A :=
  fun s => Ok (f (trace s)) (log e s).

(** The same for a call that sets errno when it fails. *)
Definition call_errno {A : Type} (e : event) (f : history -> answer A)
  : M (answer A) :=
  fun s =>
    match f (trace s) with
    | inl v => Ok (inl v) (log e s)
    | inr c => Ok (inr c) (set_errno (code_of c) (log e s))
    end.

(** [struct context *ctx = args->ctx] followed by a read of a field. *)
Definition deref_ctx : M context :=
  fun s =>
    match ctx s with
    | Some c => Ok c s
    | None => Undefined "args->ctx is NULL and is dereferenced"
    end.

Definition set_name (n : string) : M unit :=
  c <- deref_ctx ;; modify (set_ctx (Some (mk_context n (princ c)))).

Definition set_princ (p : option principal) : M unit :=
  c <- deref_ctx ;; modify (set_ctx (Some (mk_context (name c) p))).

(** ** Credential structures *)

Fixpoint heap_find (a : nat) (h : list (nat * bool)) : option bool :=
  match h with
  | [] => None
  | (b, full) :: h' => if Nat.eqb a b then Some full else heap_find a h'
  end.

Fixpoint heap_put (a : nat) (full : bool) (h : list (nat * bool))
  : list (nat * bool) :=
  match h with
  | [] => []
  | (b, f) :: h' =>
      if Nat.eqb a b then (b, full) :: h' else (b, f) :: heap_put a full h'
  end.

Fixpoint heap_drop (a : nat) (h : list (nat * bool)) : list (nat * bool) :=
  match h with
  | [] => []
  | (b, f) :: h' => if Nat.eqb a b then h' else (b, f) :: heap_drop a h'
  end.

(** [calloc(1, sizeof(krb5_creds))]: NULL, or a fresh zeroed structure. *)
Definition calloc_creds (w : world) : M (option nat) :=
  fun s =>
    if malloc w (trace s) then
      let a := next_addr s in
      Ok (Some a)
         (log (EvCalloc (Some a))
              (set_next_addr (S a) (set_heap ((a, false) :: heap s) s)))
    else Ok None (log (EvCalloc None) s).

(** [krb5_free_cred_contents(c, creds)] *)
Definition krb5_free_cred_contents (a : nat) : M unit :=
  fun s =>
    match heap_find a (heap s) with
    | Some _ =>
        Ok tt (log (EvFreeCredContents a)
                   (set_heap (heap_put a false (heap s)) s))
    | None =>
        Undefined "krb5_free_cred_contents on storage that is not live"
    end.

(** [free(creds)] *)
Definition free_creds (a : nat) : M unit :=
  fun s =>
    match heap_find a (heap s) with
    | Some full =>
        Ok tt (log (EvFree a)
                   (set_leaked (if full then a :: leaked s else leaked s)
                               (set_heap (heap_drop a (heap s)) s)))
    | None => Undefined "free of storage that is not live"
    end.

(** A successful exchange stores the credential in the structure. *)
Definition fill_creds (a : option nat) : M unit :=
  fun s =>
    match a with
    | Some a' =>
        match heap_find a' (heap s) with
        | Some _ => Ok tt (set_heap (heap_put a' true (heap s)) s)
        | None => Undefined "credential stored through a pointer that is not live"
        end
    | None => Undefined "credential stored through a NULL pointer"
    end.

(** [krb5_get_init_creds_password(c, creds, princ, pass, prompter, args, 0,
    service, opts)]: the status; on status 0 the structure holds the
    credential, otherwise it is left as it was. *)
Definition get_init_creds_password (w : world) (creds : option nat)
    (p : option principal) (pass service : option string) (opts : creds_opt)
  : M Z :=
  r <- call (EvExchange p pass service opts)
            (fun h => krb5_get_init_creds_password w h p pass service opts) ;;
  if r =? 0 then fill_creds creds ;;; ret r else ret r.

(** ** [parse_name]  (auth.c, lines 56-125) *)

(** The local [char *user]: the very pointer [ctx->name], or storage of
    its own. *)
Inductive user_ptr : Type :=
| UserIsName
| UserOwned (text : string).

Definition user_text (c : context) (u : user_ptr) : string :=
  match u with
  | UserIsName => name c
  | UserOwned t => t
  end.

(** Lines 73-81: the optional prompt for the principal. *)
Definition prompt_for_principal (w : world) (args : pam_args) (c : context)
  : M user_ptr :=
  if prompt_princ args then
    r <- call (EvConv "Principal: " true)
              (fun h => pamk5_conv w h "Principal: " true) ;;
    let user := match snd r with
                | Some t => UserOwned t
                | None => UserIsName
                end in
    match user_text c user with
    | EmptyString =>
        match user with
        | UserOwned _ => ret UserIsName
        | UserIsName =>
            undefined "free(user) releases ctx->name, which is read next"
        end
    | String _ _ => ret user
    end
  else ret UserIsName.

(** Lines 90-99: the text handed to the parser, or the status returned
    when there is no memory for it. *)
Definition qualify (w : world) (args : pam_args) (text : string)
  : M (string + Z) :=
  match realm args with
  | Some r =>
      if negb (strchr text AT) then
        ok <- call EvMalloc (malloc w) ;;
        if ok : bool then ret (inl (text ++ "@" ++ r)%string)
        else ret (inr KRB5_CC_NOMEM)
      else ret (inl text)
  | None => ret (inl text)
  end.

Definition parse_name (w : world) (args : pam_args) : M Z :=
  c <- deref_ctx ;;
  user <- prompt_for_principal w args c ;;
  q <- qualify w args (user_text c user) ;;
  match q with
  | inr nomem => ret nomem
  | inl text =>
      k <- call (EvParseName text) (fun h => krb5_parse_name w h text) ;;
      match k with
      | inr e => ret (code_of e)
      | inl p =>
          set_princ (Some p) ;;;
          if strchr (name c) AT then
            l <- call (EvAnameToLocalname (Some p))
                      (fun h => krb5_aname_to_localname w h (Some p)) ;;
            match l with
            | inr _ => ret 0
            | inl kuser =>
                ok <- call EvMalloc (malloc w) ;;
                if ok : bool then set_name kuser ;;; ret 0 else ret 0
            end
          else ret 0
      end
  end.

(** ** [set_credential_options]  (auth.c, lines 138-189) *)

Definition is_some {A : Type} (o : option A) : bool :=
  match o with
  | Some _ => true
  | None => false
  end.

(** One entry of [args->preauth_opt]: [name=value], or [name] alone with
    the value "yes".  The array is taken to hold the
    [args->preauth_opt_count] entries the loop reads. *)
Definition preauth_setting (entry : string) : opt_setting :=
  match split_at "="%char entry with
  | Some (n, v) => SetPa n v
  | None => SetPa entry "yes"
  end.

Definition preauth_settings (args : pam_args) : creds_opt :=
  match preauth_opt args with
  | Some entries =>
      if 0 <? preauth_opt_count args then
        flat_map (fun e => match e with
                           | Some n => [preauth_setting n]
                           | None => []
                           end)
                 (firstn (Z.to_nat (preauth_opt_count args)) entries)
      else []
  | None => []
  end.

Definition set_credential_options (b : build) (args : pam_args)
    (opts : creds_opt) (service : bool) : creds_opt :=
  (opts
  ++ (if HAVE_SET_DEFAULT_FLAGS b then [SetDefaultFlags "pam"] else [])
  ++ (if negb service then
        (if forwardable args then [SetForwardable 1] else [])
        ++ (if negb (lifetime args =? 0)
            then [SetTktLife (lifetime args)] else [])
        ++ (if negb (renew_lifetime args =? 0)
            then [SetRenewLife (renew_lifetime args)] else [])
      else [SetForwardable 0; SetProxiable 0; SetRenewLife 0])
  ++ (if HAVE_SET_PA b && try_pkinit args then
        match pkinit_user args with
        | Some u => [SetPa "X509_user_identity" u]
        | None => []
        end
        ++ match pkinit_anchors args with
           | Some a => [SetPa "X509_anchors" a]
           | None => []
           end
        ++ preauth_settings args
      else []))%list.

(** ** [k5login_password_auth]  (auth.c, lines 202-304) *)

(** [fgets(line, size, stream)] on the characters still unread: at most
    [room] characters, stopping after a newline. *)
Fixpoint fgets_chars (room : nat) (s : string) : string * string :=
  match room, s with
  | S room', String a s' =>
      if Ascii.eqb a NL then (String a EmptyString, s')
      else let (l, r) := fgets_chars room' s' in (String a l, r)
  | _, _ => (EmptyString, s)
  end.

(** [None] is the NULL of end of file; otherwise the buffer filled and
    the characters left in the stream. *)
Definition fgets (size : nat) (s : string) : option (string * string) :=
  match s with
  | EmptyString => None
  | String _ _ => Some (fgets_chars (size - 1) s)
  end.

(** [line[len - 1] == '\n'] with [len = strlen(line)]. *)
Definition ends_line (line : string) : M bool :=
  match strlen line with
  | O => undefined "line[len - 1] is read with len = 0"
  | S i =>
      ret (match char_at i line with
           | Some a => Ascii.eqb a NL
           | None => false
           end)
  end.

(** Lines 270-274: read on to the end of a line that did not fit. *)
Fixpoint skip_line (fuel : nat) (size : nat) (stream : string) : M string :=
  match fuel with
  | O => fun _ => OutOfFuel
  | S fuel' =>
      match fgets size stream with
      | None => ret stream
      | Some (line, rest) =>
          nl <- ends_line line ;;
          if nl : bool then ret rest else skip_line fuel' size rest
      end
  end.

Definition fclose (file : string) : M unit :=
  call (EvFclose file) (fun _ => tt).

(** Lines 267-303: the loop over the lines of the file and the label
    [fail].  The result is the PAM status returned and the value left in
    [*retval]. *)
Fixpoint read_k5login (fuel : nat) (w : world) (b : build)
    (creds : option nat) (opts : creds_opt) (service pass : option string)
    (file stream : string) (retval : Z) : M (Z * Z) :=
  match fuel with
  | O => fun _ => OutOfFuel
  | S fuel' =>
      match fgets (BUFSIZ b) stream with
      | None => fclose file ;;; ret (PAM_AUTH_ERR, retval)
      | Some (line, rest) =>
          nl <- ends_line line ;;
          if negb nl then
            rest' <- skip_line fuel' (BUFSIZ b) rest ;;
            read_k5login fuel' w b creds opts service pass file rest' retval
          else
            let text := strtake (strlen line - 1) line in
            k <- call (EvParseName text)
                      (fun h => krb5_parse_name w h text) ;;
            match k with
            | inr _ =>
                read_k5login fuel' w b creds opts service pass file rest
                             retval
            | inl p =>
                r <- get_init_creds_password w creds (Some p) pass service
                                             opts ;;
                if r =? 0 then
                  set_princ (Some p) ;;; fclose file ;;; ret (PAM_SUCCESS, r)
                else
                  read_k5login fuel' w b creds opts service pass file rest r
            end
      end
  end.

(** Lines 234-237: one attempt as the principal already in the context. *)
Definition direct_attempt (w : world) (creds : option nat)
    (opts : creds_opt) (service pass : option string) : M (Z * Z) :=
  c <- deref_ctx ;;
  r <- get_init_creds_password w creds (princ c) pass service opts ;;
  ret (if r =? 0 then PAM_SUCCESS else PAM_AUTH_ERR, r).

Definition k5login_password_auth (w : world) (b : build)
    (creds : option nat) (opts : creds_opt) (service pass : option string)
  : M (Z * Z) :=
  c <- deref_ctx ;;
  pwd <- call (EvGetpwnam (name c))
              (fun h => pamk5_compat_getpwnam w h (name c)) ;;
  filename <- match pwd with
              | Some p =>
                  ok <- call EvMalloc (malloc w) ;;
                  if ok : bool then ret (Some (pw_dir p ++ "/.k5login")%string)
                  else ret None
              | None => ret None
              end ;;
  match pwd, filename with
  | Some p, Some file =>
      a <- call_errno (EvAccess file) (fun h => access w h file) ;;
      match a with
      | inr _ => direct_attempt w creds opts service pass
      | inl _ =>
          f <- call_errno (EvFopen file) (fun h => fopen w h file) ;;
          match f with
          | inr _ => s <- get ;; ret (PAM_AUTH_ERR, errno s)
          | inl content =>
              st <- call_errno (EvFstat file) (fun h => fstat w h file) ;;
              match st with
              | inr _ =>
                  s <- get ;; fclose file ;;; ret (PAM_AUTH_ERR, errno s)
              | inl st_uid =>
                  if negb (st_uid =? 0) && negb (st_uid =? pw_uid p) then
                    s <- get ;; fclose file ;;; ret (PAM_AUTH_ERR, errno s)
                  else
                    read_k5login (S (String.length content)) w b creds opts
                                 service pass file content
                                 KRB5KRB_AP_ERR_BAD_INTEGRITY
              end
          end
      end
  | _, _ => direct_attempt w creds opts service pass
  end.

(** ** [pkinit_auth]  (auth.c, lines 326-391; compiled when
       [HAVE_KRB5_HEIMDAL && HAVE_KRB5_GET_INIT_CREDS_OPT_SET_PKINIT]) *)

Definition opt_free : M unit := call EvOptFree (fun _ => tt).

Definition pkinit_auth (w : world) (b : build) (args : pam_args)
    (service : option string) : M Z :=
  c <- deref_ctx ;;
  (if pkinit_prompt args then
     let message := if use_pkinit args
                    then "Insert smart card and press Enter:"
                    else "Insert smart card if desired, then press Enter:" in
     _ <- call (EvConv message false)
               (fun h => pamk5_conv w h message false) ;;
     ret tt
   else ret tt) ;;;
  a <- calloc_creds w ;;
  modify (set_creds_out a) ;;;
  match a with
  | None => ret ENOMEM
  | Some addr =>
      r <- call EvOptAlloc (krb5_get_init_creds_opt_alloc w) ;;
      if negb (r =? 0) then ret r
      else
        let opts := set_credential_options b args [] (is_some service) in
        r <- call (EvSetPkinit (princ c) (pkinit_user args)
                               (pkinit_anchors args))
                  (fun h => krb5_get_init_creds_opt_set_pkinit w h (princ c)
                              (pkinit_user args) (pkinit_anchors args)) ;;
        let opts := (opts ++ [SetPkinit (princ c) (pkinit_user args)
                                        (pkinit_anchors args)])%list in
        r <- (if negb (r =? 0) then ret r
              else get_init_creds_password w a (princ c) None service opts) ;;
        (* done: *)
        opt_free ;;;
        if negb (r =? 0) then
          krb5_free_cred_contents addr ;;;
          free_creds addr ;;;
          modify (set_creds_out None) ;;;
          ret r
        else ret r
  end.

(** ** [verify_creds]  (auth.c, lines 410-461) *)

(** Lines 425-452: the keytab handle and the principal of its first entry,
    when a keytab is configured. *)
Definition first_keytab_principal (w : world) (kt : string)
  : M (option string * option principal) :=
  r <- call (EvKtResolve kt) (fun h => krb5_kt_resolve w h kt) ;;
  if negb (r =? 0) then ret (None, None)
  else
    r <- call EvKtStartSeqGet (krb5_kt_start_seq_get w) ;;
    if negb (r =? 0) then ret (Some kt, None)
    else
      e <- call EvKtNextEntry (krb5_kt_next_entry w) ;;
      match e with
      | inr _ => ret (Some kt, None)
      | inl p =>
          r <- call (EvCopyPrincipal p) (fun h => krb5_copy_principal w h p) ;;
          if r =? 0 then ret (Some kt, Some p) else ret (Some kt, None)
      end.

Definition verify_creds (w : world) (args : pam_args) (creds : option nat)
  : M Z :=
  _ <- deref_ctx ;;
  kp <- match keytab args with
        | Some kt => first_keytab_principal w kt
        | None => ret (None, None)
        end ;;
  call (EvVerify creds (snd kp) (fst kp))
       (fun h => krb5_verify_init_creds w h creds (snd kp) (fst kp)).

(** ** [pamk5_password_auth]  (auth.c, lines 472-655) *)

(** Where a part of the function hands control: a [return], or the label
    [done] with the locals that are live there. *)
Inductive flow : Type :=
| Return (v : Z)
| GotoDone (retval creds_valid : Z) (opts : option creds_opt).

(** [int authtok = (service == NULL) ? PAM_AUTHTOK : PAM_OLDAUTHTOK] *)
Definition authtok_item (service : option string) : Z :=
  match service with
  | None => PAM_AUTHTOK
  | Some _ => PAM_OLDAUTHTOK
  end.

(** Lines 513-528: PKINIT first.  [Some retval] is [goto done]; [None]
    falls through to the password. *)
Definition pkinit_first (w : world) (b : build) (args : pam_args)
    (service : option string) : M (option Z) :=
  if HAVE_PKINIT b then
    if use_pkinit args || try_pkinit args then
      r <- pkinit_auth w b args service ;;
      if r =? 0 then ret (Some r)
      else if negb (r =? HX509_PKCS11_NO_TOKEN b)
              && negb (r =? HX509_PKCS11_NO_SLOT b) then ret (Some r)
      else if negb (r =? 0) && use_pkinit args then ret (Some r)
      else ret None
    else ret None
  else
    if use_pkinit args then ret (Some KRB5_KDC_UNREACH) else ret None.

(** How one pass through the body of the [do ... while] ends: [goto done],
    [break], or at the loop test with [pass] set to NULL. *)
Inductive pass_end : Type :=
| PassGotoDone (retval : Z)
| PassBreak (retval : Z)
| PassTest (retry retval : Z).

(** Lines 564-585: with no password at hand, prompt for one, store it
    and read it back.  The result is the new [retry] and [pass], or the
    [retval] of a [goto done]. *)
Definition obtain_password (w : world) (service : option string)
    (retry : Z) (pass : option string) : M ((Z * option string) + Z) :=
  match pass with
  | Some _ => ret (inl (retry, pass))
  | None =>
      let prompt := match service with
                    | None => None
                    | Some _ => Some "Current"
                    end in
      let item := authtok_item service in
      r <- call (EvGetPassword prompt)
                (fun h => pamk5_get_password w h prompt) ;;
      match r with
      | inr _ => ret (inr PAM_SERVICE_ERR)
      | inl typed =>
          r <- call (EvSetItem item typed)
                    (fun h => pam_set_item w h item typed) ;;
          if negb (r =? PAM_SUCCESS) then ret (inr PAM_SERVICE_ERR)
          else
            modify (set_item item (Some typed)) ;;;
            g <- call (EvGetItem item) (fun h => pam_get_item w h item) ;;
            if g =? PAM_SUCCESS then
              s <- get ;; ret (inl (0, get_item item s))
            else
              undefined "pass still points to the storage freed at line 578"
      end
  end.

(** Lines 587-602: get a TGT with the password at hand. *)
Definition password_pass (w : world) (b : build) (args : pam_args)
    (service : option string) (creds : option nat) (opts : creds_opt)
    (retry : Z) (pass : option string) : M pass_end :=
  o <- obtain_password w service retry pass ;;
  match o with
  | inr retval => ret (PassGotoDone retval)
  | inl (retry', pass') =>
      sr <- (if search_k5login args then
               k5login_password_auth w b creds opts service pass'
             else direct_attempt w creds opts service pass') ;;
      let (success, retval) := sr : Z * Z in
      if success =? PAM_SUCCESS then
        if negb (retval =? 0) then ret (PassGotoDone retval)
        else ret (PassBreak retval)
      else ret (PassTest retry' retval)
  end.

(** Lines 563-603: the [do ... while (retry && retval ==
    KRB5KRB_AP_ERR_BAD_INTEGRITY)].  [PassTest] in the result is the loop
    left through its test. *)
Fixpoint password_loop (fuel : nat) (w : world) (b : build)
    (args : pam_args) (service : option string) (creds : option nat)
    (opts : creds_opt) (retry : Z) (pass : option string) : M pass_end :=
  match fuel with
  | O => fun _ => OutOfFuel
  | S fuel' =>
      e <- password_pass w b args service creds opts retry pass ;;
      match e with
      | PassTest retry' retval =>
          if negb (retry' =? 0) && (retval =? KRB5KRB_AP_ERR_BAD_INTEGRITY)
          then password_loop fuel' w b args service creds opts retry' None
          else ret e
      | _ => ret e
      end
  end.

(** Lines 476-607: everything before the label [done]. *)
Definition acquire (fuel : nat) (w : world) (b : build) (args : pam_args)
    (service : option string) : M flow :=
  s0 <- get ;;
  match ctx s0 with
  | None => ret (Return PAM_SERVICE_ERR)
  | Some _ =>
      r <- parse_name w args ;;
      if negb (r =? 0) then ret (Return PAM_SERVICE_ERR)
      else
        (if debug args && negb (search_k5login args) then
           c <- deref_ctx ;;
           _ <- call (EvUnparseName (princ c))
                     (fun h => krb5_unparse_name w h (princ c)) ;;
           ret tt
         else ret tt) ;;;
        pk <- pkinit_first w b args service ;;
        match pk with
        | Some r => ret (GotoDone r (uninitialized_creds_valid w) None)
        | None =>
            a <- calloc_creds w ;;
            modify (set_creds_out a) ;;;
            match a with
            | None => ret (Return PAM_SERVICE_ERR)
            | Some _ =>
                r <- call EvOptAlloc (pamk5_compat_opt_alloc w) ;;
                if negb (r =? 0) then ret (GotoDone r 0 None)
                else
                  let opts :=
                    set_credential_options b args [] (is_some service) in
                  let retry := if try_first_pass args then 1 else 0 in
                  let item := authtok_item service in
                  rp <- (if try_first_pass args || use_first_pass args
                            || use_authtok args then
                           g <- call (EvGetItem item)
                                     (fun h => pam_get_item w h item) ;;
                           s <- get ;;
                           ret (g, if g =? PAM_SUCCESS then get_item item s
                                   else None)
                         else ret (r, None)) ;;
                  let (retval, pass) := rp : Z * option string in
                  if use_authtok args
                     && (negb (retval =? PAM_SUCCESS) || negb (is_some pass))
                  then ret (GotoDone PAM_SERVICE_ERR 0 (Some opts))
                  else
                    e <- password_loop fuel w b args service a opts retry
                                       pass ;;
                    match e with
                    | PassGotoDone v => ret (GotoDone v 0 (Some opts))
                    | PassBreak v | PassTest _ v =>
                        ret (GotoDone v (if negb (v =? 0) then 0 else 1)
                                      (Some opts))
                    end
            end
        end
  end.

(** Lines 633-650: the [switch] from the Kerberos status to the PAM
    status. *)
Definition pam_status_of (retval : Z) : Z :=
  if retval =? KRB5KDC_ERR_C_PRINCIPAL_UNKNOWN then PAM_USER_UNKNOWN
  else if retval =? KRB5KDC_ERR_KEY_EXP then PAM_NEW_AUTHTOK_REQD
  else if retval =? KRB5KDC_ERR_NAME_EXP then PAM_ACCT_EXPIRED
  else if (retval =? KRB5_KDC_UNREACH) || (retval =? KRB5_REALM_CANT_RESOLVE)
       then PAM_AUTHINFO_UNAVAIL
  else PAM_AUTH_ERR.

(** Lines 617-618: verification of what was obtained. *)
Definition verify_step (w : world) (args : pam_args)
    (service : option string) (retval : Z) : M Z :=
  if (retval =? 0) && negb (is_some service) then
    s <- get ;; verify_creds w args (creds_out s)
  else ret retval.

(** Lines 626-632: release of the credential structure on failure. *)
Definition discard_creds (creds_valid : Z) : M unit :=
  s <- get ;;
  match creds_out s with
  | Some a =>
      (if negb (creds_valid =? 0) then krb5_free_cred_contents a
       else ret tt) ;;;
      free_creds a ;;;
      modify (set_creds_out None)
  | None => ret tt
  end.

(** Lines 609-654: the label [done]. *)
Definition done_label (w : world) (args : pam_args)
    (service : option string) (retval creds_valid : Z)
    (opts : option creds_opt) : M Z :=
  retval <- verify_step w args service retval ;;
  result <- (if retval =? 0 then ret PAM_SUCCESS
             else discard_creds creds_valid ;;; ret (pam_status_of retval)) ;;
  (if is_some opts then opt_free else ret tt) ;;;
  ret result.

Definition pamk5_password_auth (fuel : nat) (w : world) (b : build)
    (args : pam_args) (service : option string) : M Z :=
  f <- acquire fuel w b args service ;;
  match f with
  | Return v => ret v
  | GotoDone retval creds_valid opts =>
      done_label w args service retval creds_valid opts
  end.

(** ** Observations on a run *)

(** The principals for which an exchange was attempted, oldest first. *)
Fixpoint attempted (h : history) : list (option principal) :=
  match h with
  | [] => []
  | EvExchange p _ _ _ :: h' => (attempted h' ++ [p])%list
  | _ :: h' => attempted h'
  end.

(** The number of password prompts. *)
Fixpoint prompts (h : history) : nat :=
  match h with
  | [] => O
  | EvGetPassword _ :: h' => S (prompts h')
  | _ :: h' => prompts h'
  end.

(** Whether the verification of a credential was requested. *)
Fixpoint verified (h : history) : bool :=
  match h with
  | [] => false
  | EvVerify _ _ _ :: _ => true
  | _ :: h' => verified h'
  end.

(** The newline-terminated lines of a text, in order; [acc] holds the
    characters of the line being read. *)
Fixpoint lines_from (acc : string) (s : string) : list string :=
  match s with
  | EmptyString => []
  | String a s' =>
      if Ascii.eqb a NL then acc :: lines_from EmptyString s'
      else lines_from (acc ++ String a EmptyString) s'
  end.

Definition lines_of (s : string) : list string := lines_from EmptyString s.

(** A text file: no NUL byte. *)
Definition is_text (s : string) : bool := negb (strchr s NUL).

(** A line that fits the buffer with its newline and its terminator. *)
Definition fits (b : build) (l : string) : bool :=
  negb (strchr l NL) && negb (strchr l NUL)
  && (String.length l + 2 <=? BUFSIZ b)%nat.

(** The text of a file that starts with the given lines, each with its
    newline, and goes on with [tail]. *)
Fixpoint lines_then (ls : list string) (tail : string) : string :=
  match ls with
  | [] => tail
  | l :: ls' => (l ++ String NL (lines_then ls' tail))%string
  end.

(** The attempts of one pass prompt for nothing, leave [*creds] where it
    points, free nothing and allocate nothing. *)
Definition frame (st st' : state) : Prop :=
  prompts (trace st') = prompts (trace st)
  /\ creds_out st' = creds_out st
  /\ leaked st' = leaked st
  /\ forall x, is_some (heap_find x (heap st')) = is_some (heap_find x (heap st)).

(** The credential memory is as it was. *)
Definition same_memory (st st' : state) : Prop :=
  creds_out st' = creds_out st /\ heap st' = heap st
  /\ leaked st' = leaked st.

(** What an attempt with the structure at [a] does to the credential
    memory: on success ([ok]) the structure holds the credential, and
    nothing else changes. *)
Definition attempt_effect (a : nat) (ok : bool) (st st' : state) : Prop :=
  creds_out st' = creds_out st
  /\ leaked st' = leaked st
  /\ heap st' = if ok then heap_put a true (heap st) else heap st.

(** Whether a pass left the loop through [break]. *)
Definition is_break (e : pass_end) : bool :=
  match e with
  | PassBreak _ => true
  | _ => false
  end.

End Auth.

(** * [fast.c] *)

Module Fast.

(** The fields of [args->config] that [fast.c] reads. *)
Record pam_config : Type := mk_config {
  ccache_dir : string;
  fast_ccache : option string;
  anon_fast : bool
}.

(** The [HAVE_KRB5_GET_INIT_CREDS_OPT_SET_*] tests of [config.h] that
    select the variants of the two functions. *)
Record build : Type := mk_build {
  HAVE_SET_ANONYMOUS : bool;
  HAVE_SET_OUT_CCACHE : bool;
  HAVE_SET_FAST_CCACHE_NAME : bool
}.

(** A [krb5_ccache] handle is known by the name it was resolved from. *)
Definition ccache : Type := string.

Inductive event : Type :=
| EvCcResolve (cache : string)
| EvCcGetPrincipal (cache : ccache)
| EvCcClose (cache : ccache)
| EvCcDestroy (cache : ccache)
| EvCcGetFullName (cache : ccache)
| EvCcInitialize (cache : ccache)
| EvCcStoreCred (cache : ccache)
| EvGetDefaultRealm
| EvBuildPrincipal (realm : string) (comps : list string)
| EvAsprintf (text : string)
| EvMkstemp (template : string)
| EvOptAlloc
| EvOptFree
| EvExchange (p : principal) (pass : option string) (opts : creds_opt)
| EvSetFastCcacheName (cache : string).

Definition history : Type := list event.

Record world : Type := mk_world {
  krb5_cc_resolve : history -> string -> answer ccache;
  krb5_cc_get_principal : history -> ccache -> answer principal;
  krb5_cc_get_full_name : history -> ccache -> answer string;
  krb5_cc_initialize : history -> ccache -> Z;
  krb5_cc_store_cred : history -> ccache -> Z;
  krb5_get_default_realm : history -> answer string;
  (* the status; with status 0 the principal has the realm and the
     components given *)
  krb5_build_principal_ext : history -> string -> list string -> Z;
  (* asprintf fails with the errno it sets *)
  asprintf : history -> string -> answer unit;
  (* int pamk5_cache_mkstemp(args, char *template): the name that
     replaced the template, or (for any status but PAM_SUCCESS) the errno
     left behind *)
  pamk5_cache_mkstemp : history -> string -> string + Z;
  krb5_get_init_creds_opt_alloc : history -> Z;
  krb5_get_init_creds_password :
    history -> principal -> option string -> creds_opt -> Z;
  krb5_get_init_creds_opt_set_fast_ccache_name : history -> string -> Z
}.

(** [args->config->ctx]: NULL, or the context with its
    [anon_fast_ccache] field. *)
Record state : Type := mk_state {
  errno : Z;
  ctx : option (option ccache);
  trace : history
}.

Definition M (A : Type) : Type := run state A.

Definition log (e : event) (s : state) : state :=
  mk_state (errno s) (ctx s) (e :: trace s).

Definition set_errno (v : Z) (s : state) : state :=
  mk_state v (ctx s) (trace s).

Definition set_anon_fast_ccache (v : option ccache) (s : state) : state :=
  mk_state (errno s) (Some v) (trace s).

Definition call {A : Type} (e : event) (f : history -> A) : M A :=
  fun s => Ok (f (trace s)) (log e s).

(** [args->config->ctx->anon_fast_ccache], and the
    [args->config->ctx->context] both functions start with. *)
Definition deref_ctx : M (option ccache) :=
  fun s =>
    match ctx s with
    | Some c => Ok c s
    | None => Undefined "args->config->ctx is NULL and is dereferenced"
    end.

(** [strncmp("FILE:", dir, strlen("FILE:")) == 0], then [dir += 5]. *)
Definition strip_file_prefix (dir : string) : string :=
  if String.prefix "FILE:" dir then String.substring 5 (String.length dir - 5) dir
  else dir.

(** The anonymous principal of [realm]. *)
Definition anonymous_principal (realm : string) : principal :=
  mk_principal realm [KRB5_WELLKNOWN_NAME; KRB5_ANON_NAME].

(** Lines 99-135 of [cache_init_anonymous]: obtain the credentials into
    the cache just resolved.  The result is the status and whether an
    option set was allocated. *)
Definition obtain_anonymous (w : world) (b : build) (p : principal)
    (cache : ccache) : M (Z * bool) :=
  r <- call EvOptAlloc (krb5_get_init_creds_opt_alloc w) ;;
  if negb (r =? 0) then ret (r, false)
  else
    let opts := ([SetAnonymous 1; SetTktLife 60]
                 ++ (if HAVE_SET_OUT_CCACHE b then [SetOutCcache cache]
                     else []))%list in
    r <- call (EvExchange p None opts)
              (fun h => krb5_get_init_creds_password w h p None opts) ;;
    if negb (r =? 0) then ret (r, true)
    else if HAVE_SET_OUT_CCACHE b then ret (r, true)
    else
      r <- call (EvCcInitialize cache) (fun h => krb5_cc_initialize w h cache) ;;
      if negb (r =? 0) then ret (r, true)
      else
        r <- call (EvCcStoreCred cache)
                  (fun h => krb5_cc_store_cred w h cache) ;;
        ret (r, true).

(** [cache_init_anonymous]  (fast.c, lines 35-151): the status returned
    and the value left in [*ccache] ([None] is NULL).  In a build without
    [krb5_get_init_creds_opt_set_anonymous] the first variant (lines
    35-40) is compiled, which stores nothing. *)
Definition cache_init_anonymous (w : world) (b : build) (cfg : pam_config)
    (ccache0 : option ccache) : M (Z * option ccache) :=
  if negb (HAVE_SET_ANONYMOUS b) then ret (KRB5KDC_ERR_BADOPTION, ccache0)
  else
    _ <- deref_ctx ;;
    realm <- call EvGetDefaultRealm (krb5_get_default_realm w) ;;
    match realm with
    | inr e => ret (code_of e, None)
    | inl realm =>
        let comps := [KRB5_WELLKNOWN_NAME; KRB5_ANON_NAME] in
        r <- call (EvBuildPrincipal realm comps)
                  (fun h => krb5_build_principal_ext w h realm comps) ;;
        if negb (r =? 0) then ret (r, None)
        else
          let p := anonymous_principal realm in
          let dir := strip_file_prefix (ccache_dir cfg) in
          let template := (dir ++ "/krb5cc_pam_armor_XXXXXX")%string in
          a <- call (EvAsprintf template) (fun h => asprintf w h template) ;;
          rc <- match a with
                | inr e => ret (code_of e, None, false)
                | inl _ =>
                    m <- call (EvMkstemp template)
                              (fun h => pamk5_cache_mkstemp w h template) ;;
                    match m with
                    | inr e => modify (set_errno e) ;;; ret (e, None, false)
                    | inl path =>
                        c <- call (EvCcResolve path)
                                  (fun h => krb5_cc_resolve w h path) ;;
                        match c with
                        | inr e => ret (code_of e, None, false)
                        | inl cache =>
                            rv <- obtain_anonymous w b p cache ;;
                            ret (fst rv, Some cache, snd rv)
                        end
                    end
                end ;;
          (* done: *)
          let '(retval, cache, have_opts) := rc in
          cache' <- match cache with
                    | Some handle =>
                        if negb (retval =? 0) then
                          call (EvCcDestroy handle) (fun _ => tt) ;;; ret None
                        else ret cache
                    | None => ret None
                    end ;;
          (if have_opts : bool then call EvOptFree (fun _ => tt)
           else ret tt) ;;;
          ret (retval, cache')
    end.

(** Lines 187-203 of [pamk5_fast_setup]: whether the configured cache
    resolves and holds a principal. *)
Definition probe_configured_cache (w : world) (cfg : pam_config) : M bool :=
  match fast_ccache cfg with
  | None => ret false
  | Some cache =>
      r <- call (EvCcResolve cache) (fun h => krb5_cc_resolve w h cache) ;;
      match r with
      | inr _ => ret false
      | inl handle =>
          p <- call (EvCcGetPrincipal handle)
                    (fun h => krb5_cc_get_principal w h handle) ;;
          call (EvCcClose handle) (fun _ => tt) ;;;
          ret (match p with inl _ => true | inr _ => false end)
      end
  end.

(** Lines 204-221: the anonymous fallback.  [None] is the [return] of
    line 208; otherwise the cache name to use, if there is one. *)
Definition anonymous_fallback (w : world) (b : build) (cfg : pam_config)
  : M (option (option string)) :=
  rc <- cache_init_anonymous w b cfg None ;;
  if negb (fst rc =? 0) then ret None
  else
    old <- deref_ctx ;;
    match old with
    | Some o => call (EvCcDestroy o) (fun _ => tt)
    | None => ret tt
    end ;;;
    modify (set_anon_fast_ccache (snd rc)) ;;;
    match snd rc with
    | None => undefined "krb5_cc_get_full_name on a NULL cache handle"
    | Some cache =>
        n <- call (EvCcGetFullName cache)
                  (fun h => krb5_cc_get_full_name w h cache) ;;
        ret (Some (match n with inl full => Some full | inr _ => None end))
    end.

(** [pamk5_fast_setup]  (fast.c, lines 163-238): the option set it leaves.
    Without [krb5_get_init_creds_opt_set_fast_ccache_name] the function
    is empty. *)
Definition pamk5_fast_setup (w : world) (b : build) (cfg : pam_config)
    (opts : creds_opt) : M creds_opt :=
  if negb (HAVE_SET_FAST_CCACHE_NAME b) then ret opts
  else
    _ <- deref_ctx ;;
    valid <- probe_configured_cache w cfg ;;
    chosen <- (if negb valid && anon_fast cfg then
                 anonymous_fallback w b cfg
               else ret (Some (if valid then fast_ccache cfg else None))) ;;
    match chosen with
    | None => ret opts
    | Some None => ret opts
    | Some (Some cache) =>
        r <- call (EvSetFastCcacheName cache)
                  (fun h => krb5_get_init_creds_opt_set_fast_ccache_name
                              w h cache) ;;
        if r =? 0 then ret (opts ++ [SetFastCcacheName cache])%list
        else ret opts
    end.

(** ** Observations on a run *)

(** [h'] is [h] with later calls in front. *)
Definition extends (h h' : history) : Prop := exists later, h' = (later ++ h)%list.

End Fast.

(** * Concrete collaborators

    A small world in which every proposition below can be evaluated: a
    parser that splits a text at its only [@], a key distribution centre
    given as a function of the principal and the password, and one
    [.k5login] file with its owner. *)

Module Scenario.

Import Auth.

Definition parse (text : string) : answer principal :=
  match split_at AT text with
  | Some (n, r) =>
      if strchr r AT then inr (Neg 1765328250) else inl (mk_principal r [n])
  | None => inl (mk_principal "DEFAULT.EXAMPLE" [text])
  end.

Definition the_world
    (kdc : option principal -> option string -> Z)
    (k5login : answer string) (owner : Z) (verify : Z) (pkinit : Z)
    (garbage : Z) : world :=
  mk_world
    (fun _ _ _ => (PAM_SUCCESS, None))
    (fun _ _ => inl "typed")
    (fun _ _ => PAM_SUCCESS)
    (fun _ _ _ => PAM_SUCCESS)
    (fun _ => true)
    (fun _ text => parse text)
    (fun _ _ => inl "name")
    (fun _ _ => inl "local")
    (fun _ => 0)
    (fun _ => 0)
    (fun _ _ _ _ => pkinit)
    (fun _ p pass _ _ => kdc p pass)
    (fun _ _ => 0)
    (fun _ => 0)
    (fun _ => inl (mk_principal "EXAMPLE.ORG" ["host"; "login"]))
    (fun _ _ => 0)
    (fun _ _ _ _ => verify)
    (fun _ user => Some (mk_passwd ("/home/" ++ user) 1000))
    (fun _ _ => inl tt)
    (fun _ _ => k5login)
    (fun _ _ => inl owner)
    garbage.

(** A KDC that knows one password for every principal. *)
Definition kdc_secret (p : option principal) (pass : option string) : Z :=
  match pass with
  | Some "secret" => 0
  | _ => KRB5KRB_AP_ERR_BAD_INTEGRITY
  end.

(** A KDC that accepts only [bob@REALM]. *)
Definition kdc_bob (p : option principal) (pass : option string) : Z :=
  match p with
  | Some (mk_principal "REALM" ["bob"]) => 0
  | _ => KRB5KRB_AP_ERR_BAD_INTEGRITY
  end.

(** A KDC that cannot be reached. *)
Definition kdc_down (p : option principal) (pass : option string) : Z :=
  KRB5_KDC_UNREACH.

(** A KDC for which no password is the right one. *)
Definition kdc_mismatch (p : option principal) (pass : option string) : Z :=
  KRB5KRB_AP_ERR_BAD_INTEGRITY.

Definition no_file : answer string := inr (Pos 2).

Definition bob_file : answer string :=
  inl (String.concat (String NL "") ["bob@OTHER"; "bob@REALM"; "bob@LAST"; ""]).

Definition plain_build : build := mk_build false false false 0 0 256.

Definition pkinit_build : build := mk_build true false false 0 0 256.

Definition plain_args : pam_args :=
  mk_args false false 0 0 None (Some "EXAMPLE.ORG") false false false false
          false false false false None None None 0.

(** [search_k5login] *)
Definition k5login_args : pam_args :=
  mk_args false false 0 0 None (Some "EXAMPLE.ORG") false true false false
          false false false false None None None 0.

(** [try_first_pass] *)
Definition first_pass_args : pam_args :=
  mk_args false false 0 0 None (Some "EXAMPLE.ORG") false false true false
          false false false false None None None 0.

(** [use_pkinit] *)
Definition pkinit_args : pam_args :=
  mk_args false false 0 0 None (Some "EXAMPLE.ORG") false false false false
          false false true false None None None 0.

(** The state a caller starts from: [*creds] NULL, nothing allocated,
    errno 0, the account name in the context. *)
Definition start (account : string) (stored : option string) : state :=
  mk_state 0 (Some (mk_context account None)) None [] [] 1 stored None [].

(** A KDC that accepts the PKINIT exchange (no password) and nothing
    else. *)
Definition kdc_card (p : option principal) (pass : option string) : Z :=
  match pass with
  | None => 0
  | Some _ => KRB5KRB_AP_ERR_BAD_INTEGRITY
  end.

(** The state in the middle of a call: the credential structure at
    address 1 is allocated and [*creds] points to it. *)
Definition allocated (account : string) : state :=
  mk_state 0 (Some (mk_context account None)) (Some 1%nat) [(1%nat, false)]
           [] 2 None None [].

(** A trust file of which the parser accepts no line. *)
Definition junk_file : answer string :=
  inl (String.concat (String NL "") ["x@y@z"; "q@@"; ""]).

(** The collaborators of [fast.c]: no cache can be read under the
    configured name, every other call succeeds, and the unique name made
    from a template ends in [a1B2c3]. *)
Definition fast_world : Fast.world :=
  Fast.mk_world
    (fun _ cache =>
       if String.eqb cache "/tmp/krb5cc_armor" then inr (Neg 1765328189)
       else inl cache)
    (fun _ _ => inr (Neg 1765328189))
    (fun _ cache => inl ("FILE:" ++ cache))
    (fun _ _ => 0)
    (fun _ _ => 0)
    (fun _ => inl "EXAMPLE.ORG")
    (fun _ _ _ => 0)
    (fun _ _ => inl tt)
    (fun _ template =>
       inl (String.substring 0 (String.length template - 6) template
            ++ "a1B2c3"))
    (fun _ => 0)
    (fun _ _ _ _ => 0)
    (fun _ _ => 0).

Definition fast_build : Fast.build := Fast.mk_build true true true.

Definition fast_config : Fast.pam_config :=
  Fast.mk_config "FILE:/tmp" (Some "/tmp/krb5cc_armor") true.

Definition fast_start : Fast.state := Fast.mk_state 0 (Some None) [].

End Scenario.

(** * Further observations *)

Module Observe.

Import Auth.

(** The texts handed to [krb5_parse_name], oldest first. *)
Fixpoint parsed (h : history) : list string :=
  match h with
  | [] => []
  | EvParseName t :: h' => (parsed h' ++ [t])%list
  | _ :: h' => parsed h'
  end.


(** [h'] is [h] followed by calls that all satisfy [allowed]. *)
Definition grows (allowed : event -> bool) (h h' : history) : Prop :=
  exists later, h' = (later ++ h)%list /\ forallb allowed later = true.

(** [st'] is reached from [st] by calls that all satisfy [allowed]. *)
Definition emits (allowed : event -> bool) (st st' : state) : Prop :=
  grows allowed (trace st) (trace st').

(** The same, and the passwords stored in PAM are as they were. *)
Definition quiet (allowed : event -> bool) (st st' : state) : Prop :=
  emits allowed st st'
  /\ authtok st' = authtok st /\ oldauthtok st' = oldauthtok st.

(** The calls of [parse_name]. *)
Definition parse_event (e : event) : bool :=
  match e with
  | EvConv _ _ | EvMalloc | EvParseName _ | EvAnameToLocalname _ => true
  | _ => false
  end.

(** The calls of [pkinit_auth]; its exchange carries no password. *)
Definition pkinit_event (e : event) : bool :=
  match e with
  | EvConv _ _ | EvCalloc _ | EvOptAlloc | EvSetPkinit _ _ _ | EvOptFree
  | EvFreeCredContents _ | EvFree _ | EvExchange _ None _ _ => true
  | _ => false
  end.

(** The calls of [pamk5_password_auth] up to the PKINIT step; [pk] says
    whether [pkinit_auth] is compiled in. *)
Definition early_event (pk : bool) (e : event) : bool :=
  match e with
  | EvUnparseName _ => true
  | _ => parse_event e || (pk && pkinit_event e)
  end.

(** The calls of [pamk5_password_auth] before its password loop. *)
Definition setup_event (pk : bool) (e : event) : bool :=
  match e with
  | EvCalloc _ | EvOptAlloc | EvGetItem _ => true
  | _ => early_event pk e
  end.

(** The calls of the trust-file reader and of a direct attempt. *)
Definition attempt_event (e : event) : bool :=
  match e with
  | EvGetpwnam _ | EvMalloc | EvAccess _ | EvFopen _ | EvFstat _
  | EvFclose _ | EvParseName _ | EvExchange _ _ _ _ => true
  | _ => false
  end.

(** The calls that get a password from the user or from PAM. *)
Definition password_event (e : event) : bool :=
  match e with
  | EvGetPassword _ | EvSetItem _ _ | EvGetItem _ => true
  | _ => false
  end.

(** The calls of one pass of the password loop. *)
Definition pass_event (e : event) : bool :=
  password_event e || attempt_event e.

(** The calls that release what was allocated. *)
Definition release_event (e : event) : bool :=
  match e with
  | EvFreeCredContents _ | EvFree _ | EvOptFree => true
  | _ => false
  end.

(** The calls of [verify_creds]. *)
Definition verify_event (e : event) : bool :=
  match e with
  | EvKtResolve _ | EvKtStartSeqGet | EvKtNextEntry | EvCopyPrincipal _
  | EvVerify _ _ _ => true
  | _ => false
  end.

(** The calls made at the label [done]. *)
Definition done_event (e : event) : bool :=
  verify_event e || release_event e.

(** Every call but the verification of a credential. *)
Definition not_verify (e : event) : bool :=
  match e with
  | EvVerify _ _ _ => false
  | _ => true
  end.

(** Every call but a password prompt, a read or a write of the password
    stored in PAM, and an exchange that carries a password. *)
Definition no_password (e : event) : bool :=
  match e with
  | EvGetPassword _ => false
  | EvGetItem _ => false
  | EvSetItem _ _ => false
  | EvExchange _ (Some _) _ _ => false
  | _ => true
  end.

(** Every call but a password prompt. *)
Definition no_prompt (e : event) : bool :=
  match e with
  | EvGetPassword _ => false
  | _ => true
  end.

(** Every call but an exchange with the KDC. *)
Definition no_exchange (e : event) : bool :=
  match e with
  | EvExchange _ _ _ _ => false
  | _ => true
  end.

(** The status and [creds_valid] with which the password loop reaches
    the label [done]. *)
Definition loop_exit (e : pass_end) : Z * Z :=
  match e with
  | PassGotoDone v => (v, 0)
  | PassBreak v | PassTest _ v => (v, if negb (v =? 0) then 0 else 1)
  end.

(** The values [pamk5_password_auth] returns. *)
Definition pam_results : list Z :=
  [PAM_SUCCESS; PAM_SERVICE_ERR; PAM_AUTH_ERR; PAM_USER_UNKNOWN;
   PAM_NEW_AUTHTOK_REQD; PAM_ACCT_EXPIRED; PAM_AUTHINFO_UNAVAIL].

End Observe.

(** * Further concrete collaborators *)

Module Cases.

Import Auth.

(** The same collaborators, for an account that has no passwd entry. *)
Definition without_account (w : world) : world :=
  mk_world
    (pamk5_conv w)
    (pamk5_get_password w)
    (pam_get_item w)
    (pam_set_item w)
    (malloc w)
    (krb5_parse_name w)
    (krb5_unparse_name w)
    (krb5_aname_to_localname w)
    (pamk5_compat_opt_alloc w)
    (krb5_get_init_creds_opt_alloc w)
    (krb5_get_init_creds_opt_set_pkinit w)
    (krb5_get_init_creds_password w)
    (krb5_kt_resolve w)
    (krb5_kt_start_seq_get w)
    (krb5_kt_next_entry w)
    (krb5_copy_principal w)
    (krb5_verify_init_creds w)
    (fun _ _ => None)
    (access w)
    (fopen w)
    (fstat w)
    (uninitialized_creds_valid w).

(** The same collaborators, with a user who answers the prompt for the
    principal. *)
Definition answering (answer : string) (w : world) : world :=
  mk_world
    (fun _ _ _ => (PAM_SUCCESS, Some answer))
    (pamk5_get_password w)
    (pam_get_item w)
    (pam_set_item w)
    (malloc w)
    (krb5_parse_name w)
    (krb5_unparse_name w)
    (krb5_aname_to_localname w)
    (pamk5_compat_opt_alloc w)
    (krb5_get_init_creds_opt_alloc w)
    (krb5_get_init_creds_opt_set_pkinit w)
    (krb5_get_init_creds_password w)
    (krb5_kt_resolve w)
    (krb5_kt_start_seq_get w)
    (krb5_kt_next_entry w)
    (krb5_copy_principal w)
    (krb5_verify_init_creds w)
    (pamk5_compat_getpwnam w)
    (access w)
    (fopen w)
    (fstat w)
    (uninitialized_creds_valid w).

(** [prompt_princ] *)
Definition prompt_args : pam_args :=
  mk_args false false 0 0 None (Some "EXAMPLE.ORG") true false false false
          false false false false None None None 0.

(** A KDC that accepts [bob@REALM], does not know [bob@LAST] and finds
    the password wrong for everyone else. *)
Definition kdc_last_unknown (p : option principal) (pass : option string)
  : Z :=
  match p with
  | Some (mk_principal "REALM" _) => 0
  | Some (mk_principal "LAST" _) => KRB5KDC_ERR_C_PRINCIPAL_UNKNOWN
  | _ => KRB5KRB_AP_ERR_BAD_INTEGRITY
  end.

(** A trust file whose last line has no newline. *)
Definition cut_file : answer string :=
  inl (lines_then ["bob@OTHER"; "bob@LAST"] "bob@REALM").



(** A build whose line buffer holds 8 bytes. *)
Definition small_build : build := mk_build false false false 0 0 8.

(** [use_authtok] *)
Definition authtok_args : pam_args :=
  mk_args false false 0 0 None (Some "EXAMPLE.ORG") false false false false
          true false false false None None None 0.


(** The state of a caller that changes a password: the old password is
    stored in PAM. *)
Definition changing (account old : string) : state :=
  mk_state 0 (Some (mk_context account None)) None [] [] 1 None (Some old) [].

(** The collaborators of [fast.c] when the configured cache is there. *)
Definition fast_world_valid : Fast.world :=
  Fast.mk_world
    (fun _ cache => inl cache)
    (fun _ _ => inl (mk_principal "EXAMPLE.ORG" ["host"; "login"]))
    (fun _ cache => inl ("FILE:" ++ cache))
    (fun _ _ => 0)
    (fun _ _ => 0)
    (fun _ => inl "EXAMPLE.ORG")
    (fun _ _ _ => 0)
    (fun _ _ => inl tt)
    (fun _ template => inl template)
    (fun _ => 0)
    (fun _ _ _ _ => 0)
    (fun _ _ => 0).

(** The collaborators of [fast.c] when no cache can be read under the
    configured name and the KDC cannot be reached. *)
Definition fast_world_down : Fast.world :=
  Fast.mk_world
    (fun _ cache =>
       if String.eqb cache "/tmp/krb5cc_armor" then inr (Neg 1765328189)
       else inl cache)
    (fun _ _ => inr (Neg 1765328189))
    (fun _ cache => inl ("FILE:" ++ cache))
    (fun _ _ => 0)
    (fun _ _ => 0)
    (fun _ => inl "EXAMPLE.ORG")
    (fun _ _ _ => 0)
    (fun _ _ => inl tt)
    (fun _ template => inl template)
    (fun _ => 0)
    (fun _ _ _ _ => KRB5_KDC_UNREACH)
    (fun _ _ => 0).

(** The context holds the anonymous cache of an earlier call. *)
Definition fast_again : Fast.state :=
  Fast.mk_state 0 (Some (Some "/tmp/krb5cc_pam_armor_old000")) [].

End Cases.

(** * Properties of [auth.c] *)

Module AuthFacts.

Import Auth.

(** ** Running the monad *)

Lemma bind_ok {S A B : Type} (m : run S A) (k : A -> run S B) s a s' :
  m s = Ok a s' -> bind m k s = k a s'.
Proof. intros H. unfold bind. now rewrite H. Qed.

Lemma bind_inv {S A B : Type} (m : run S A) (k : A -> run S B) s b s'' :
  bind m k s = Ok b s'' ->
  exists a s', m s = Ok a s' /\ k a s' = Ok b s''.
Proof.
  unfold bind. destruct (m s) as [a s'| |]; try discriminate.
  intros H. now exists a, s'.
Qed.

(** Splits a run that ended well into the runs of its parts. *)
Ltac split_run H :=
  let a := fresh "a" in
  let s := fresh "s" in
  let Hm := fresh "Hm" in
  apply bind_inv in H; destruct H as (a & s & Hm & H).

Tactic Notation "split_bind" hyp(H) "as" ident(a) ident(s) ident(Hm) :=
  apply bind_inv in H; destruct H as (a & s & Hm & H).

(** ** The Kerberos status and the PAM status *)

Lemma pam_status_of_cases e :
  (e = KRB5KDC_ERR_C_PRINCIPAL_UNKNOWN -> pam_status_of e = PAM_USER_UNKNOWN)
  /\ (e = KRB5KDC_ERR_KEY_EXP -> pam_status_of e = PAM_NEW_AUTHTOK_REQD)
  /\ (e = KRB5KDC_ERR_NAME_EXP -> pam_status_of e = PAM_ACCT_EXPIRED)
  /\ (e = KRB5_KDC_UNREACH \/ e = KRB5_REALM_CANT_RESOLVE ->
      pam_status_of e = PAM_AUTHINFO_UNAVAIL)
  /\ (e <> KRB5KDC_ERR_C_PRINCIPAL_UNKNOWN -> e <> KRB5KDC_ERR_KEY_EXP ->
      e <> KRB5KDC_ERR_NAME_EXP -> e <> KRB5_KDC_UNREACH ->
      e <> KRB5_REALM_CANT_RESOLVE -> pam_status_of e = PAM_AUTH_ERR).
Proof.
  repeat split.
  - now intros ->.
  - now intros ->.
  - now intros ->.
  - now intros [-> | ->].
  - intros H1 H2 H3 H4 H5. unfold pam_status_of.
    apply Z.eqb_neq in H1, H2, H3, H4, H5.
    now rewrite H1, H2, H3, H4, H5.
Qed.

(** C10.  A call whose argument structure carries no context returns
    PAM_SERVICE_ERR at once: the state it leaves is the state it found, so
    no principal was resolved, no exchange was made and no credential
    structure was allocated. *)
Theorem null_context_returns_service_error
    (fuel : nat) (w : world) (b : build) (args : pam_args)
    (service : option string) (st : state) :
  ctx st = None ->
  pamk5_password_auth fuel w b args service st = Ok PAM_SERVICE_ERR st.
Proof.
  intros H. unfold pamk5_password_auth, acquire, bind, get.
  now rewrite H.
Qed.

Lemma null_context_returns_service_error_witness :
  pamk5_password_auth 0 (Scenario.the_world Scenario.kdc_secret
                           Scenario.no_file 0 0 0 0)
    Scenario.plain_build Scenario.plain_args None
    (mk_state 0 None (Some 7%nat) [] [] 1 None None [])
  = Ok PAM_SERVICE_ERR (mk_state 0 None (Some 7%nat) [] [] 1 None None []).
Proof.
  apply (null_context_returns_service_error 0 _ _ _ None
           (mk_state 0 None (Some 7%nat) [] [] 1 None None [])).
  reflexivity.
Defined.

(** C6.  Whenever a call reaches the label [done] and the status it
    holds after the verification step is a failure [e], the value the
    call returns is the image of [e] under the switch: user unknown for
    an unknown principal, new token required for an expired key, account
    expired for an expired principal, authentication information
    unavailable for an unreachable KDC or an unresolvable realm, and the
    generic authentication error for every other status. *)
Theorem terminal_failure_is_mapped
    (fuel : nat) (w : world) (b : build) (args : pam_args)
    (service : option string) (st st1 st2 st3 : state)
    (retval creds_valid e r : Z) (opts : option creds_opt) :
  acquire fuel w b args service st = Ok (GotoDone retval creds_valid opts) st1 ->
  verify_step w args service retval st1 = Ok e st2 ->
  e <> 0 ->
  pamk5_password_auth fuel w b args service st = Ok r st3 ->
  r = pam_status_of e
  /\ (e = KRB5KDC_ERR_C_PRINCIPAL_UNKNOWN -> r = PAM_USER_UNKNOWN)
  /\ (e = KRB5KDC_ERR_KEY_EXP -> r = PAM_NEW_AUTHTOK_REQD)
  /\ (e = KRB5KDC_ERR_NAME_EXP -> r = PAM_ACCT_EXPIRED)
  /\ (e = KRB5_KDC_UNREACH \/ e = KRB5_REALM_CANT_RESOLVE ->
      r = PAM_AUTHINFO_UNAVAIL)
  /\ (e <> KRB5KDC_ERR_C_PRINCIPAL_UNKNOWN -> e <> KRB5KDC_ERR_KEY_EXP ->
      e <> KRB5KDC_ERR_NAME_EXP -> e <> KRB5_KDC_UNREACH ->
      e <> KRB5_REALM_CANT_RESOLVE -> r = PAM_AUTH_ERR).
Proof.
  intros Hacq Hver He Hrun.
  assert (Hr : r = pam_status_of e).
  { unfold pamk5_password_auth in Hrun.
    rewrite (bind_ok _ _ _ _ _ Hacq) in Hrun.
    unfold done_label in Hrun.
    rewrite (bind_ok _ _ _ _ _ Hver) in Hrun.
    apply Z.eqb_neq in He. rewrite He in Hrun.
    split_run Hrun. split_run Hm.
    unfold ret in Hm. injection Hm as <- <-.
    split_run Hrun. unfold ret in Hrun. now injection Hrun as <- <-. }
  rewrite Hr. split; [reflexivity | apply pam_status_of_cases].
Qed.

Lemma terminal_failure_is_mapped_witness :
  exists st3,
    pamk5_password_auth 2 (Scenario.the_world Scenario.kdc_down
                             Scenario.no_file 0 0 0 0)
      Scenario.plain_build Scenario.plain_args None
      (Scenario.start "alice" None)
    = Ok PAM_AUTHINFO_UNAVAIL st3
    /\ PAM_AUTHINFO_UNAVAIL = pam_status_of KRB5_KDC_UNREACH.
Proof.
  eexists. split; [vm_compute; reflexivity | ].
  refine (proj1 (terminal_failure_is_mapped 2
                   (Scenario.the_world Scenario.kdc_down Scenario.no_file
                                       0 0 0 0)
                   Scenario.plain_build Scenario.plain_args None
                   (Scenario.start "alice" None) _ _ _ _ _
                   KRB5_KDC_UNREACH PAM_AUTHINFO_UNAVAIL _ _ _ _ _)).
  - vm_compute; reflexivity.
  - vm_compute; reflexivity.
  - discriminate.
  - vm_compute; reflexivity.
Defined.

(** ** Principal resolution *)


Lemma prompt_for_principal_ctx w args c st user st1 :
  prompt_for_principal w args c st = Ok user st1 -> ctx st1 = ctx st.
Proof.
  unfold prompt_for_principal.
  destruct (prompt_princ args).
  - unfold bind, call.
    destruct (snd (pamk5_conv w (trace st) "Principal: " true)) as [t |];
      simpl.
    + destruct t; intros H; injection H as <- <-; reflexivity.
    + destruct (name c); [discriminate |].
      intros H; injection H as <- <-; reflexivity.
  - intros H; injection H as <- <-; reflexivity.
Qed.






(** ** The trust file *)

(** Unfolds the monad and the calls to the collaborators. *)
Ltac unfold_run :=
  unfold fclose, opt_free, set_princ, set_name;
  unfold bind, call, call_errno, deref_ctx, get, ret, modify, undefined;
  cbn [trace log ctx errno set_errno set_ctx heap leaked creds_out
       next_addr authtok oldauthtok].

Ltac tidy :=
  cbv beta iota;
  cbn [trace log ctx errno set_errno set_ctx heap leaked creds_out
       next_addr authtok oldauthtok negb andb orb fst snd];
  cbv beta iota.

(** C2.  When the trust file of the account is opened and belongs
    neither to the account nor to uid 0, the trust-file authentication
    returns PAM_AUTH_ERR: the file is closed, no line of it is parsed and
    no exchange is attempted, and the context keeps its principal. *)
Theorem foreign_trust_file_is_refused
    (w : world) (b : build) (creds : option nat) (opts : creds_opt)
    (service pass : option string) (st : state) (c : context) (pw : passwd)
    (content : string) (st_uid : Z) :
  let file := (pw_dir pw ++ "/.k5login")%string in
  let h1 := EvGetpwnam (name c) :: trace st in
  let h2 := EvMalloc :: h1 in
  let h3 := EvAccess file :: h2 in
  let h4 := EvFopen file :: h3 in
  ctx st = Some c ->
  pamk5_compat_getpwnam w (trace st) (name c) = Some pw ->
  malloc w h1 = true ->
  access w h2 file = inl tt ->
  fopen w h3 file = inl content ->
  fstat w h4 file = inl st_uid ->
  st_uid <> 0 ->
  st_uid <> pw_uid pw ->
  exists st',
    k5login_password_auth w b creds opts service pass st
    = Ok (PAM_AUTH_ERR, errno st) st'
    /\ trace st' = EvFclose file :: EvFstat file :: h4
    /\ attempted (trace st') = attempted (trace st)
    /\ ctx st' = ctx st.
Proof.
  intros file h1 h2 h3 h4 Hc Hpw Hmem Hacc Hopen Hstat H0 Huid.
  subst file h1 h2 h3 h4.
  unfold k5login_password_auth. unfold_run.
  rewrite Hc. tidy. rewrite Hpw. tidy. rewrite Hmem. tidy.
  rewrite Hacc. tidy. rewrite Hopen. tidy. rewrite Hstat.
  apply Z.eqb_neq in H0, Huid. rewrite H0, Huid. tidy.
  eexists. split; [reflexivity |]. tidy.
  repeat split. exact Hc.
Qed.

(** *** Strings and [fgets] *)

Lemma length_append (a b : string) :
  String.length (a ++ b) = (String.length a + String.length b)%nat.
Proof. induction a as [| x a IH]; simpl; [reflexivity | now rewrite IH]. Qed.

Lemma append_assoc (a b c : string) : ((a ++ b) ++ c = a ++ (b ++ c))%string.
Proof. induction a as [| x a IH]; simpl; [reflexivity | now rewrite IH]. Qed.

Lemma strchr_append (a b : string) (c : ascii) :
  strchr (a ++ b) c = strchr a c || strchr b c.
Proof.
  induction a as [| x a IH]; simpl; [reflexivity |].
  destruct (Ascii.eqb x c); [reflexivity | exact IH].
Qed.

Lemma strlen_text (s : string) :
  strchr s NUL = false -> strlen s = String.length s.
Proof.
  induction s as [| x s IH]; simpl; [reflexivity |].
  destruct (Ascii.eqb x NUL); [discriminate |].
  intros H. now rewrite IH.
Qed.

Lemma char_at_line (l : string) :
  char_at (String.length l) (l ++ String NL EmptyString) = Some NL.
Proof. induction l as [| x l IH]; simpl; [reflexivity | exact IH]. Qed.

Lemma strtake_line (l t : string) : strtake (String.length l) (l ++ t) = l.
Proof.
  induction l as [| x l IH]; simpl.
  - now destruct t.
  - now rewrite IH.
Qed.

Lemma char_at_absent (s : string) (c : ascii) (i : nat) :
  strchr s c = false ->
  match char_at i s with
  | Some a => Ascii.eqb a c
  | None => false
  end = false.
Proof.
  revert i. induction s as [| x s IH]; intros i; simpl.
  - now destruct i.
  - destruct (Ascii.eqb x c) eqn:Hx; [discriminate |].
    intros H. destruct i; [exact Hx | now apply IH].
Qed.

(** A whole line is read when it fits. *)
Lemma fgets_chars_line (l rest : string) (room : nat) :
  strchr l NL = false ->
  (String.length l < room)%nat ->
  fgets_chars room (l ++ String NL rest) = (l ++ String NL EmptyString, rest)%string.
Proof.
  revert room. induction l as [| x l IH]; intros room Hl Hroom.
  - destruct room; [lia |]. reflexivity.
  - destruct room; [simpl in Hroom; lia |]. simpl in Hl, Hroom |- *.
    destruct (Ascii.eqb x NL); [discriminate |].
    rewrite IH by (assumption || lia). reflexivity.
Qed.

(** What [fgets] reads in general: a line with its newline, or a piece
    without newline that fills the buffer or ends the file. *)
Lemma fgets_chars_cases (room : nat) (s line rest : string) :
  fgets_chars room s = (line, rest) ->
  s = (line ++ rest)%string
  /\ ((exists l, line = (l ++ String NL EmptyString)%string
                 /\ strchr l NL = false)
      \/ (strchr line NL = false
          /\ (room = O \/ s = EmptyString \/ line <> EmptyString))).
Proof.
  revert s line rest. induction room as [| room IH]; intros s line rest H.
  - simpl in H. injection H as <- <-. split; [reflexivity |].
    right. split; [reflexivity | now left].
  - destruct s as [| x s].
    + simpl in H. injection H as <- <-. split; [reflexivity |].
      right. split; [reflexivity | right; now left].
    + simpl in H. destruct (Ascii.eqb x NL) eqn:Hx.
      * injection H as <- <-. split; [reflexivity |].
        left. exists EmptyString. apply Ascii.eqb_eq in Hx. subst x.
        split; reflexivity.
      * destruct (fgets_chars room s) as [l r] eqn:Hf.
        injection H as <- <-.
        destruct (IH _ _ _ Hf) as [Hs Hc]. subst s.
        split; [reflexivity |].
        destruct Hc as [(l0 & -> & Hl0) | (Hl & _)].
        -- left. exists (String x l0). split; [reflexivity |].
           simpl. now rewrite Hx.
        -- right. split; [simpl; now rewrite Hx |].
           right; right; discriminate.
Qed.

Lemma ends_line_full (l : string) (st : state) :
  strchr l NUL = false ->
  ends_line (l ++ String NL EmptyString) st = Ok true st.
Proof.
  intros Hl. unfold ends_line.
  rewrite strlen_text
    by (rewrite strchr_append, Hl; reflexivity).
  rewrite length_append. cbn [String.length].
  replace (String.length l + 1)%nat with (S (String.length l)) by lia.
  now rewrite char_at_line.
Qed.

Lemma ends_line_piece (line : string) (st : state) :
  strchr line NUL = false ->
  strchr line NL = false ->
  line <> EmptyString ->
  ends_line line st = Ok false st.
Proof.
  intros Hnul Hnl Hne. unfold ends_line. rewrite (strlen_text _ Hnul).
  destruct line as [| x line]; [contradiction |].
  cbn [String.length]. unfold ret. f_equal.
  now apply char_at_absent.
Qed.

Lemma lines_from_piece (acc l rest : string) :
  strchr l NL = false ->
  lines_from acc (l ++ rest) = lines_from (acc ++ l) rest.
Proof.
  revert acc. induction l as [| x l IH]; intros acc Hl.
  - simpl. f_equal. clear. induction acc; simpl; congruence.
  - simpl in Hl |- *. destruct (Ascii.eqb x NL); [discriminate |].
    rewrite IH by assumption. f_equal. now rewrite append_assoc.
Qed.

Lemma lines_from_line (acc l rest : string) :
  strchr l NL = false ->
  lines_from acc (l ++ String NL rest) = (acc ++ l)%string :: lines_of rest.
Proof.
  intros Hl. rewrite lines_from_piece by assumption.
  simpl. reflexivity.
Qed.

(** Skipping the rest of a long line stops after a newline of the
    stream: no line of what is left is new. *)
Lemma skip_line_text (size : nat) (fuel : nat) (stream : string) (st : state) :
  (2 <= size)%nat ->
  (String.length stream < fuel)%nat ->
  strchr stream NUL = false ->
  exists rest,
    skip_line fuel size stream st = Ok rest st
    /\ (String.length rest <= String.length stream)%nat
    /\ strchr rest NUL = false
    /\ forall acc t, In t (lines_of rest) -> In t (lines_from acc stream).
Proof.
  intros Hsize. revert stream.
  induction fuel as [| fuel IH]; intros stream Hfuel Htext; [lia |].
  destruct stream as [| x s].
  - exists EmptyString. simpl. repeat split; auto.
  - cbn [skip_line fgets].
    destruct (fgets_chars (size - 1) (String x s)) as [line rest] eqn:Hf.
    destruct (fgets_chars_cases _ _ _ _ Hf) as [Hs Hc].
    assert (Hlen : String.length (String x s)
                   = (String.length line + String.length rest)%nat)
      by (rewrite Hs; apply length_append).
    assert (Hnul : strchr line NUL = false /\ strchr rest NUL = false).
    { rewrite Hs, strchr_append in Htext.
      now apply orb_false_iff in Htext. }
    destruct Hnul as [Hnl Hnr].
    destruct Hc as [(l & -> & Hl) | (Hl & Hne)].
    + assert (Hl0 : strchr l NUL = false).
      { rewrite strchr_append in Hnl. now apply orb_false_iff in Hnl. }
      unfold bind. rewrite ends_line_full by assumption.
      exists rest. rewrite Hlen. repeat split; auto; try lia.
      intros acc t Ht. rewrite Hs, append_assoc. simpl append.
      rewrite lines_from_line by assumption. now right.
    + assert (Hline : line <> EmptyString).
      { destruct Hne as [H | [H | H]]; [lia | discriminate | exact H]. }
      unfold bind. rewrite ends_line_piece by assumption.
      assert (Hpos : (0 < String.length line)%nat)
        by (destruct line; [contradiction | simpl; lia]).
      destruct (IH rest) as (rest' & Hrun & Hle & Hnr' & Hin);
        [simpl in Hfuel, Hlen; lia | assumption |].
      exists rest'. rewrite Hrun. repeat split; auto; try lia.
      intros acc t Ht. rewrite Hs.
      rewrite lines_from_piece by assumption. now apply Hin.
Qed.

(** When the parser rejects every line of the text left in the stream,
    the loop ends at [fail] with the status it was entered with and
    without an exchange. *)
Lemma read_k5login_all_rejected
    (w : world) (b : build) (creds : option nat) (opts : creds_opt)
    (service pass : option string) (file : string) (retval : Z) (fuel : nat)
    (stream : string) (st : state) :
  (2 <= BUFSIZ b)%nat ->
  (String.length stream < fuel)%nat ->
  strchr stream NUL = false ->
  (forall h t, In t (lines_of stream) ->
               exists e, krb5_parse_name w h t = inr e) ->
  exists st',
    read_k5login fuel w b creds opts service pass file stream retval st
    = Ok (PAM_AUTH_ERR, retval) st'
    /\ attempted (trace st') = attempted (trace st)
    /\ ctx st' = ctx st
    /\ creds_out st' = creds_out st
    /\ heap st' = heap st.
Proof.
  intros Hsize. revert stream st.
  induction fuel as [| fuel IH]; intros stream st Hfuel Htext Hrej; [lia |].
  destruct stream as [| x s].
  - cbn [read_k5login fgets]. unfold_run.
    eexists. split; [reflexivity |]. tidy. now repeat split.
  - cbn [read_k5login fgets].
    destruct (fgets_chars (BUFSIZ b - 1) (String x s)) as [line rest] eqn:Hf.
    destruct (fgets_chars_cases _ _ _ _ Hf) as [Hs Hc].
    assert (Hlen : String.length (String x s)
                   = (String.length line + String.length rest)%nat)
      by (rewrite Hs; apply length_append).
    assert (Hnul : strchr line NUL = false /\ strchr rest NUL = false).
    { rewrite Hs, strchr_append in Htext.
      now apply orb_false_iff in Htext. }
    destruct Hnul as [Hnl Hnr].
    destruct Hc as [(l & -> & Hl) | (Hl & Hne)].
    + assert (Hl0 : strchr l NUL = false).
      { rewrite strchr_append in Hnl. now apply orb_false_iff in Hnl. }
      assert (Hlines : lines_of (String x s) = l :: lines_of rest).
      { rewrite Hs, append_assoc. simpl append.
        unfold lines_of at 1. now rewrite lines_from_line. }
      unfold bind at 1. rewrite ends_line_full by assumption.
      cbn [negb].
      rewrite strlen_text by (rewrite strchr_append, Hl0; reflexivity).
      rewrite length_append. cbn [String.length].
      replace (String.length l + 1 - 1)%nat with (String.length l) by lia.
      rewrite strtake_line.
      unfold bind at 1. unfold call at 1.
      destruct (Hrej (trace st) l) as [e He];
        [rewrite Hlines; now left |].
      rewrite He.
      destruct (IH rest (log (EvParseName l) st))
        as (st' & Hrun & Ha & Hc' & Hco & Hh).
      * rewrite length_append in Hlen. simpl in Hfuel, Hlen. lia.
      * assumption.
      * intros h t Ht. apply Hrej. rewrite Hlines. now right.
      * exists st'. split; [exact Hrun |]. now repeat split.
    + assert (Hline : line <> EmptyString).
      { destruct Hne as [H | [H | H]]; [lia | discriminate | exact H]. }
      assert (Hpos : (0 < String.length line)%nat)
        by (destruct line; [contradiction | simpl; lia]).
      unfold bind at 1. rewrite ends_line_piece by assumption.
      cbn [negb].
      destruct (skip_line_text (BUFSIZ b) fuel rest st)
        as (rest' & Hskip & Hle & Hnr' & Hin);
        [assumption | simpl in Hfuel, Hlen; lia | assumption |].
      unfold bind at 1. rewrite Hskip.
      destruct (IH rest' st) as (st' & Hrun & Ha & Hc' & Hco & Hh).
      * simpl in Hfuel, Hlen. lia.
      * assumption.
      * intros h t Ht. apply Hrej. unfold lines_of. rewrite Hs.
        rewrite lines_from_piece by assumption. now apply Hin.
      * exists st'. split; [exact Hrun |]. now repeat split.
Qed.

(** The steps of [k5login_password_auth] up to the loop, for a trust
    file that is found, opened and owned by the account or by uid 0. *)
Lemma k5login_reads_accepted_file
    (w : world) (b : build) (creds : option nat) (opts : creds_opt)
    (service pass : option string) (st : state) (c : context) (pw : passwd)
    (content : string) (st_uid : Z) :
  let file := (pw_dir pw ++ "/.k5login")%string in
  let h1 := EvGetpwnam (name c) :: trace st in
  let h2 := EvMalloc :: h1 in
  let h3 := EvAccess file :: h2 in
  let h4 := EvFopen file :: h3 in
  ctx st = Some c ->
  pamk5_compat_getpwnam w (trace st) (name c) = Some pw ->
  malloc w h1 = true ->
  access w h2 file = inl tt ->
  fopen w h3 file = inl content ->
  fstat w h4 file = inl st_uid ->
  st_uid = 0 \/ st_uid = pw_uid pw ->
  k5login_password_auth w b creds opts service pass st
  = read_k5login (S (String.length content)) w b creds opts service pass
      file content KRB5KRB_AP_ERR_BAD_INTEGRITY
      (log (EvFstat file)
         (log (EvFopen file)
            (log (EvAccess file)
               (log EvMalloc (log (EvGetpwnam (name c)) st))))).
Proof.
  intros file h1 h2 h3 h4 Hc Hpw Hmem Hacc Hopen Hstat Howner.
  subst file h1 h2 h3 h4.
  unfold k5login_password_auth. unfold_run.
  rewrite Hc. tidy. rewrite Hpw. tidy. rewrite Hmem. tidy.
  rewrite Hacc. tidy. rewrite Hopen. tidy. rewrite Hstat.
  assert (Htest : negb (st_uid =? 0) && negb (st_uid =? pw_uid pw) = false).
  { destruct Howner as [-> | ->].
    - reflexivity.
    - rewrite Z.eqb_refl. now rewrite andb_false_r. }
  rewrite Htest. reflexivity.
Qed.

(** C8.  For a trust file that is found, opened and owned by the account
    or by uid 0, that is a text (no NUL byte) and of which the parser
    accepts no line, the trust-file authentication fails with
    PAM_AUTH_ERR and the status it reports through [retval] is
    KRB5KRB_AP_ERR_BAD_INTEGRITY; no exchange is attempted. *)
Theorem no_valid_line_reports_bad_integrity
    (w : world) (b : build) (creds : option nat) (opts : creds_opt)
    (service pass : option string) (st : state) (c : context) (pw : passwd)
    (content : string) (st_uid : Z) :
  let file := (pw_dir pw ++ "/.k5login")%string in
  let h1 := EvGetpwnam (name c) :: trace st in
  let h2 := EvMalloc :: h1 in
  let h3 := EvAccess file :: h2 in
  let h4 := EvFopen file :: h3 in
  ctx st = Some c ->
  pamk5_compat_getpwnam w (trace st) (name c) = Some pw ->
  malloc w h1 = true ->
  access w h2 file = inl tt ->
  fopen w h3 file = inl content ->
  fstat w h4 file = inl st_uid ->
  st_uid = 0 \/ st_uid = pw_uid pw ->
  (2 <= BUFSIZ b)%nat ->
  is_text content = true ->
  (forall h t, In t (lines_of content) ->
               exists e, krb5_parse_name w h t = inr e) ->
  exists st',
    k5login_password_auth w b creds opts service pass st
    = Ok (PAM_AUTH_ERR, KRB5KRB_AP_ERR_BAD_INTEGRITY) st'
    /\ attempted (trace st') = attempted (trace st)
    /\ ctx st' = ctx st.
Proof.
  intros file h1 h2 h3 h4 Hc Hpw Hmem Hacc Hopen Hstat Howner Hsize Htext
         Hrej.
  rewrite (k5login_reads_accepted_file w b creds opts service pass st c pw
             content st_uid Hc Hpw Hmem Hacc Hopen Hstat Howner).
  apply negb_true_iff in Htext.
  match goal with
  | |- context [read_k5login ?f _ _ _ _ _ _ ?fl ?s ?r ?st0] =>
      destruct (read_k5login_all_rejected w b creds opts service pass fl r f
                  s st0 Hsize (Nat.lt_succ_diag_r _) Htext Hrej)
        as (st' & Hrun & Ha & Hc' & _)
  end.
  exists st'. split; [exact Hrun |]. split; [exact Ha | exact Hc'].
Qed.

(** *** The first candidate that succeeds *)

Lemma fits_inv (b : build) (l : string) :
  fits b l = true ->
  strchr l NL = false /\ strchr l NUL = false
  /\ (String.length l < BUFSIZ b - 1)%nat.
Proof.
  unfold fits. intros H.
  apply andb_true_iff in H. destruct H as [H Hlen].
  apply andb_true_iff in H. destruct H as [Hnl Hnul].
  apply negb_true_iff in Hnl, Hnul. apply Nat.leb_le in Hlen.
  repeat split; auto. lia.
Qed.

Lemma fgets_line (size : nat) (l rest : string) :
  strchr l NL = false ->
  (String.length l < size - 1)%nat ->
  fgets size (l ++ String NL rest)
  = Some ((l ++ String NL EmptyString)%string, rest).
Proof.
  intros Hl Hlen. unfold fgets.
  rewrite <- (fgets_chars_line l rest (size - 1) Hl Hlen).
  now destruct l.
Qed.

Lemma heap_find_put (a : nat) (v : bool) (h : list (nat * bool)) (f : bool) :
  heap_find a h = Some f -> heap_find a (heap_put a v h) = Some v.
Proof.
  induction h as [| [x fx] h IH]; simpl; [discriminate |].
  destruct (Nat.eqb a x) eqn:Hx; simpl; rewrite Hx; auto.
Qed.

Lemma length_lines_then_tail (l tail : string) :
  (String.length tail < String.length (l ++ String NL tail))%nat.
Proof. rewrite length_append. simpl. lia. Qed.

Section FirstSuccess.

Variables (w : world) (b : build) (opts : creds_opt).
Variables (service pass : option string) (file : string).
Variables (a : nat) (c : context).
Variables (lK : string) (pK : principal) (tail : string).

Hypothesis fits_K : fits b lK = true.
Hypothesis parse_K : forall h, krb5_parse_name w h lK = inl pK.
Hypothesis exchange_K :
  forall h, krb5_get_init_creds_password w h (Some pK) pass service opts = 0.

(** One line read, parsed and tried: the state before the exchange
    answers. *)
Lemma read_k5login_line (fuel : nat) (l rest : string) (p : principal)
    (retval : Z) (st : state) :
  fits b l = true ->
  krb5_parse_name w (trace st) l = inl p ->
  read_k5login (S fuel) w b (Some a) opts service pass file
               (l ++ String NL rest) retval st
  = (r <- get_init_creds_password w (Some a) (Some p) pass service opts ;;
     if r =? 0 then
       set_princ (Some p) ;;; fclose file ;;; ret (PAM_SUCCESS, r)
     else
       read_k5login fuel w b (Some a) opts service pass file rest r)
      (log (EvParseName l) st).
Proof.
  intros Hfits Hparse.
  destruct (fits_inv _ _ Hfits) as (Hnl & Hnul & Hlen).
  cbn [read_k5login]. rewrite (fgets_line _ _ _ Hnl Hlen).
  unfold bind at 1. rewrite (ends_line_full _ _ Hnul). cbn [negb].
  rewrite strlen_text by (rewrite strchr_append, Hnul; reflexivity).
  rewrite length_append. cbn [String.length].
  replace (String.length l + 1 - 1)%nat with (String.length l) by lia.
  rewrite strtake_line.
  unfold bind at 1. unfold call at 1. now rewrite Hparse.
Qed.

Lemma read_k5login_first_success (before : list (string * principal)) :
  Forall (fun lp => fits b (fst lp) = true) before ->
  (forall h l p, In (l, p) before -> krb5_parse_name w h l = inl p) ->
  (forall h l p, In (l, p) before ->
     krb5_get_init_creds_password w h (Some p) pass service opts <> 0) ->
  forall (fuel : nat) (retval : Z) (st : state) (full : bool),
    (String.length (lines_then (map fst before ++ [lK]) tail) < fuel)%nat ->
    ctx st = Some c ->
    heap_find a (heap st) = Some full ->
    exists st',
      read_k5login fuel w b (Some a) opts service pass file
                   (lines_then (map fst before ++ [lK]) tail) retval st
      = Ok (PAM_SUCCESS, 0) st'
      /\ ctx st' = Some (mk_context (name c) (Some pK))
      /\ attempted (trace st')
         = (attempted (trace st)
            ++ map (fun lp => Some (snd lp)) before ++ [Some pK])%list
      /\ heap_find a (heap st') = Some true
      /\ creds_out st' = creds_out st.
Proof.
  induction before as [| [l p] before IH];
    intros Hfits Hparse Hfail fuel retval st full Hfuel Hc Hlive.
  - cbn [map app lines_then] in Hfuel |- *.
    destruct fuel as [| fuel]; [lia |].
    rewrite (read_k5login_line fuel lK tail pK retval st fits_K (parse_K _)).
    unfold get_init_creds_password. unfold_run.
    rewrite exchange_K. cbn [Z.eqb]. unfold fill_creds. tidy.
    rewrite Hlive. unfold set_princ. unfold_run. unfold set_heap. tidy.
    rewrite Hc. tidy.
    eexists. split; [reflexivity |]. tidy.
    repeat split. now apply heap_find_put with (f := full).
  - cbn [map app lines_then fst] in Hfuel |- *.
    destruct fuel as [| fuel]; [lia |].
    inversion Hfits as [| ? ? Hl Hrest]; subst.
    rewrite (read_k5login_line fuel l _ p retval st Hl
               (Hparse _ l p (or_introl eq_refl))).
    unfold get_init_creds_password at 1. unfold bind at 1. unfold bind at 1.
    unfold call at 1. tidy.
    match goal with
    | |- context [krb5_get_init_creds_password w ?h (Some p) pass service
                                               opts] =>
        pose proof (Hfail h l p (or_introl eq_refl)) as Hne;
        apply Z.eqb_neq in Hne; rewrite Hne
    end.
    unfold ret at 1. rewrite Hne.
    match goal with
    | |- context [read_k5login fuel _ _ _ _ _ _ _ _ ?r ?st0] =>
        destruct (IH Hrest
                    (fun h l' p' H => Hparse h l' p' (or_intror H))
                    (fun h l' p' H => Hfail h l' p' (or_intror H))
                    fuel r st0 full)
          as (st' & Hrun & Hc' & Ha & Hh & Hco)
    end.
    + pose proof (length_lines_then_tail l
                    (lines_then (map fst before ++ [lK]) tail)). lia.
    + exact Hc.
    + exact Hlive.
    + exists st'. split; [exact Hrun |].
      split; [exact Hc' |]. split; [| split; [exact Hh | exact Hco]].
      rewrite Ha. cbn [trace log attempted map snd].
      now rewrite <- app_assoc.
Qed.

End FirstSuccess.

(** C3.  Let the trust file be found, opened and owned by the account
    or by uid 0, and let it start with well-formed lines (each fits the
    line buffer and is accepted by the parser): the candidates [before],
    for each of which the exchange with the supplied password fails, and
    then candidate K, for which it succeeds.  Then the trust-file
    authentication returns PAM_SUCCESS with status 0, the principal of
    the context is the identity of candidate K, and the exchanges
    attempted are those of the candidates up to K in file order: nothing
    that follows line K in the file is attempted. *)
Theorem first_successful_candidate_wins
    (w : world) (b : build) (a : nat) (full : bool) (opts : creds_opt)
    (service pass : option string) (st : state) (c : context) (pw : passwd)
    (st_uid : Z) (before : list (string * principal)) (lK : string)
    (pK : principal) (tail : string) :
  let file := (pw_dir pw ++ "/.k5login")%string in
  let h1 := EvGetpwnam (name c) :: trace st in
  let h2 := EvMalloc :: h1 in
  let h3 := EvAccess file :: h2 in
  let h4 := EvFopen file :: h3 in
  ctx st = Some c ->
  pamk5_compat_getpwnam w (trace st) (name c) = Some pw ->
  malloc w h1 = true ->
  access w h2 file = inl tt ->
  fopen w h3 file = inl (lines_then (map fst before ++ [lK]) tail) ->
  fstat w h4 file = inl st_uid ->
  st_uid = 0 \/ st_uid = pw_uid pw ->
  heap_find a (heap st) = Some full ->
  Forall (fun lp => fits b (fst lp) = true) ((lK, pK) :: before) ->
  (forall h l p, In (l, p) ((lK, pK) :: before) ->
     krb5_parse_name w h l = inl p) ->
  (forall h l p, In (l, p) before ->
     krb5_get_init_creds_password w h (Some p) pass service opts <> 0) ->
  (forall h,
     krb5_get_init_creds_password w h (Some pK) pass service opts = 0) ->
  exists st',
    k5login_password_auth w b (Some a) opts service pass st
    = Ok (PAM_SUCCESS, 0) st'
    /\ ctx st' = Some (mk_context (name c) (Some pK))
    /\ attempted (trace st')
       = (attempted (trace st)
          ++ map (fun lp => Some (snd lp)) before ++ [Some pK])%list.
Proof.
  intros file h1 h2 h3 h4 Hc Hpw Hmem Hacc Hopen Hstat Howner Hlive Hfits
         Hparse Hfail Hok.
  rewrite (k5login_reads_accepted_file w b (Some a) opts service pass st c
             pw _ st_uid Hc Hpw Hmem Hacc Hopen Hstat Howner).
  inversion Hfits as [| ? ? HfK Hfb]; subst.
  match goal with
  | |- context [read_k5login ?f _ _ _ _ _ _ ?fl _ ?r ?st0] =>
      destruct (read_k5login_first_success w b opts service pass fl a c lK
                  pK tail HfK
                  (fun h => Hparse h lK pK (or_introl eq_refl)) Hok before
                  Hfb
                  (fun h l p H => Hparse h l p (or_intror H)) Hfail
                  f r st0 full (Nat.lt_succ_diag_r _) Hc Hlive)
        as (st' & Hrun & Hc' & Ha & _)
  end.
  exists st'. split; [exact Hrun |]. split; [exact Hc' | exact Ha].
Qed.

(** *** The three properties in the scenario of account [bob] *)

Lemma foreign_trust_file_is_refused_witness :
  exists st',
    k5login_password_auth
      (Scenario.the_world Scenario.kdc_bob Scenario.bob_file 1001 0 0 0)
      Scenario.plain_build (Some 1%nat) [] None (Some "secret")
      (Scenario.allocated "bob")
    = Ok (PAM_AUTH_ERR, 0) st'
    /\ trace st'
       = [EvFclose "/home/bob/.k5login"; EvFstat "/home/bob/.k5login";
          EvFopen "/home/bob/.k5login"; EvAccess "/home/bob/.k5login";
          EvMalloc; EvGetpwnam "bob"]
    /\ attempted (trace st') = []
    /\ ctx st' = Some (mk_context "bob" None).
Proof.
  refine (foreign_trust_file_is_refused
            (Scenario.the_world Scenario.kdc_bob Scenario.bob_file 1001 0 0 0)
            Scenario.plain_build (Some 1%nat) [] None (Some "secret")
            (Scenario.allocated "bob") (mk_context "bob" None)
            (mk_passwd "/home/bob" 1000) _ 1001 _ _ _ _ _ _ _ _);
    try reflexivity; discriminate.
Defined.

Lemma no_valid_line_reports_bad_integrity_witness :
  exists st',
    k5login_password_auth
      (Scenario.the_world Scenario.kdc_bob Scenario.junk_file 1000 0 0 0)
      Scenario.plain_build (Some 1%nat) [] None (Some "secret")
      (Scenario.allocated "bob")
    = Ok (PAM_AUTH_ERR, KRB5KRB_AP_ERR_BAD_INTEGRITY) st'
    /\ attempted (trace st') = []
    /\ ctx st' = Some (mk_context "bob" None).
Proof.
  refine (no_valid_line_reports_bad_integrity
            (Scenario.the_world Scenario.kdc_bob Scenario.junk_file 1000 0 0 0)
            Scenario.plain_build (Some 1%nat) [] None (Some "secret")
            (Scenario.allocated "bob") (mk_context "bob" None)
            (mk_passwd "/home/bob" 1000) _ 1000 _ _ _ _ _ _ _ _ _ _);
    try reflexivity.
  - now right.
  - vm_compute. lia.
  - intros h t [<- | [<- | []]]; eexists; reflexivity.
Defined.

Lemma first_successful_candidate_wins_witness :
  exists st',
    k5login_password_auth
      (Scenario.the_world Scenario.kdc_bob Scenario.bob_file 1000 0 0 0)
      Scenario.plain_build (Some 1%nat) [] None (Some "secret")
      (Scenario.allocated "bob")
    = Ok (PAM_SUCCESS, 0) st'
    /\ ctx st' = Some (mk_context "bob" (Some (mk_principal "REALM" ["bob"])))
    /\ attempted (trace st')
       = [Some (mk_principal "OTHER" ["bob"]);
          Some (mk_principal "REALM" ["bob"])].
Proof.
  refine (first_successful_candidate_wins
            (Scenario.the_world Scenario.kdc_bob Scenario.bob_file 1000 0 0 0)
            Scenario.plain_build 1%nat false [] None (Some "secret")
            (Scenario.allocated "bob") (mk_context "bob" None)
            (mk_passwd "/home/bob" 1000) 1000
            [("bob@OTHER", mk_principal "OTHER" ["bob"])]
            "bob@REALM" (mk_principal "REALM" ["bob"])
            (String.append "bob@LAST" (String NL ""))
            _ _ _ _ _ _ _ _ _ _ _ _);
    try reflexivity.
  - now right.
  - repeat constructor.
  - intros h l p [H | [H | []]]; injection H as <- <-; reflexivity.
  - intros h l p [H | []]; injection H as <- <-; discriminate.
Defined.

(** ** Termination *)

(** Case analysis on the first test a run depends on. *)
Ltac case_head :=
  match goal with
  | |- context [match ?x with _ => _ end] =>
      lazymatch x with
      | context [match _ with _ => _ end] => fail
      | _ => destruct x eqn:?
      end
  end.

Ltac case_heads := repeat (tidy; case_head); tidy.

Lemma strlen_positive (line : string) (i : nat) :
  strlen line = S i -> (0 < String.length line)%nat.
Proof. destruct line; simpl; [discriminate | lia]. Qed.

Lemma skip_line_total (size fuel : nat) (stream : string) (st : state) :
  (String.length stream < fuel)%nat ->
  (exists why, skip_line fuel size stream st = Undefined why)
  \/ (exists rest, skip_line fuel size stream st = Ok rest st
                   /\ (String.length rest <= String.length stream)%nat).
Proof.
  revert stream. induction fuel as [| fuel IH]; intros stream Hfuel; [lia |].
  destruct stream as [| x s].
  - right. exists EmptyString. split; [reflexivity | lia].
  - cbn [skip_line fgets].
    destruct (fgets_chars (size - 1) (String x s)) as [line rest] eqn:Hf.
    destruct (fgets_chars_cases _ _ _ _ Hf) as [Hs _].
    assert (Hlen : String.length (String x s)
                   = (String.length line + String.length rest)%nat)
      by (rewrite Hs; apply length_append).
    unfold bind, ends_line.
    destruct (strlen line) as [| i] eqn:Hi.
    + left. eexists. reflexivity.
    + apply strlen_positive in Hi. unfold ret.
      destruct (match char_at i line with
                | Some a0 => Ascii.eqb a0 NL
                | None => false
                end).
      * right. exists rest. split; [reflexivity | lia].
      * destruct (IH rest) as [Hu | (rest' & Hrun & Hle)];
          [simpl in Hfuel, Hlen; lia | now left |].
        right. exists rest'. split; [exact Hrun | lia].
Qed.

Lemma get_init_creds_password_total w creds p pass service opts st :
  get_init_creds_password w creds p pass service opts st <> OutOfFuel.
Proof.
  unfold get_init_creds_password, fill_creds. unfold_run.
  case_heads; discriminate.
Qed.

Lemma read_k5login_total
    (w : world) (b : build) (creds : option nat) (opts : creds_opt)
    (service pass : option string) (file : string) (fuel : nat)
    (stream : string) (retval : Z) (st : state) :
  (String.length stream < fuel)%nat ->
  read_k5login fuel w b creds opts service pass file stream retval st
  <> OutOfFuel.
Proof.
  revert stream retval st.
  induction fuel as [| fuel IH]; intros stream retval st Hfuel; [lia |].
  destruct stream as [| x s].
  - cbn [read_k5login fgets]. unfold_run. discriminate.
  - cbn [read_k5login fgets].
    destruct (fgets_chars (BUFSIZ b - 1) (String x s)) as [line rest] eqn:Hf.
    destruct (fgets_chars_cases _ _ _ _ Hf) as [Hs _].
    assert (Hlen : String.length (String x s)
                   = (String.length line + String.length rest)%nat)
      by (rewrite Hs; apply length_append).
    unfold bind at 1. unfold ends_line.
    destruct (strlen line) as [| i] eqn:Hi; [discriminate |].
    apply strlen_positive in Hi. unfold ret at 1.
    assert (Hrest : (String.length rest < fuel)%nat)
      by (simpl in Hfuel, Hlen; lia).
    destruct (match char_at i line with
              | Some a0 => Ascii.eqb a0 NL
              | None => false
              end); cbn [negb].
    + unfold bind at 1. unfold call at 1.
      destruct (krb5_parse_name w (trace st) _) as [p | e].
      * unfold bind at 1.
        pose proof (get_init_creds_password_total w creds (Some p) pass
                      service opts
                      (log (EvParseName (strtake (S i - 1) line)) st)) as Hg.
        destruct (get_init_creds_password w creds (Some p) pass service opts
                    _) as [r s1 | why |]; [| discriminate | contradiction].
        destruct (r =? 0).
        -- unfold set_princ. unfold_run. case_heads; discriminate.
        -- now apply IH.
      * now apply IH.
    + unfold bind at 1.
      destruct (skip_line_total (BUFSIZ b) fuel rest st Hrest)
        as [(why & ->) | (rest' & -> & Hle)]; [discriminate |].
      apply IH. lia.
Qed.

Lemma direct_attempt_total w creds opts service pass st :
  direct_attempt w creds opts service pass st <> OutOfFuel.
Proof.
  unfold direct_attempt. unfold bind at 1. unfold deref_ctx.
  destruct (ctx st); [| discriminate].
  unfold bind.
  pose proof (get_init_creds_password_total w creds (princ c) pass service
                opts st) as Hg.
  destruct (get_init_creds_password w creds (princ c) pass service opts st);
    [discriminate | discriminate | contradiction].
Qed.

Lemma k5login_password_auth_total w b creds opts service pass st :
  k5login_password_auth w b creds opts service pass st <> OutOfFuel.
Proof.
  unfold k5login_password_auth. unfold_run.
  repeat (tidy;
          match goal with
          | |- direct_attempt _ _ _ _ _ _ <> _ => apply direct_attempt_total
          | |- read_k5login _ _ _ _ _ _ _ _ _ _ _ <> _ =>
              apply read_k5login_total; lia
          | |- Ok _ _ <> _ => discriminate
          | |- Undefined _ <> _ => discriminate
          | |- _ => case_head
          end).
Qed.

(** ** The password loop *)

Lemma obtain_password_total w service retry pass st :
  obtain_password w service retry pass st <> OutOfFuel.
Proof.
  unfold obtain_password. unfold_run. case_heads; discriminate.
Qed.

Lemma password_pass_total w b args service creds opts retry pass st :
  password_pass w b args service creds opts retry pass st <> OutOfFuel.
Proof.
  unfold password_pass. unfold bind at 1.
  pose proof (obtain_password_total w service retry pass st) as Ho.
  destruct (obtain_password w service retry pass st) as [[[r p] | v] s1 | |];
    [| discriminate | discriminate | contradiction].
  unfold bind.
  destruct (search_k5login args).
  - pose proof (k5login_password_auth_total w b creds opts service p s1).
    destruct (k5login_password_auth w b creds opts service p s1)
      as [[su rv] s2 | |]; [| discriminate | contradiction].
    unfold ret. case_heads; discriminate.
  - pose proof (direct_attempt_total w creds opts service p s1).
    destruct (direct_attempt w creds opts service p s1)
      as [[su rv] s2 | |]; [| discriminate | contradiction].
    unfold ret. case_heads; discriminate.
Qed.

(** A pass that has to prompt leaves [retry] at 0. *)
Lemma prompting_pass_clears_retry
    w b args service creds opts retry st retry' v st' :
  password_pass w b args service creds opts retry None st
  = Ok (PassTest retry' v) st' ->
  retry' = 0.
Proof.
  unfold password_pass, obtain_password. unfold_run.
  case_heads; intros H; try discriminate; now inversion H.
Qed.

(** Entered without a password, the loop makes one pass. *)
Lemma prompting_loop_is_one_pass
    w b args service creds opts retry st (n : nat) :
  password_loop (S n) w b args service creds opts retry None st
  = password_loop 1 w b args service creds opts retry None st.
Proof.
  cbn [password_loop]. unfold bind.
  destruct (password_pass w b args service creds opts retry None st)
    as [e s1 | |] eqn:Hpass; try reflexivity.
  destruct e as [v | v | r' v]; try reflexivity.
  rewrite (prompting_pass_clears_retry _ _ _ _ _ _ _ _ _ _ _ Hpass).
  reflexivity.
Qed.

(** Two passes are all the loop ever makes. *)
Lemma password_loop_two_passes
    w b args service creds opts retry pass st (n : nat) :
  password_loop (S (S n)) w b args service creds opts retry pass st
  = password_loop 2 w b args service creds opts retry pass st.
Proof.
  change (password_loop (S (S n)) w b args service creds opts retry pass st)
    with ((e <- password_pass w b args service creds opts retry pass ;;
           match e with
           | PassTest retry' retval =>
               if negb (retry' =? 0)
                  && (retval =? KRB5KRB_AP_ERR_BAD_INTEGRITY)
               then password_loop (S n) w b args service creds opts retry'
                                  None
               else ret e
           | _ => ret e
           end) st).
  change (password_loop 2 w b args service creds opts retry pass st)
    with ((e <- password_pass w b args service creds opts retry pass ;;
           match e with
           | PassTest retry' retval =>
               if negb (retry' =? 0)
                  && (retval =? KRB5KRB_AP_ERR_BAD_INTEGRITY)
               then password_loop 1 w b args service creds opts retry' None
               else ret e
           | _ => ret e
           end) st).
  unfold bind.
  destruct (password_pass w b args service creds opts retry pass st)
    as [e s1 | |]; try reflexivity.
  destruct e as [v | v | r' v]; try reflexivity.
  destruct (negb (r' =? 0) && (v =? KRB5KRB_AP_ERR_BAD_INTEGRITY));
    [apply prompting_loop_is_one_pass | reflexivity].
Qed.

Lemma password_loop_total w b args service creds opts retry pass st :
  password_loop 2 w b args service creds opts retry pass st <> OutOfFuel.
Proof.
  cbn [password_loop]. unfold bind.
  pose proof (password_pass_total w b args service creds opts retry pass st).
  destruct (password_pass w b args service creds opts retry pass st)
    as [e s1 | |]; [| discriminate | contradiction].
  destruct e as [v | v | r' v]; try discriminate.
  destruct (negb (r' =? 0) && (v =? KRB5KRB_AP_ERR_BAD_INTEGRITY));
    [| discriminate].
  pose proof (password_pass_total w b args service creds opts r' None s1).
  destruct (password_pass w b args service creds opts r' None s1)
    as [e s2 | |] eqn:Hpass; [| discriminate | contradiction].
  destruct e as [v' | v' | r'' v']; try discriminate.
  rewrite (prompting_pass_clears_retry _ _ _ _ _ _ _ _ _ _ _ Hpass).
  discriminate.
Qed.

(** *** What an attempt leaves alone *)

Lemma frame_refl st : frame st st.
Proof. now repeat split. Qed.

Lemma frame_trans st1 st2 st3 : frame st1 st2 -> frame st2 st3 -> frame st1 st3.
Proof.
  intros (H1 & H2 & H3 & H4) (K1 & K2 & K3 & K4).
  repeat split; try congruence.
  all: try (intros x; now rewrite K4).
Qed.

Lemma heap_find_put_dom (x a : nat) (v : bool) (h : list (nat * bool)) :
  is_some (heap_find x (heap_put a v h)) = is_some (heap_find x h).
Proof.
  induction h as [| [y f] h IH]; simpl; [reflexivity |].
  destruct (Nat.eqb a y) eqn:Ha; simpl.
  - destruct (Nat.eqb x y); reflexivity.
  - destruct (Nat.eqb x y); [reflexivity | exact IH].
Qed.

Lemma skip_line_state size fuel stream st rest st' :
  skip_line fuel size stream st = Ok rest st' -> st' = st.
Proof.
  revert stream st. induction fuel as [| fuel IH]; intros stream st;
    [discriminate |].
  cbn [skip_line]. destruct (fgets size stream) as [[line r] |].
  - unfold bind, ends_line. destruct (strlen line); [discriminate |].
    unfold ret.
    destruct (match char_at n line with
              | Some a => Ascii.eqb a NL
              | None => false
              end).
    + intros H. now inversion H.
    + apply IH.
  - intros H. now inversion H.
Qed.

Lemma get_init_creds_password_frame w creds p pass service opts st r st' :
  get_init_creds_password w creds p pass service opts st = Ok r st' ->
  frame st st'.
Proof.
  unfold get_init_creds_password, fill_creds. unfold_run.
  case_heads; intros H; try discriminate; inversion H; subst;
    repeat split; cbn [heap set_heap log]; intros;
    try apply heap_find_put_dom.
Qed.

Lemma read_k5login_frame
    w b creds opts service pass file fuel stream retval st r st' :
  read_k5login fuel w b creds opts service pass file stream retval st
  = Ok r st' ->
  frame st st'.
Proof.
  revert stream retval st.
  induction fuel as [| fuel IH]; intros stream retval st; [discriminate |].
  cbn [read_k5login]. destruct (fgets (BUFSIZ b) stream) as [[line rest] |].
  - unfold bind at 1. unfold ends_line.
    destruct (strlen line) as [| i]; [discriminate |]. unfold ret at 1.
    destruct (match char_at i line with
              | Some a => Ascii.eqb a NL
              | None => false
              end); cbn [negb].
    + unfold bind at 1. unfold call at 1.
      destruct (krb5_parse_name w (trace st) _) as [p | e].
      * unfold bind at 1.
        destruct (get_init_creds_password w creds (Some p) pass service opts
                    _) as [rv s1 | |] eqn:Hg; try discriminate.
        apply get_init_creds_password_frame in Hg.
        assert (Hst : frame st s1).
        { eapply frame_trans; [| exact Hg]. now repeat split. }
        destruct (rv =? 0).
        -- unfold_run. destruct (ctx s1); [| discriminate].
           intros H. inversion H; subst. tidy.
           eapply frame_trans; [exact Hst |]. now repeat split.
        -- intros H. eapply frame_trans; [exact Hst | eapply IH; exact H].
      * intros H. eapply frame_trans; [| eapply IH; exact H].
        now repeat split.
    + unfold bind at 1.
      destruct (skip_line fuel (BUFSIZ b) rest st) as [rest' s1 | |] eqn:Hs;
        try discriminate.
      apply skip_line_state in Hs. subst s1. apply IH.
  - unfold_run. intros H. inversion H; subst. now repeat split.
Qed.

Lemma direct_attempt_frame w creds opts service pass st r st' :
  direct_attempt w creds opts service pass st = Ok r st' -> frame st st'.
Proof.
  unfold direct_attempt. unfold bind at 1. unfold deref_ctx.
  destruct (ctx st); [| discriminate]. unfold bind.
  destruct (get_init_creds_password w creds (princ c) pass service opts st)
    as [rv s1 | |] eqn:Hg; try discriminate.
  apply get_init_creds_password_frame in Hg.
  unfold ret. intros H. now inversion H; subst.
Qed.

Lemma k5login_password_auth_frame w b creds opts service pass st r st' :
  k5login_password_auth w b creds opts service pass st = Ok r st' ->
  frame st st'.
Proof.
  unfold k5login_password_auth. unfold_run.
  repeat (tidy;
          match goal with
          | |- direct_attempt _ _ _ _ _ ?s = _ -> frame ?s0 _ =>
              let H := fresh in
              intros H; apply direct_attempt_frame in H;
              eapply frame_trans; [| exact H]; now repeat split
          | |- read_k5login _ _ _ _ _ _ _ _ _ _ ?s = _ -> frame ?s0 _ =>
              let H := fresh in
              intros H; apply read_k5login_frame in H;
              eapply frame_trans; [| exact H]; now repeat split
          | |- Ok _ _ = _ -> _ =>
              let H := fresh in
              intros H; inversion H; subst; now repeat split
          | |- Undefined _ = _ -> _ => discriminate
          | |- _ => case_head
          end).
Qed.

(** *** Prompts *)

Lemma trace_set_item (item : Z) (v : option string) (s : state) :
  trace (set_item item v s) = trace s.
Proof. unfold set_item. now destruct (item =? PAM_AUTHTOK). Qed.

Lemma obtain_password_prompts w service retry pass st r st' :
  obtain_password w service retry pass st = Ok r st' ->
  prompts (trace st')
  = (prompts (trace st) + if is_some pass then 0 else 1)%nat.
Proof.
  unfold obtain_password. unfold_run.
  case_heads; intros H; try discriminate; inversion H; subst;
    cbn [trace log prompts is_some]; rewrite ?trace_set_item;
    cbn [trace log prompts is_some]; lia.
Qed.

Lemma password_pass_prompts w b args service creds opts retry pass st e st' :
  password_pass w b args service creds opts retry pass st = Ok e st' ->
  prompts (trace st')
  = (prompts (trace st) + if is_some pass then 0 else 1)%nat.
Proof.
  unfold password_pass. unfold bind at 1.
  destruct (obtain_password w service retry pass st)
    as [[[r p] | v] s1 | |] eqn:Ho; try discriminate;
    apply obtain_password_prompts in Ho.
  - unfold bind.
    destruct (search_k5login args).
    + destruct (k5login_password_auth w b creds opts service p s1)
        as [[su rv] s2 | |] eqn:Hk; try discriminate.
      apply k5login_password_auth_frame in Hk. destruct Hk as [Hk _].
      unfold ret. case_heads; intros H; inversion H; subst; congruence.
    + destruct (direct_attempt w creds opts service p s1)
        as [[su rv] s2 | |] eqn:Hk; try discriminate.
      apply direct_attempt_frame in Hk. destruct Hk as [Hk _].
      unfold ret. case_heads; intros H; inversion H; subst; congruence.
  - unfold ret. intros H. inversion H; subst. exact Ho.
Qed.

Lemma prompting_loop_prompts w b args service creds opts retry st fuel e st' :
  password_loop fuel w b args service creds opts retry None st = Ok e st' ->
  prompts (trace st') = S (prompts (trace st)).
Proof.
  destruct fuel as [| n]; [discriminate |].
  rewrite prompting_loop_is_one_pass. cbn [password_loop]. unfold bind.
  destruct (password_pass w b args service creds opts retry None st)
    as [e1 s1 | |] eqn:Hpass; try discriminate.
  pose proof (password_pass_prompts _ _ _ _ _ _ _ _ _ _ _ Hpass) as Hp.
  cbn [is_some] in Hp.
  destruct e1 as [v | v | r' v]; unfold ret;
    try (intros H; inversion H; subst; lia).
  rewrite (prompting_pass_clears_retry _ _ _ _ _ _ _ _ _ _ _ Hpass).
  cbn [Z.eqb negb andb]. intros H. inversion H; subst. lia.
Qed.

Lemma password_loop_prompts
    w b args service creds opts retry pass st fuel e st' :
  password_loop fuel w b args service creds opts retry pass st = Ok e st' ->
  (prompts (trace st') <= prompts (trace st) + 1)%nat.
Proof.
  destruct pass as [p |].
  - destruct fuel as [| n]; [discriminate |].
    cbn [password_loop]. unfold bind.
    destruct (password_pass w b args service creds opts retry (Some p) st)
      as [e1 s1 | |] eqn:Hpass; try discriminate.
    pose proof (password_pass_prompts _ _ _ _ _ _ _ _ _ _ _ Hpass) as Hp.
    cbn [is_some] in Hp.
    destruct e1 as [v | v | r' v]; unfold ret;
      try (intros H; inversion H; subst; lia).
    destruct (negb (r' =? 0) && (v =? KRB5KRB_AP_ERR_BAD_INTEGRITY)).
    + intros H. apply prompting_loop_prompts in H. lia.
    + intros H. inversion H; subst. lia.
  - intros H. apply prompting_loop_prompts in H. lia.
Qed.

(** What a pass entered with a password makes of its attempt. *)
Lemma password_pass_of_attempt
    w b args service creds opts retry p st su v st1 :
  (if search_k5login args
   then k5login_password_auth w b creds opts service (Some p)
   else direct_attempt w creds opts service (Some p)) st
  = Ok (su, v) st1 ->
  password_pass w b args service creds opts retry (Some p) st
  = Ok (if su =? PAM_SUCCESS
        then if negb (v =? 0) then PassGotoDone v else PassBreak v
        else PassTest retry v) st1.
Proof.
  intros Hatt. unfold password_pass, obtain_password, bind, ret.
  destruct (search_k5login args); rewrite Hatt;
    (destruct (su =? PAM_SUCCESS); [destruct (negb (v =? 0)) |]);
    reflexivity.
Qed.

(** A pass entered without a password makes its attempt with the
    password the prompt gave, [retry] being 0 by then. *)
Lemma prompting_pass_of_attempt
    w b args service creds opts retry st r' p' s1 su v s2 :
  obtain_password w service retry None st = Ok (inl (r', p')) s1 ->
  (if search_k5login args
   then k5login_password_auth w b creds opts service p'
   else direct_attempt w creds opts service p') s1
  = Ok (su, v) s2 ->
  r' = 0
  /\ password_pass w b args service creds opts retry None st
     = Ok (if su =? PAM_SUCCESS
           then if negb (v =? 0) then PassGotoDone v else PassBreak v
           else PassTest 0 v) s2.
Proof.
  intros Hobt Hatt.
  assert (Hr : r' = 0).
  { revert Hobt. unfold obtain_password. unfold_run.
    repeat (tidy; case_head); tidy; intros K; try discriminate;
      now inversion K. }
  subst r'. split; [reflexivity |].
  unfold password_pass, bind. rewrite Hobt.
  destruct (search_k5login args); rewrite Hatt;
    (destruct (su =? PAM_SUCCESS); [destruct (negb (v =? 0)) |]);
    reflexivity.
Qed.

(** C4, as the code has it.  In the password loop, when the attempt made
    with the stored password fails with KRB5KRB_AP_ERR_BAD_INTEGRITY
    while [retry] is set, the password is dropped and the loop makes
    exactly one more pass, entered with no password: the outcome of the
    loop is the outcome of that pass, which prompts once and makes its
    own attempt, and no third pass follows whatever that attempt gives.
    An attempt that fails in any other way, or while [retry] is 0, ends
    the loop at once, and so does an attempt that succeeds.  A pass
    entered without a password makes its attempt with the password the
    prompt gave, and sets [retry] to 0: the loop makes at most two
    passes whatever fuel it is given, it always ends, each pass entered
    without a password prompts exactly once and the loop prompts at most
    once. *)
Theorem password_retry_is_one_prompt
    (w : world) (b : build) (args : pam_args) (service : option string)
    (creds : option nat) (opts : creds_opt) :
  (forall fuel retry p st su st1,
      retry <> 0 ->
      (if search_k5login args
       then k5login_password_auth w b creds opts service (Some p)
       else direct_attempt w creds opts service (Some p)) st
      = Ok (su, KRB5KRB_AP_ERR_BAD_INTEGRITY) st1 ->
      su <> PAM_SUCCESS ->
      password_loop (S (S fuel)) w b args service creds opts retry (Some p) st
      = password_pass w b args service creds opts retry None st1
      /\ forall e st2,
           password_pass w b args service creds opts retry None st1
           = Ok e st2 ->
           prompts (trace st2) = S (prompts (trace st))
           /\ forall r' v, e = PassTest r' v -> r' = 0)
  /\ (forall fuel retry p st su v st1,
         (if search_k5login args
          then k5login_password_auth w b creds opts service (Some p)
          else direct_attempt w creds opts service (Some p)) st
         = Ok (su, v) st1 ->
         su <> PAM_SUCCESS ->
         v <> KRB5KRB_AP_ERR_BAD_INTEGRITY \/ retry = 0 ->
         password_loop (S fuel) w b args service creds opts retry (Some p) st
         = Ok (PassTest retry v) st1)
  /\ (forall fuel retry p st st1,
         (if search_k5login args
          then k5login_password_auth w b creds opts service (Some p)
          else direct_attempt w creds opts service (Some p)) st
         = Ok (PAM_SUCCESS, 0) st1 ->
         password_loop (S fuel) w b args service creds opts retry (Some p) st
         = Ok (PassBreak 0) st1)
  /\ (forall retry st r' p' s1 su v s2,
         obtain_password w service retry None st = Ok (inl (r', p')) s1 ->
         (if search_k5login args
          then k5login_password_auth w b creds opts service p'
          else direct_attempt w creds opts service p') s1
         = Ok (su, v) s2 ->
         password_pass w b args service creds opts retry None st
         = Ok (if su =? PAM_SUCCESS
               then if negb (v =? 0) then PassGotoDone v else PassBreak v
               else PassTest 0 v) s2)
  /\ (forall fuel retry pass st retry' st1,
         password_pass w b args service creds opts retry pass st
         = Ok (PassTest retry' KRB5KRB_AP_ERR_BAD_INTEGRITY) st1 ->
         retry' <> 0 ->
         password_loop (S fuel) w b args service creds opts retry pass st
         = password_loop fuel w b args service creds opts retry' None st1)
  /\ (forall fuel retry pass st retry' v st1,
         password_pass w b args service creds opts retry pass st
         = Ok (PassTest retry' v) st1 ->
         v <> KRB5KRB_AP_ERR_BAD_INTEGRITY \/ retry' = 0 ->
         password_loop (S fuel) w b args service creds opts retry pass st
         = Ok (PassTest retry' v) st1)
  /\ (forall retry st retry' v st1,
         password_pass w b args service creds opts retry None st
         = Ok (PassTest retry' v) st1 ->
         retry' = 0)
  /\ (forall n retry pass st,
         password_loop (S (S n)) w b args service creds opts retry pass st
         = password_loop 2 w b args service creds opts retry pass st
         /\ password_loop 2 w b args service creds opts retry pass st
            <> OutOfFuel)
  /\ (forall retry pass st e st1,
         password_pass w b args service creds opts retry pass st = Ok e st1 ->
         prompts (trace st1)
         = (prompts (trace st) + if is_some pass then 0 else 1)%nat)
  /\ (forall fuel retry pass st e st',
         password_loop fuel w b args service creds opts retry pass st
         = Ok e st' ->
         (prompts (trace st') <= prompts (trace st) + 1)%nat).
Proof.
  repeat split.
  - cbn [password_loop]. unfold bind at 1.
    rewrite (password_pass_of_attempt _ _ _ _ _ _ retry _ _ _ _ _ H0).
    apply Z.eqb_neq in H1. rewrite H1.
    apply Z.eqb_neq in H. rewrite H, Z.eqb_refl. cbn [negb andb].
    cbn [password_loop]. unfold bind.
    destruct (password_pass w b args service creds opts retry None st1)
      as [e s2 | |] eqn:Hpass; try reflexivity.
    destruct e as [v | v | r' v]; try reflexivity.
    rewrite (prompting_pass_clears_retry _ _ _ _ _ _ _ _ _ _ _ Hpass).
    reflexivity.
  - pose proof (password_pass_prompts _ _ _ _ _ _ _ _ _ _ _ H2) as Hp2.
    pose proof (password_pass_of_attempt _ _ _ _ _ _ retry _ _ _ _ _ H0)
      as Hfirst.
    pose proof (password_pass_prompts _ _ _ _ _ _ _ _ _ _ _ Hfirst) as Hp1.
    cbn [is_some] in Hp1, Hp2. lia.
  - intros r' v ->.
    eapply prompting_pass_clears_retry; exact H2.
  - intros fuel retry p st su v st1 Hatt Hsu Hend.
    cbn [password_loop]. unfold bind.
    rewrite (password_pass_of_attempt _ _ _ _ _ _ retry _ _ _ _ _ Hatt).
    apply Z.eqb_neq in Hsu. rewrite Hsu.
    destruct Hend as [Hv | ->].
    + apply Z.eqb_neq in Hv. rewrite Hv. now rewrite andb_false_r.
    + reflexivity.
  - intros fuel retry p st st1 Hatt.
    cbn [password_loop]. unfold bind.
    now rewrite (password_pass_of_attempt _ _ _ _ _ _ retry _ _ _ _ _ Hatt).
  - intros retry st r' p' s1 su v s2 Hobt Hatt.
    exact (proj2 (prompting_pass_of_attempt _ _ _ _ _ _ _ _ _ _ _ _ _ _
                    Hobt Hatt)).
  - intros fuel retry pass st retry' st1 Hpass Hretry.
    cbn [password_loop]. unfold bind. rewrite Hpass.
    apply Z.eqb_neq in Hretry. now rewrite Hretry.
  - intros fuel retry pass st retry' v st1 Hpass Hend.
    cbn [password_loop]. unfold bind. rewrite Hpass.
    destruct Hend as [Hv | ->].
    + apply Z.eqb_neq in Hv. rewrite Hv. now rewrite andb_false_r.
    + reflexivity.
  - intros retry st retry' v st1.
    apply prompting_pass_clears_retry.
  - apply password_loop_two_passes.
  - apply password_loop_total.
  - intros retry pass st e st1. apply password_pass_prompts.
  - intros fuel retry pass st e st'. apply password_loop_prompts.
Qed.

Lemma password_retry_is_one_prompt_witness :
  password_loop 7
    (Scenario.the_world Scenario.kdc_mismatch Scenario.no_file 0 0 0 0)
    Scenario.plain_build Scenario.first_pass_args None (Some 1%nat) [] 1
    (Some "stored") (Scenario.allocated "alice")
  = password_pass
      (Scenario.the_world Scenario.kdc_mismatch Scenario.no_file 0 0 0 0)
      Scenario.plain_build Scenario.first_pass_args None (Some 1%nat) [] 1
      None
      (log (EvExchange None (Some "stored") None [])
           (Scenario.allocated "alice"))
  /\ forall e st2,
       password_pass
         (Scenario.the_world Scenario.kdc_mismatch Scenario.no_file 0 0 0 0)
         Scenario.plain_build Scenario.first_pass_args None (Some 1%nat) [] 1
         None
         (log (EvExchange None (Some "stored") None [])
              (Scenario.allocated "alice"))
       = Ok e st2 ->
       prompts (trace st2) = S (prompts (trace (Scenario.allocated "alice")))
       /\ forall r' v, e = PassTest r' v -> r' = 0.
Proof.
  apply (proj1 (password_retry_is_one_prompt
                  (Scenario.the_world Scenario.kdc_mismatch Scenario.no_file
                                      0 0 0 0)
                  Scenario.plain_build Scenario.first_pass_args None
                  (Some 1%nat) [])
               5%nat 1 "stored" (Scenario.allocated "alice") PAM_AUTH_ERR
               (log (EvExchange None (Some "stored") None [])
                    (Scenario.allocated "alice"))).
  - discriminate.
  - reflexivity.
  - discriminate.
Defined.

(** C4 as stated fails.  In this world no password is right: every
    exchange is answered KRB5KRB_AP_ERR_BAD_INTEGRITY.  [try_first_pass]
    is set and a password is stored, so retry is permitted.  Given fuel
    for ten passes, the call makes the attempt with the stored password,
    prompts once, makes the attempt with the typed password and, though
    this one fails with the mismatch status as well, prompts no more: it
    frees the structure and returns PAM_AUTH_ERR. *)
Lemma retry_stops_after_one_prompt :
  (forall h p pass service opts,
      krb5_get_init_creds_password
        (Scenario.the_world Scenario.kdc_mismatch Scenario.no_file 0 0 0 0)
        h p pass service opts
      = KRB5KRB_AP_ERR_BAD_INTEGRITY)
  /\ try_first_pass Scenario.first_pass_args = true
  /\ exists st',
      pamk5_password_auth 10
        (Scenario.the_world Scenario.kdc_mismatch Scenario.no_file 0 0 0 0)
        Scenario.plain_build Scenario.first_pass_args None
        (Scenario.start "alice" (Some "stored"))
      = Ok PAM_AUTH_ERR st'
      /\ trace st'
         = [EvOptFree; EvFree 1;
            EvExchange (Some (mk_principal "EXAMPLE.ORG" ["alice"]))
                       (Some "typed") None [];
            EvGetItem PAM_AUTHTOK; EvSetItem PAM_AUTHTOK "typed";
            EvGetPassword None;
            EvExchange (Some (mk_principal "EXAMPLE.ORG" ["alice"]))
                       (Some "stored") None [];
            EvGetItem PAM_AUTHTOK; EvOptAlloc; EvCalloc (Some 1%nat);
            EvParseName "alice@EXAMPLE.ORG"; EvMalloc]
      /\ prompts (trace st') = 1%nat.
Proof.
  split; [reflexivity |]. split; [reflexivity |].
  eexists. split; [vm_compute; reflexivity |].
  split; reflexivity.
Qed.

(** ** Verification and release at the label [done] *)

(** The verification step runs the verifier exactly when the status that
    reaches [done] is 0 and no service is named. *)
Lemma verify_step_condition w args service retval st e st' :
  verify_step w args service retval st = Ok e st' ->
  (retval = 0 /\ service = None -> verified (trace st') = true)
  /\ (retval <> 0 \/ service <> None -> st' = st /\ e = retval).
Proof.
  unfold verify_step. split.
  - intros [-> ->]. cbn [Z.eqb is_some negb andb] in H.
    revert H. unfold verify_creds, first_keytab_principal. unfold_run.
    repeat (tidy; case_head); tidy; intros H; try discriminate;
      inversion H; reflexivity.
  - intros Hskip.
    assert (Htest : (retval =? 0) && negb (is_some service) = false).
    { destruct Hskip as [Hr | Hs].
      - apply Z.eqb_neq in Hr. now rewrite Hr.
      - destruct service; [now rewrite andb_false_r | contradiction]. }
    rewrite Htest in H. unfold ret in H. now inversion H.
Qed.

(** C5, where the code departs from it.  The trust file of [bob] belongs
    to another account and errno is 0 when the call starts, so the
    trust-file authentication returns PAM_AUTH_ERR with status 0.  The
    call then verifies the credential structure although no exchange was
    attempted, and returns PAM_SUCCESS with the empty structure. *)
Theorem verification_without_acquisition :
  exists st',
    pamk5_password_auth 2
      (Scenario.the_world Scenario.kdc_bob Scenario.bob_file 1001 0 0 0)
      Scenario.plain_build Scenario.k5login_args None
      (Scenario.start "bob" None)
    = Ok PAM_SUCCESS st'
    /\ attempted (trace st') = []
    /\ verified (trace st') = true
    /\ creds_out st' = Some 1%nat
    /\ heap st' = [(1%nat, false)].
Proof.
  eexists. split; [vm_compute; reflexivity |].
  repeat split.
Qed.

(** C1, where the code departs from it.  In a build with PKINIT,
    [use_pkinit] is set, the PKINIT exchange succeeds and the
    verification fails.  [creds_valid] is read at [done] without having
    been assigned; when the value found there is 0 the structure is freed
    with the credential still in it.  The call returns PAM_AUTH_ERR and
    [*creds] is NULL, but the contents were not released.  When the value
    found is not 0 they are. *)
Theorem pkinit_credential_is_not_released :
  (exists st',
      pamk5_password_auth 2
        (Scenario.the_world Scenario.kdc_card Scenario.no_file 0
                            KRB5KRB_AP_ERR_BAD_INTEGRITY 0 0)
        Scenario.pkinit_build Scenario.pkinit_args None
        (Scenario.start "alice" None)
      = Ok PAM_AUTH_ERR st'
      /\ creds_out st' = None
      /\ heap st' = []
      /\ leaked st' = [1%nat])
  /\ (exists st',
         pamk5_password_auth 2
           (Scenario.the_world Scenario.kdc_card Scenario.no_file 0
                               KRB5KRB_AP_ERR_BAD_INTEGRITY 0 1)
           Scenario.pkinit_build Scenario.pkinit_args None
           (Scenario.start "alice" None)
         = Ok PAM_AUTH_ERR st'
         /\ creds_out st' = None
         /\ heap st' = []
         /\ leaked st' = []).
Proof.
  split; (eexists; split; [vm_compute; reflexivity |]; repeat split).
Qed.

(** ** What a failure leaves behind *)

(** Runs a part of the code that has no loop through all its cases. *)
Ltac crunch :=
  unfold_run; repeat (tidy; case_head); tidy;
  let H := fresh "H" in
  intros H; try discriminate; inversion H; subst; clear H.

Lemma parse_name_memory w args st r st' :
  parse_name w args st = Ok r st' -> same_memory st st'.
Proof.
  unfold parse_name, prompt_for_principal, qualify.
  crunch; now repeat split.
Qed.

Lemma discard_creds_null creds_valid st st' :
  discard_creds creds_valid st = Ok tt st' -> creds_out st' = None.
Proof.
  unfold discard_creds, krb5_free_cred_contents, free_creds.
  crunch; tidy; try reflexivity; assumption.
Qed.

Lemma pam_status_of_failure e : pam_status_of e <> PAM_SUCCESS.
Proof.
  unfold pam_status_of.
  repeat match goal with
         | |- context [if ?c then _ else _] => destruct c
         end; discriminate.
Qed.

Lemma done_label_failure w args service retval creds_valid opts st r st' :
  done_label w args service retval creds_valid opts st = Ok r st' ->
  r <> PAM_SUCCESS ->
  creds_out st' = None.
Proof.
  unfold done_label. intros H Hr.
  split_bind H as e s1 Hver. split_bind H as res s2 Hres.
  split_bind H as u s3 Hfree.
  unfold ret in H. inversion H; subst. clear H.
  assert (Hs3 : creds_out st' = creds_out s2).
  { destruct (is_some opts).
    - unfold opt_free, call in Hfree. now inversion Hfree; subst.
    - unfold ret in Hfree. now inversion Hfree; subst. }
  rewrite Hs3. destruct (e =? 0).
  - unfold ret in Hres. inversion Hres; subst. contradiction.
  - split_bind Hres as u' s4 Hdis. destruct u'.
    apply discard_creds_null in Hdis.
    unfold ret in Hres. now inversion Hres; subst.
Qed.

(** A [return] before the label [done] leaves [*creds] NULL, or the
    credential memory untouched. *)
Lemma acquire_return fuel w b args service st v st' :
  acquire fuel w b args service st = Ok (Return v) st' ->
  creds_out st' = None \/ same_memory st st'.
Proof.
  unfold acquire. unfold bind at 1. unfold get at 1.
  destruct (ctx st) eqn:Hctx.
  - unfold bind at 1.
    destruct (parse_name w args st) as [r s1 | |] eqn:Hparse;
      try discriminate.
    apply parse_name_memory in Hparse.
    destruct (negb (r =? 0)).
    + unfold ret. intros H. inversion H; subst. now right.
    + intros H. split_bind H as u s2 Hdebug. split_bind H as pk s3 Hpk.
      destruct pk as [rk |]; [unfold ret in H; discriminate |].
      split_bind H as addr s4 Hcalloc. split_bind H as u' s5 Hset.
      unfold modify in Hset. inversion Hset; subst.
      destruct addr as [addr |].
      * split_bind H as ra s6 Halloc. destruct (negb (ra =? 0));
          [unfold ret in H; discriminate |].
        split_bind H as rp s7 Hitem. destruct rp as [rv pass].
        destruct (use_authtok args
                  && (negb (rv =? PAM_SUCCESS) || negb (is_some pass)));
          [unfold ret in H; discriminate |].
        split_bind H as e s8 Hloop. destruct e; unfold ret in H; discriminate.
      * unfold ret in H. inversion H; subst. now left.
  - unfold ret. intros H. inversion H; subst. right. now repeat split.
Qed.

(** X2.  On every path and in every build, a call that returns a
    failure leaves [*creds] NULL, or has not touched it nor any
    credential structure. *)
Theorem failure_leaves_no_credential
    (fuel : nat) (w : world) (b : build) (args : pam_args)
    (service : option string) (st st' : state) (r : Z) :
  pamk5_password_auth fuel w b args service st = Ok r st' ->
  r <> PAM_SUCCESS ->
  creds_out st' = None \/ same_memory st st'.
Proof.
  unfold pamk5_password_auth. intros H Hr. split_bind H as f s1 Hacq.
  destruct f as [v | retval creds_valid opts].
  - unfold ret in H. inversion H; subst.
    eapply acquire_return; eassumption.
  - left. eapply done_label_failure; eassumption.
Qed.

Lemma failure_leaves_no_credential_witness :
  exists st',
    pamk5_password_auth 2
      (Scenario.the_world Scenario.kdc_down Scenario.no_file 0 0 0 0)
      Scenario.plain_build Scenario.plain_args None
      (Scenario.start "alice" None)
    = Ok PAM_AUTHINFO_UNAVAIL st'
    /\ (creds_out st' = None
        \/ same_memory (Scenario.start "alice" None) st').
Proof.
  eexists. split; [vm_compute; reflexivity |].
  eapply (failure_leaves_no_credential 2
            (Scenario.the_world Scenario.kdc_down Scenario.no_file 0 0 0 0)
            Scenario.plain_build Scenario.plain_args None
            (Scenario.start "alice" None) _ PAM_AUTHINFO_UNAVAIL).
  - vm_compute; reflexivity.
  - discriminate.
Defined.

(** *** Release on the password path *)

Lemma get_init_creds_password_effect w a p pass service opts st r st' :
  get_init_creds_password w (Some a) p pass service opts st = Ok r st' ->
  attempt_effect a (r =? 0) st st'.
Proof.
  unfold get_init_creds_password, fill_creds.
  unfold_run; repeat (tidy; case_head); tidy;
    intros H; try discriminate; inversion H; subst; clear H.
  - match goal with Hz : (_ =? 0) = true |- _ => rewrite Hz end.
    now repeat split.
  - match goal with Hz : (_ =? 0) = false |- _ => rewrite Hz end.
    now repeat split.
Qed.

Lemma read_k5login_effect
    w b a opts service pass file fuel stream retval st su rv st' :
  read_k5login fuel w b (Some a) opts service pass file stream retval st
  = Ok (su, rv) st' ->
  attempt_effect a (su =? PAM_SUCCESS) st st'
  /\ (su = PAM_SUCCESS -> rv = 0).
Proof.
  revert stream retval st.
  induction fuel as [| fuel IH]; intros stream retval st; [discriminate |].
  cbn [read_k5login]. destruct (fgets (BUFSIZ b) stream) as [[line rest] |].
  - unfold bind at 1. unfold ends_line.
    destruct (strlen line) as [| i]; [discriminate |]. unfold ret at 1.
    destruct (match char_at i line with
              | Some c => Ascii.eqb c NL
              | None => false
              end); cbn [negb].
    + unfold bind at 1. unfold call at 1.
      destruct (krb5_parse_name w (trace st) _) as [p | e].
      * unfold bind at 1.
        destruct (get_init_creds_password w (Some a) (Some p) pass service
                    opts _) as [r s1 | |] eqn:Hg; try discriminate.
        apply get_init_creds_password_effect in Hg.
        destruct Hg as (Hc & Hl & Hh). cbn [creds_out leaked heap log] in *.
        destruct (r =? 0) eqn:Hr.
        -- unfold_run. destruct (ctx s1); [| discriminate].
           intros H. inversion H; subst. tidy.
           apply Z.eqb_eq in Hr. subst rv.
           split; [| reflexivity]. now repeat split.
        -- intros H. apply IH in H. destruct H as [(Kc & Kl & Kh) Hsu].
           split; [| exact Hsu].
           repeat split; try congruence.
           rewrite Kh, Hh. reflexivity.
      * intros H. apply IH in H. exact H.
    + unfold bind at 1.
      destruct (skip_line fuel (BUFSIZ b) rest st) as [rest' s1 | |] eqn:Hs;
        try discriminate.
      apply skip_line_state in Hs. subst s1. apply IH.
  - unfold_run. intros H. inversion H; subst.
    split; [now repeat split | discriminate].
Qed.

Lemma direct_attempt_effect w a opts service pass st su rv st' :
  direct_attempt w (Some a) opts service pass st = Ok (su, rv) st' ->
  attempt_effect a (su =? PAM_SUCCESS) st st'
  /\ (su = PAM_SUCCESS -> rv = 0).
Proof.
  unfold direct_attempt. unfold bind at 1. unfold deref_ctx.
  destruct (ctx st); [| discriminate]. unfold bind.
  destruct (get_init_creds_password w (Some a) (princ c) pass service opts
              st) as [r s1 | |] eqn:Hg; try discriminate.
  apply get_init_creds_password_effect in Hg.
  unfold ret. intros H. inversion H; subst. clear H.
  destruct (rv =? 0) eqn:Hr.
  - split; [exact Hg | intros _; now apply Z.eqb_eq].
  - split; [exact Hg | discriminate].
Qed.

Lemma k5login_password_auth_effect w b a opts service pass st su rv st' :
  k5login_password_auth w b (Some a) opts service pass st = Ok (su, rv) st' ->
  attempt_effect a (su =? PAM_SUCCESS) st st'
  /\ (su = PAM_SUCCESS -> rv = 0).
Proof.
  unfold k5login_password_auth. unfold_run.
  repeat (tidy;
          match goal with
          | |- direct_attempt _ _ _ _ _ _ = _ -> _ =>
              let H := fresh in
              intros H; apply direct_attempt_effect in H; exact H
          | |- read_k5login _ _ _ _ _ _ _ _ _ _ _ = _ -> _ =>
              let H := fresh in
              intros H; apply read_k5login_effect in H; exact H
          | |- Ok _ _ = _ -> _ =>
              let H := fresh in
              intros H; inversion H; subst;
              split; [now repeat split | discriminate]
          | |- Undefined _ = _ -> _ => discriminate
          | |- _ => case_head
          end).
Qed.

Lemma set_item_memory item v s :
  creds_out (set_item item v s) = creds_out s
  /\ heap (set_item item v s) = heap s
  /\ leaked (set_item item v s) = leaked s.
Proof. unfold set_item. now destruct (item =? PAM_AUTHTOK). Qed.

Lemma obtain_password_memory w service retry pass st r st' :
  obtain_password w service retry pass st = Ok r st' -> same_memory st st'.
Proof.
  unfold obtain_password, same_memory.
  unfold_run; repeat (tidy; case_head); tidy;
    intros H; try discriminate; inversion H; subst; clear H;
    cbn [creds_out heap leaked log];
    try (destruct (set_item_memory (authtok_item service) (Some s)
                     (log (EvSetItem (authtok_item service) s)
                        (log (EvGetPassword None) st))) as (-> & -> & ->));
    try (match goal with
         | |- context [set_item ?i ?v ?s0] =>
             destruct (set_item_memory i v s0) as (-> & -> & ->)
         end);
    now repeat split.
Qed.

Lemma password_pass_effect w b args service a opts retry pass st e st' :
  password_pass w b args service (Some a) opts retry pass st = Ok e st' ->
  attempt_effect a (is_break e) st st'
  /\ (forall v, e = PassBreak v -> v = 0).
Proof.
  unfold password_pass. intros H.
  split_bind H as o s1 Ho. apply obtain_password_memory in Ho.
  destruct Ho as (Hc & Hh & Hl).
  destruct o as [[retry' pass'] | v].
  - split_bind H as sr s2 Hsr. destruct sr as [su rv].
    assert (Heff : attempt_effect a (su =? PAM_SUCCESS) s1 s2
                   /\ (su = PAM_SUCCESS -> rv = 0)).
    { destruct (search_k5login args).
      - eapply k5login_password_auth_effect; exact Hsr.
      - eapply direct_attempt_effect; exact Hsr. }
    destruct Heff as [(Kc & Kl & Kh) Hsu].
    destruct (su =? PAM_SUCCESS) eqn:Hs.
    + apply Z.eqb_eq in Hs. rewrite (Hsu Hs) in H.
      cbn [Z.eqb negb] in H. unfold ret in H. inversion H; subst.
      split; [| intros v Hv; now inversion Hv].
      cbn [is_break]. repeat split; congruence.
    + unfold ret in H. inversion H; subst.
      split; [| discriminate].
      cbn [is_break]. repeat split; congruence.
  - unfold ret in H. inversion H; subst.
    split; [| discriminate]. cbn [is_break]. now repeat split.
Qed.

Lemma password_loop_effect w b args service a opts fuel retry pass st e st' :
  password_loop fuel w b args service (Some a) opts retry pass st = Ok e st' ->
  attempt_effect a (is_break e) st st'
  /\ (forall v, e = PassBreak v -> v = 0).
Proof.
  revert retry pass st.
  induction fuel as [| fuel IH]; intros retry pass st; [discriminate |].
  cbn [password_loop]. intros H. split_bind H as e1 s1 Hpass.
  apply password_pass_effect in Hpass. destruct Hpass as [Heff Hbrk].
  destruct e1 as [v | v | r' v];
    try (unfold ret in H; inversion H; subst; now split).
  destruct (negb (r' =? 0) && (v =? KRB5KRB_AP_ERR_BAD_INTEGRITY)).
  - apply IH in H. destruct H as [(Kc & Kl & Kh) Kb].
    destruct Heff as (Hc & Hl & Hh). cbn [is_break] in Hh.
    split; [| exact Kb]. repeat split; try congruence.
    rewrite Kh, Hh. reflexivity.
  - unfold ret in H. inversion H; subst. now split.
Qed.

Lemma heap_put_head (a : nat) (f v : bool) (h : list (nat * bool)) :
  heap_put a v ((a, f) :: h) = (a, v) :: h.
Proof. simpl. now rewrite Nat.eqb_refl. Qed.

(** The credential memory at the label [done] in a build without
    PKINIT, for a caller that passed [*creds] NULL: nothing was
    allocated, or [*creds] is the one new structure, and it holds a
    credential only when [creds_valid] is set. *)
Lemma acquire_goto_done fuel w b args service st retval creds_valid opts st1 :
  HAVE_PKINIT b = false ->
  creds_out st = None ->
  acquire fuel w b args service st = Ok (GotoDone retval creds_valid opts) st1 ->
  same_memory st st1
  \/ (exists a f,
         creds_out st1 = Some a
         /\ heap st1 = (a, f) :: heap st
         /\ leaked st1 = leaked st
         /\ (f = true -> creds_valid <> 0)).
Proof.
  intros Hbuild Hnull. unfold acquire. unfold bind at 1. unfold get at 1.
  destruct (ctx st) eqn:Hctx; [| unfold ret; discriminate].
  unfold bind at 1.
  destruct (parse_name w args st) as [r s1 | |] eqn:Hparse; try discriminate.
  apply parse_name_memory in Hparse. destruct Hparse as (Pc & Ph & Pl).
  destruct (negb (r =? 0)); [unfold ret; discriminate |].
  intros H. split_bind H as u s2 Hdebug.
  assert (Hs2 : same_memory s1 s2).
  { revert Hdebug. destruct (debug args && negb (search_k5login args)).
    - unfold_run. destruct (ctx s1); [| discriminate].
      intros K. inversion K; subst. now repeat split.
    - unfold ret. intros K. inversion K; subst. now repeat split. }
  destruct Hs2 as (Dc & Dh & Dl).
  split_bind H as pk s3 Hpk. unfold pkinit_first in Hpk.
  rewrite Hbuild in Hpk.
  assert (Hs3 : s3 = s2)
    by (destruct (use_pkinit args); unfold ret in Hpk; now inversion Hpk).
  subst s3.
  destruct pk as [rk |].
  - unfold ret in H. inversion H; subst. left.
    repeat split; congruence.
  - split_bind H as addr s4 Hcalloc. split_bind H as u' s5 Hset.
    unfold modify in Hset. inversion Hset; subst. clear Hset.
    unfold calloc_creds in Hcalloc.
    destruct (malloc w (trace s2));
      inversion Hcalloc; subst; clear Hcalloc;
      [| unfold ret in H; discriminate].
    split_bind H as ra s6 Halloc. unfold call in Halloc.
    inversion Halloc; subst. clear Halloc.
    right. exists (next_addr s2).
    match type of H with
    | (if ?c then _ else _) _ = _ => destruct c
    end.
    { unfold ret in H. inversion H; subst. exists false.
      cbn [creds_out heap leaked log set_creds_out set_heap set_next_addr].
      repeat split; try congruence; try discriminate. }
    split_bind H as rp s7 Hitem. destruct rp as [rv pass].
    assert (Hs7 : creds_out s7 = Some (next_addr s2)
                  /\ heap s7 = (next_addr s2, false) :: heap st
                  /\ leaked s7 = leaked st).
    { revert Hitem.
      destruct (try_first_pass args || use_first_pass args
                || use_authtok args).
      - unfold_run. intros K. inversion K; subst.
        cbn [creds_out heap leaked log set_creds_out set_heap set_next_addr].
        repeat split; congruence.
      - unfold ret. intros K. inversion K; subst.
        cbn [creds_out heap leaked log set_creds_out set_heap set_next_addr].
        repeat split; congruence. }
    destruct Hs7 as (Ic & Ih & Il).
    destruct (use_authtok args
              && (negb (rv =? PAM_SUCCESS) || negb (is_some pass))).
    { unfold ret in H. inversion H; subst. exists false.
      repeat split; try assumption; try discriminate. }
    split_bind H as e s8 Hloop.
    apply password_loop_effect in Hloop.
    destruct Hloop as [(Lc & Ll & Lh) Lb].
    destruct e as [v | v | r' v]; unfold ret in H; inversion H; subst;
      cbn [is_break] in Lh.
    + exists false. repeat split; try congruence; try discriminate.
    + exists true. rewrite (Lb _ eq_refl). cbn [Z.eqb negb].
      rewrite Lh, Ih, heap_put_head.
      repeat split; try congruence; try discriminate.
    + exists false. repeat split; try congruence; try discriminate.
Qed.

Lemma verify_step_memory w args service retval st e st' :
  verify_step w args service retval st = Ok e st' -> same_memory st st'.
Proof.
  unfold verify_step, verify_creds, first_keytab_principal, same_memory.
  crunch; now repeat split.
Qed.

Lemma discard_creds_release creds_valid st st' a f h :
  creds_out st = Some a ->
  heap st = (a, f) :: h ->
  (f = true -> creds_valid <> 0) ->
  discard_creds creds_valid st = Ok tt st' ->
  creds_out st' = None /\ heap st' = h /\ leaked st' = leaked st.
Proof.
  intros Hc Hh Hf. unfold discard_creds, krb5_free_cred_contents, free_creds.
  unfold_run. rewrite Hc. tidy.
  destruct (creds_valid =? 0) eqn:Hcv; tidy.
  - rewrite Hh. cbn [heap_find heap_drop]. rewrite Nat.eqb_refl.
    destruct f.
    + apply Z.eqb_eq in Hcv. now destruct (Hf eq_refl).
    + intros H. inversion H; subst. now repeat split.
  - rewrite Hh. cbn [heap_find heap_put]. rewrite Nat.eqb_refl. tidy.
    unfold set_heap. tidy. cbn [heap_find heap_drop].
    rewrite Nat.eqb_refl.
    intros H. inversion H; subst. now repeat split.
Qed.

(** X3.  In a build without PKINIT, for a caller that passes [*creds]
    NULL, a call that returns a failure leaves [*creds] NULL, no
    structure allocated and no credential contents unreleased. *)
Theorem password_failure_releases_everything
    (fuel : nat) (w : world) (b : build) (args : pam_args)
    (service : option string) (st st' : state) (r : Z) :
  HAVE_PKINIT b = false ->
  creds_out st = None ->
  pamk5_password_auth fuel w b args service st = Ok r st' ->
  r <> PAM_SUCCESS ->
  creds_out st' = None /\ heap st' = heap st /\ leaked st' = leaked st.
Proof.
  intros Hbuild Hnull H Hr. unfold pamk5_password_auth in H.
  split_bind H as f s1 Hacq.
  destruct f as [v | retval creds_valid opts].
  - unfold ret in H. inversion H; subst.
    destruct (acquire_return _ _ _ _ _ _ _ _ Hacq) as [Hn | (Hc & Hh & Hl)].
    + revert Hacq Hn. clear Hr.
      unfold acquire. unfold bind at 1. unfold get at 1.
      destruct (ctx st) eqn:Hctx.
      * unfold bind at 1.
        destruct (parse_name w args st) as [r0 s1 | |] eqn:Hparse;
          try discriminate.
        apply parse_name_memory in Hparse. destruct Hparse as (Pc & Ph & Pl).
        destruct (negb (r0 =? 0)).
        -- unfold ret. intros K. inversion K; subst.
           intros _. repeat split; congruence.
        -- intros K _. split_bind K as u s2 Hdebug.
           assert (Hs2 : same_memory s1 s2).
           { revert Hdebug.
             destruct (debug args && negb (search_k5login args)).
             - unfold_run. destruct (ctx s1); [| discriminate].
               intros K'. inversion K'; subst. now repeat split.
             - unfold ret. intros K'. inversion K'; subst.
               now repeat split. }
           destruct Hs2 as (Dc & Dh & Dl).
           split_bind K as pk s3 Hpk. unfold pkinit_first in Hpk.
           rewrite Hbuild in Hpk.
           assert (Hs3 : s3 = s2)
             by (destruct (use_pkinit args); unfold ret in Hpk;
                 now inversion Hpk).
           subst s3.
           destruct pk as [rk |]; [unfold ret in K; discriminate |].
           split_bind K as addr s4 Hcalloc. split_bind K as u' s5 Hset.
           unfold modify in Hset. inversion Hset; subst. clear Hset.
           unfold calloc_creds in Hcalloc.
           destruct (malloc w (trace s2));
             inversion Hcalloc; subst; clear Hcalloc.
           ++ split_bind K as ra s6 Halloc.
              match type of K with
              | (if ?c then _ else _) _ = _ => destruct c
              end; [unfold ret in K; discriminate |].
              split_bind K as rp s7 Hitem. destruct rp as [rv pass].
              destruct (use_authtok args
                        && (negb (rv =? PAM_SUCCESS)
                            || negb (is_some pass)));
                [unfold ret in K; discriminate |].
              split_bind K as e s8 Hloop.
              destruct e; unfold ret in K; discriminate.
           ++ unfold ret in K. inversion K; subst.
              cbn [creds_out heap leaked log set_creds_out].
              repeat split; congruence.
      * unfold ret. intros K. inversion K; subst. intros Hn.
        now repeat split.
    + repeat split; congruence.
  - unfold done_label in H.
    split_bind H as e s2 Hver. split_bind H as res s3 Hres.
    split_bind H as u s4 Hfree. unfold ret in H. inversion H; subst. clear H.
    assert (Hs4 : same_memory s3 st').
    { destruct (is_some opts).
      - unfold opt_free, call in Hfree. inversion Hfree; subst.
        now repeat split.
      - unfold ret in Hfree. inversion Hfree; subst. now repeat split. }
    destruct Hs4 as (Fc & Fh & Fl).
    apply verify_step_memory in Hver. destruct Hver as (Vc & Vh & Vl).
    destruct (e =? 0).
    { unfold ret in Hres. inversion Hres; subst. contradiction. }
    split_bind Hres as u' s5 Hdis. destruct u'.
    unfold ret in Hres. inversion Hres; subst. clear Hres.
    destruct (acquire_goto_done _ _ _ _ _ _ _ _ _ _ Hbuild Hnull Hacq)
      as [(Ac & Ah & Al) | (a & f & Ac & Ah & Al & Af)].
    + revert Hdis. unfold discard_creds. unfold_run.
      rewrite Vc, Ac, Hnull.
      intros K. inversion K; subst.
      repeat split; congruence.
    + destruct (discard_creds_release creds_valid s2 s3 a f (heap st))
        as (Rc & Rh & Rl); try congruence; try exact Af.
      repeat split; congruence.
Qed.

Lemma password_failure_releases_everything_witness :
  exists st',
    pamk5_password_auth 2
      (Scenario.the_world Scenario.kdc_mismatch Scenario.bob_file 1000 0 0 0)
      Scenario.plain_build Scenario.k5login_args None
      (Scenario.start "bob" None)
    = Ok PAM_AUTH_ERR st'
    /\ creds_out st' = None
    /\ heap st' = heap (Scenario.start "bob" None)
    /\ leaked st' = leaked (Scenario.start "bob" None).
Proof.
  eexists. split; [vm_compute; reflexivity |].
  eapply (password_failure_releases_everything 2
            (Scenario.the_world Scenario.kdc_mismatch Scenario.bob_file 1000
                                0 0 0)
            Scenario.plain_build Scenario.k5login_args None
            (Scenario.start "bob" None) _ PAM_AUTH_ERR).
  - reflexivity.
  - reflexivity.
  - vm_compute; reflexivity.
  - discriminate.
Defined.

(** ** The call always ends *)

Lemma bind_cont_ext {S A B : Type} (m : run S A) (k k' : A -> run S B) s :
  (forall a s', k a s' = k' a s') -> bind m k s = bind m k' s.
Proof. intros H. unfold bind. destruct (m s); auto. Qed.

Lemma bind_total {S A B : Type} (m : run S A) (k : A -> run S B) s :
  m s <> OutOfFuel ->
  (forall a s', m s = Ok a s' -> k a s' <> OutOfFuel) ->
  bind m k s <> OutOfFuel.
Proof.
  intros Hm Hk. unfold bind.
  destruct (m s) as [a s' | |]; [now apply Hk | discriminate | contradiction].
Qed.

Lemma parse_name_total w args st : parse_name w args st <> OutOfFuel.
Proof.
  unfold parse_name, prompt_for_principal, qualify. unfold_run.
  repeat (tidy; case_head); tidy; discriminate.
Qed.

(** A step of the code that calls no loop ends. *)
Ltac atom_total :=
  solve [ unfold ret, call, call_errno, get, modify, undefined, deref_ctx,
            opt_free, fclose, set_princ, set_name, calloc_creds,
            krb5_free_cred_contents, free_creds, fill_creds;
          unfold bind, ret, call, get, modify, deref_ctx;
          repeat case_head; discriminate ].

Ltac total :=
  repeat first
    [ atom_total
    | apply get_init_creds_password_total
    | apply bind_total; [| intros ? ? _ ]
    | match goal with
      | |- (if ?c then _ else _) _ <> _ => destruct c
      | |- (match ?x with _ => _ end) _ <> _ => destruct x
      end ].

Lemma pkinit_auth_total w b args service st :
  pkinit_auth w b args service st <> OutOfFuel.
Proof. unfold pkinit_auth. total. Qed.

Lemma pkinit_first_total w b args service st :
  pkinit_first w b args service st <> OutOfFuel.
Proof.
  unfold pkinit_first.
  destruct (HAVE_PKINIT b).
  - destruct (use_pkinit args || try_pkinit args); [| discriminate].
    apply bind_total; [apply pkinit_auth_total |]. intros r s1 _.
    repeat match goal with
           | |- (if ?c then _ else _) _ <> _ => destruct c
           end; discriminate.
  - destruct (use_pkinit args); discriminate.
Qed.

Lemma verify_creds_total w args creds st :
  verify_creds w args creds st <> OutOfFuel.
Proof. unfold verify_creds, first_keytab_principal. total. Qed.

Lemma done_label_total w args service retval creds_valid opts st :
  done_label w args service retval creds_valid opts st <> OutOfFuel.
Proof.
  unfold done_label, verify_step, discard_creds.
  apply bind_total.
  { destruct ((retval =? 0) && negb (is_some service)); [| discriminate].
    apply bind_total; [discriminate |]. intros s0 s' _.
    apply verify_creds_total. }
  intros e s1 _. total.
Qed.

Lemma acquire_total w b args service st :
  acquire 2 w b args service st <> OutOfFuel.
Proof.
  unfold acquire.
  apply bind_total; [discriminate |]. intros s0 s' _.
  destruct (ctx s0); [| discriminate].
  apply bind_total; [apply parse_name_total |]. intros r s1 _.
  destruct (negb (r =? 0)); [discriminate |].
  apply bind_total; [total |]. intros u s2 _.
  apply bind_total; [apply pkinit_first_total |]. intros pk s3 _.
  destruct pk; [discriminate |].
  apply bind_total; [atom_total |]. intros addr s4 _.
  apply bind_total; [discriminate |]. intros u' s5 _.
  destruct addr; [| discriminate].
  apply bind_total; [discriminate |]. intros ra s6 _.
  destruct (negb (ra =? 0)); [discriminate |].
  apply bind_total; [total |].
  intros [rv pass] s7 _.
  destruct (use_authtok args
            && (negb (rv =? PAM_SUCCESS) || negb (is_some pass)));
    [discriminate |].
  apply bind_total; [apply password_loop_total |]. intros e s8 _.
  destruct e; discriminate.
Qed.

Lemma acquire_two_passes n w b args service st :
  acquire (S (S n)) w b args service st = acquire 2 w b args service st.
Proof.
  unfold acquire.
  apply bind_cont_ext. intros s0 s'. destruct (ctx s0); [| reflexivity].
  apply bind_cont_ext. intros r s1.
  destruct (negb (r =? 0)); [reflexivity |].
  apply bind_cont_ext. intros u s2.
  apply bind_cont_ext. intros pk s3. destruct pk; [reflexivity |].
  apply bind_cont_ext. intros addr s4.
  apply bind_cont_ext. intros u' s5. destruct addr; [| reflexivity].
  apply bind_cont_ext. intros ra s6.
  destruct (negb (ra =? 0)); [reflexivity |].
  apply bind_cont_ext. intros [rv pass] s7.
  destruct (use_authtok args
            && (negb (rv =? PAM_SUCCESS) || negb (is_some pass)));
    [reflexivity |].
  unfold bind. now rewrite password_loop_two_passes.
Qed.

(** X1.  The call ends whatever the collaborators answer: fuel for two
    passes of the password loop is enough, and more fuel changes
    nothing. *)
Theorem pamk5_password_auth_terminates
    (n : nat) (w : world) (b : build) (args : pam_args)
    (service : option string) (st : state) :
  pamk5_password_auth (S (S n)) w b args service st
  = pamk5_password_auth 2 w b args service st
  /\ pamk5_password_auth 2 w b args service st <> OutOfFuel.
Proof.
  split.
  - unfold pamk5_password_auth, bind. now rewrite acquire_two_passes.
  - unfold pamk5_password_auth.
    apply bind_total; [apply acquire_total |]. intros f s1 _.
    destruct f; [discriminate | apply done_label_total].
Qed.

End AuthFacts.

(** * Properties of [fast.c] *)

Module FastFacts.

Import Fast.

Ltac unfold_run :=
  unfold bind, call, deref_ctx, ret, modify, get, undefined;
  cbn [trace log ctx errno set_errno set_anon_fast_ccache].

Ltac tidy :=
  cbv beta iota;
  cbn [trace log ctx errno set_errno set_anon_fast_ccache negb andb orb
       fst snd Z.eqb];
  cbv beta iota.

Ltac case_head :=
  match goal with
  | |- context [match ?x with _ => _ end] =>
      lazymatch x with
      | context [match _ with _ => _ end] => fail
      | _ => destruct x eqn:?
      end
  end.

Lemma extends_refl h : extends h h.
Proof. now exists []. Qed.

Lemma extends_cons h h' e : extends h h' -> extends h (e :: h').
Proof. intros [later ->]. now exists (e :: later). Qed.

Lemma probe_configured_cache_ctx w cfg st v st1 :
  probe_configured_cache w cfg st = Ok v st1 -> ctx st1 = ctx st.
Proof.
  unfold probe_configured_cache. unfold_run.
  repeat (tidy; case_head); tidy; intros H; inversion H; reflexivity.
Qed.

(** C9.  In a build with anonymous FAST, when the probe of the configured
    armor cache finds none that is valid and anonymous armoring is
    allowed, the provisioner asks for the default realm and builds the
    principal WELLKNOWN/ANONYMOUS of that realm; it makes a unique cache
    file from the template [krb5cc_pam_armor_XXXXXX] in the cache
    directory and resolves the name it got; and it requests credentials
    for the anonymous principal, without password, with an option set
    that carries the anonymous flag and a ticket lifetime of 60 seconds.
    Each step is taken when the steps before it succeeded. *)
Theorem anonymous_armor_is_requested
    (w : world) (b : build) (cfg : pam_config) (opts : creds_opt)
    (st st1 : state) (old : option ccache) (realm path : string)
    (cache : ccache) :
  let comps := [KRB5_WELLKNOWN_NAME; KRB5_ANON_NAME] in
  let template :=
    (strip_file_prefix (ccache_dir cfg) ++ "/krb5cc_pam_armor_XXXXXX")%string in
  let used :=
    ([SetAnonymous 1; SetTktLife 60]
     ++ (if HAVE_SET_OUT_CCACHE b then [SetOutCcache cache] else []))%list in
  let h1 := EvGetDefaultRealm :: trace st1 in
  let h2 := EvBuildPrincipal realm comps :: h1 in
  let h3 := EvAsprintf template :: h2 in
  let h4 := EvMkstemp template :: h3 in
  let h5 := EvCcResolve path :: h4 in
  HAVE_SET_FAST_CCACHE_NAME b = true ->
  HAVE_SET_ANONYMOUS b = true ->
  ctx st = Some old ->
  probe_configured_cache w cfg st = Ok false st1 ->
  anon_fast cfg = true ->
  krb5_get_default_realm w (trace st1) = inl realm ->
  krb5_build_principal_ext w h1 realm comps = 0 ->
  asprintf w h2 template = inl tt ->
  pamk5_cache_mkstemp w h3 template = inl path ->
  krb5_cc_resolve w h4 path = inl cache ->
  krb5_get_init_creds_opt_alloc w h5 = 0 ->
  exists opts' st2,
    pamk5_fast_setup w b cfg opts st = Ok opts' st2
    /\ extends (EvExchange (anonymous_principal realm) None used
                  :: EvOptAlloc :: h5)
               (trace st2)
    /\ In (SetAnonymous 1) used
    /\ (forall v, In (SetTktLife v) used -> v = 60).
Proof.
  intros comps template used h1 h2 h3 h4 h5 Hfast Hanon Hctx Hprobe Hallow
         Hrealm Hbuild Hpath Hmk Hres Halloc.
  assert (Hctx1 : ctx st1 = Some old)
    by (rewrite (probe_configured_cache_ctx _ _ _ _ _ Hprobe); exact Hctx).
  assert (Hused : In (SetAnonymous 1) used
                  /\ forall v, In (SetTktLife v) used -> v = 60).
  { subst used. split; [now left |].
    intros v [H | [H | H]]; try discriminate.
    - now injection H.
    - destruct (HAVE_SET_OUT_CCACHE b); simpl in H;
        [destruct H as [H | []]; discriminate | contradiction]. }
  destruct Hused as [Hu1 Hu2].
  subst h1 h2 h3 h4 h5 used template comps.
  unfold pamk5_fast_setup. rewrite Hfast. cbn [negb].
  unfold bind at 1. unfold deref_ctx at 1. rewrite Hctx.
  unfold bind at 1. rewrite Hprobe. rewrite Hallow. cbn [negb andb].
  unfold anonymous_fallback, cache_init_anonymous, obtain_anonymous.
  rewrite Hanon. cbn [negb].
  unfold_run. rewrite Hctx1. tidy. rewrite Hrealm. tidy.
  rewrite Hbuild. tidy. rewrite Hpath. tidy.
  rewrite Hmk. tidy. rewrite Hres. tidy. rewrite Halloc. tidy.
  repeat (tidy; case_head); tidy; try congruence;
    (do 2 eexists; split; [reflexivity |]; tidy;
     split; [repeat first [apply extends_refl | apply extends_cons] |];
     split; assumption).
Qed.

Lemma anonymous_armor_is_requested_witness :
  exists opts' st2,
    pamk5_fast_setup Scenario.fast_world Scenario.fast_build
                     Scenario.fast_config [] Scenario.fast_start
    = Ok opts' st2
    /\ extends
         [EvExchange (mk_principal "EXAMPLE.ORG" ["WELLKNOWN"; "ANONYMOUS"])
                     None
                     [SetAnonymous 1; SetTktLife 60;
                      SetOutCcache "/tmp/krb5cc_pam_armor_a1B2c3"];
          EvOptAlloc;
          EvCcResolve "/tmp/krb5cc_pam_armor_a1B2c3";
          EvMkstemp "/tmp/krb5cc_pam_armor_XXXXXX";
          EvAsprintf "/tmp/krb5cc_pam_armor_XXXXXX";
          EvBuildPrincipal "EXAMPLE.ORG" ["WELLKNOWN"; "ANONYMOUS"];
          EvGetDefaultRealm;
          EvCcResolve "/tmp/krb5cc_armor"]
         (trace st2)
    /\ In (SetAnonymous 1)
          [SetAnonymous 1; SetTktLife 60;
           SetOutCcache "/tmp/krb5cc_pam_armor_a1B2c3"]
    /\ (forall v,
           In (SetTktLife v)
              [SetAnonymous 1; SetTktLife 60;
               SetOutCcache "/tmp/krb5cc_pam_armor_a1B2c3"] ->
           v = 60).
Proof.
  refine (anonymous_armor_is_requested
            Scenario.fast_world Scenario.fast_build Scenario.fast_config []
            Scenario.fast_start
            (mk_state 0 (Some None) [EvCcResolve "/tmp/krb5cc_armor"])
            None "EXAMPLE.ORG" "/tmp/krb5cc_pam_armor_a1B2c3"
            "/tmp/krb5cc_pam_armor_a1B2c3" _ _ _ _ _ _ _ _ _ _ _);
    reflexivity.
Defined.

End FastFacts.

(** * Further properties of [auth.c] *)

Module AuthMore.

Import Auth Observe AuthFacts.

(** ** The option builder *)







Lemma preauth_settings_only_pa (args : pam_args) (o : opt_setting) :
  In o (preauth_settings args) -> exists n v, o = SetPa n v.
Proof.
  unfold preauth_settings.
  destruct (preauth_opt args) as [entries |]; [| contradiction].
  destruct (0 <? preauth_opt_count args); [| contradiction].
  intros H. apply in_flat_map in H. destruct H as (e & _ & He).
  destruct e as [n |]; [| contradiction].
  destruct He as [<- | []]. unfold preauth_setting.
  destruct (split_at "="%char n) as [[l r] |]; eauto.
Qed.

(** What the last block of [set_credential_options] adds is
    pre-authentication attributes only. *)
Lemma pkinit_block_only_pa (b : build) (args : pam_args) (o : opt_setting) :
  In o (if HAVE_SET_PA b && try_pkinit args then
          match pkinit_user args with
          | Some u => [SetPa "X509_user_identity" u]
          | None => []
          end
          ++ match pkinit_anchors args with
             | Some a => [SetPa "X509_anchors" a]
             | None => []
             end
          ++ preauth_settings args
        else [])%list ->
  exists n v, o = SetPa n v.
Proof.
  destruct (HAVE_SET_PA b && try_pkinit args); [| contradiction].
  intros H. apply in_app_or in H. destruct H as [H | H].
  - destruct (pkinit_user args); [destruct H as [<- | []]; eauto |
                                  contradiction].
  - apply in_app_or in H. destruct H as [H | H].
    + destruct (pkinit_anchors args); [destruct H as [<- | []]; eauto |
                                       contradiction].
    + eapply preauth_settings_only_pa; exact H.
Qed.

(** X5.  For a service-specific request the builder turns forwardable,
    proxiable and the renewable lifetime off and sets no ticket
    lifetime, whatever the configuration asks for; the settings already
    in the option set are kept in front. *)
Theorem service_ticket_options_are_forced_off
    (b : build) (args : pam_args) (opts : creds_opt) :
  exists added,
    set_credential_options b args opts true = (opts ++ added)%list
    /\ In (SetForwardable 0) added
    /\ In (SetProxiable 0) added
    /\ In (SetRenewLife 0) added
    /\ (forall v, In (SetForwardable v) added -> v = 0)
    /\ (forall v, In (SetProxiable v) added -> v = 0)
    /\ (forall v, In (SetRenewLife v) added -> v = 0)
    /\ (forall v, ~ In (SetTktLife v) added).
Proof.
  eexists. split; [reflexivity |]. cbn [negb].
  match goal with
  | |- context [(_ ++ _ ++ ?t)%list] =>
      assert (Htail : forall o, In o t -> exists n v, o = SetPa n v)
        by (intros o Ho; eapply pkinit_block_only_pa; exact Ho);
      generalize dependent t; intros tail Htail
  end.
  repeat split; try (intros v Hv); rewrite ?in_app_iff in *; cbn [In] in *;
    try (right; left; tauto).
  all: destruct (HAVE_SET_DEFAULT_FLAGS b); cbn [In] in *;
    repeat match goal with
      | H : _ \/ _ |- _ => destruct H
      | H : False |- _ => destruct H
      | H : In _ ?t, Ht : forall o, In o ?t -> _ |- _ =>
          let H' := fresh in
          pose proof (Ht _ H) as H'; clear H; destruct H' as (? & ? & ?)
      end;
    try discriminate; try congruence.
Qed.

(** X6.  For a request that is not service-specific the builder sets
    the ticket lifetime exactly when a lifetime other than 0 is
    configured, and then to that value; likewise the renewable lifetime;
    it sets forwardable only to 1 and only when configured, and never
    touches proxiable. *)
Theorem primary_ticket_options_follow_configuration
    (b : build) (args : pam_args) (opts : creds_opt) :
  exists added,
    set_credential_options b args opts false = (opts ++ added)%list
    /\ (forall v, In (SetTktLife v) added <->
                  v = lifetime args /\ lifetime args <> 0)
    /\ (forall v, In (SetRenewLife v) added <->
                  v = renew_lifetime args /\ renew_lifetime args <> 0)
    /\ (forall v, In (SetForwardable v) added <->
                  v = 1 /\ forwardable args = true)
    /\ (forall v, ~ In (SetProxiable v) added).
Proof.
  eexists. split; [reflexivity |]. cbn [negb].
  match goal with
  | |- context [(_ ++ _ ++ ?t)%list] =>
      assert (Htail : forall o, In o t -> exists n v, o = SetPa n v)
        by (intros o Ho; eapply pkinit_block_only_pa; exact Ho);
      generalize dependent t; intros tail Htail
  end.
  repeat split; unfold not; intros;
    rewrite ?in_app_iff in *;
    destruct (HAVE_SET_DEFAULT_FLAGS b), (forwardable args),
      (Z.eqb_spec (lifetime args) 0), (Z.eqb_spec (renew_lifetime args) 0);
    cbn [negb In] in *;
    repeat match goal with
      | H : _ \/ _ |- _ => destruct H
      | H : _ /\ _ |- _ => destruct H
      | H : False |- _ => destruct H
      | H : In _ ?t, Ht : forall o, In o ?t -> _ |- _ =>
          let H' := fresh in
          pose proof (Ht _ H) as H'; clear H; destruct H' as (? & ? & ?)
      end;
    try discriminate; try congruence; subst; try tauto;
    try (match goal with
         | H : _ ?x = _ ?y |- _ => injection H as H
         end; subst; tauto).
Qed.

(** ** Principal resolution *)

Lemma qualify_ctx w args text st q st1 :
  qualify w args text st = Ok q st1 -> ctx st1 = ctx st.
Proof. unfold qualify. crunch; reflexivity. Qed.

(** X7.  After the working name has been turned into a principal, the
    account name of the context is brought to a local name: when it holds
    an [@], the local name the library maps the principal to replaces it,
    provided the mapping and the copy of its result succeed; when the
    mapping or the copy fails, or when the account name holds no [@], the
    name stays as it was.  In every one of these cases the resolution
    reports success and the principal is stored in the context. *)
Theorem qualified_account_becomes_local_name
    (w : world) (args : pam_args) (st st1 st2 : state) (c : context)
    (user : user_ptr) (text : string) (p : principal) :
  let h1 := EvParseName text :: trace st2 in
  let h2 := EvAnameToLocalname (Some p) :: h1 in
  ctx st = Some c ->
  prompt_for_principal w args c st = Ok user st1 ->
  qualify w args (user_text c user) st1 = Ok (inl text) st2 ->
  krb5_parse_name w (trace st2) text = inl p ->
  exists st',
    parse_name w args st = Ok 0 st'
    /\ ctx st'
       = Some (mk_context
                 (if strchr (name c) AT then
                    match krb5_aname_to_localname w h1 (Some p) with
                    | inl kuser => if malloc w h2 then kuser else name c
                    | inr _ => name c
                    end
                  else name c)
                 (Some p)).
Proof.
  intros h1 h2 Hc Hprompt Hq Hparse. subst h1 h2.
  assert (Hc2 : ctx st2 = Some c).
  { rewrite (qualify_ctx _ _ _ _ _ _ Hq).
    rewrite (prompt_for_principal_ctx _ _ _ _ _ _ Hprompt). exact Hc. }
  unfold parse_name.
  rewrite (bind_ok deref_ctx _ st c st) by (unfold deref_ctx; now rewrite Hc).
  rewrite (bind_ok _ _ _ _ _ Hprompt). rewrite (bind_ok _ _ _ _ _ Hq).
  unfold_run. rewrite Hparse. tidy. rewrite Hc2. tidy.
  destruct (strchr (name c) AT); tidy.
  - destruct (krb5_aname_to_localname w _ (Some p)) as [kuser | e]; tidy.
    + destruct (malloc w _); tidy;
        (eexists; split; [reflexivity |]); tidy; destruct c; reflexivity.
    + eexists; split; [reflexivity |]. tidy. reflexivity.
  - eexists; split; [reflexivity |]. tidy. reflexivity.
Qed.

Lemma qualified_account_becomes_local_name_witness :
  exists st',
    parse_name (Scenario.the_world Scenario.kdc_secret Scenario.no_file
                                   0 0 0 0)
               Scenario.plain_args (Scenario.start "alice@OTHER.ORG" None)
    = Ok 0 st'
    /\ ctx st'
       = Some (mk_context "local"
                          (Some (mk_principal "OTHER.ORG" ["alice"]))).
Proof.
  apply (qualified_account_becomes_local_name
           (Scenario.the_world Scenario.kdc_secret Scenario.no_file 0 0 0 0)
           Scenario.plain_args (Scenario.start "alice@OTHER.ORG" None)
           (Scenario.start "alice@OTHER.ORG" None)
           (Scenario.start "alice@OTHER.ORG" None)
           (mk_context "alice@OTHER.ORG" None)
           UserIsName "alice@OTHER.ORG" (mk_principal "OTHER.ORG" ["alice"]));
    reflexivity.
Defined.

(** ** The prompt for the principal *)

Lemma qualify_parsed w args text st q st1 :
  qualify w args text st = Ok q st1 -> parsed (trace st1) = parsed (trace st).
Proof. unfold qualify. crunch; reflexivity. Qed.

(** X8.  With [prompt_princ], the user is asked for the principal and
    the answer, when it is not empty, takes the place of the account
    name in what is parsed, whatever status the conversation returned;
    an empty answer is dropped and the account name is parsed.  One text
    is parsed, and the status of the parser is what [parse_name]
    returns. *)
Theorem principal_prompt_overrides_the_account_name
    (w : world) (args : pam_args) (st s2 : state) (c : context)
    (status : Z) (answer full : string) :
  let s1 := log (EvConv "Principal: " true) st in
  let text := match answer with
              | EmptyString => name c
              | String _ _ => answer
              end in
  ctx st = Some c ->
  prompt_princ args = true ->
  pamk5_conv w (trace st) "Principal: " true = (status, Some answer) ->
  qualify w args text s1 = Ok (inl full) s2 ->
  exists st',
    parse_name w args st
    = Ok (match krb5_parse_name w (trace s2) full with
          | inl _ => 0
          | inr e => code_of e
          end) st'
    /\ parsed (trace st') = (parsed (trace st) ++ [full])%list.
Proof.
  intros s1 text Hc Hprompt Hconv Hq. subst s1 text.
  pose proof (qualify_ctx _ _ _ _ _ _ Hq) as Hc2. cbn [ctx log] in Hc2.
  pose proof (qualify_parsed _ _ _ _ _ _ Hq) as Hp2.
  cbn [trace log parsed] in Hp2.
  unfold parse_name, prompt_for_principal. rewrite Hprompt.
  unfold_run. rewrite Hc. tidy. rewrite Hconv. tidy.
  destruct answer as [| x answer]; cbn [user_text] in *; tidy;
    rewrite Hq; tidy;
    (destruct (krb5_parse_name w (trace s2) full) as [p | e]; tidy;
     [rewrite Hc2, Hc; tidy |]);
    repeat (tidy; case_head); tidy;
    (eexists; split; [reflexivity |]); tidy;
    cbn [parsed]; rewrite Hp2; reflexivity.
Qed.

Lemma principal_prompt_overrides_the_account_name_witness :
  exists st',
    parse_name
      (Cases.answering "carol"
         (Scenario.the_world Scenario.kdc_secret Scenario.no_file 0 0 0 0))
      Cases.prompt_args (Scenario.start "alice" None)
    = Ok 0 st'
    /\ parsed (trace st') = ["carol@EXAMPLE.ORG"].
Proof.
  refine (principal_prompt_overrides_the_account_name
            (Cases.answering "carol"
               (Scenario.the_world Scenario.kdc_secret Scenario.no_file 0 0
                                   0 0))
            Cases.prompt_args (Scenario.start "alice" None)
            (log EvMalloc
                 (log (EvConv "Principal: " true)
                      (Scenario.start "alice" None)))
            (mk_context "alice" None) PAM_SUCCESS "carol"
            "carol@EXAMPLE.ORG" _ _ _ _);
    reflexivity.
Defined.

(** ** The trust file: the paths around the loop *)

Lemma direct_attempt_runs w a full opts service pass st c :
  ctx st = Some c ->
  heap_find a (heap st) = Some full ->
  exists st',
    direct_attempt w (Some a) opts service pass st
    = Ok (if krb5_get_init_creds_password w (trace st) (princ c) pass
                service opts =? 0
          then PAM_SUCCESS else PAM_AUTH_ERR,
          krb5_get_init_creds_password w (trace st) (princ c) pass service
            opts) st'
    /\ trace st' = EvExchange (princ c) pass service opts :: trace st
    /\ ctx st' = ctx st
    /\ heap_find a (heap st')
       = Some (if krb5_get_init_creds_password w (trace st) (princ c) pass
                    service opts =? 0
               then true else full).
Proof.
  intros Hc Hlive.
  unfold direct_attempt, get_init_creds_password, fill_creds. unfold_run.
  rewrite Hc. tidy.
  destruct (krb5_get_init_creds_password w (trace st) (princ c) pass service
              opts =? 0) eqn:Hr; tidy.
  - rewrite Hlive. rewrite Hr.
    eexists. split; [reflexivity |]. unfold set_heap. tidy.
    repeat split; try assumption. now apply heap_find_put with (f := full).
  - rewrite Hr. eexists. split; [reflexivity |]. tidy.
    repeat split; assumption.
Qed.

(** X9.  When the account has no passwd entry, when there is no memory
    for the name of its trust file, or when the trust file is not
    readable, the trust-file authentication makes exactly one exchange,
    as the principal already in the context and right after the call
    that failed: it parses no text, it returns PAM_SUCCESS when and only
    when the status of that exchange is 0, and the status it reports is
    the status of that exchange. *)
Theorem missing_trust_file_means_one_direct_attempt
    (w : world) (b : build) (a : nat) (full : bool) (opts : creds_opt)
    (service pass : option string) (st : state) (c : context)
    (h : history) :
  let h1 := EvGetpwnam (name c) :: trace st in
  let h2 := EvMalloc :: h1 in
  ctx st = Some c ->
  heap_find a (heap st) = Some full ->
  (pamk5_compat_getpwnam w (trace st) (name c) = None /\ h = h1)
  \/ (exists pw,
         pamk5_compat_getpwnam w (trace st) (name c) = Some pw
         /\ ((malloc w h1 = false /\ h = h2)
             \/ exists e,
                  malloc w h1 = true
                  /\ access w h2 (pw_dir pw ++ "/.k5login") = inr e
                  /\ h = EvAccess (pw_dir pw ++ "/.k5login") :: h2)) ->
  exists st',
    k5login_password_auth w b (Some a) opts service pass st
    = Ok (if krb5_get_init_creds_password w h (princ c) pass service opts
             =? 0
          then PAM_SUCCESS else PAM_AUTH_ERR,
          krb5_get_init_creds_password w h (princ c) pass service opts) st'
    /\ trace st' = EvExchange (princ c) pass service opts :: h
    /\ attempted (trace st') = (attempted (trace st) ++ [princ c])%list
    /\ parsed (trace st') = parsed (trace st)
    /\ ctx st' = ctx st
    /\ heap_find a (heap st')
       = Some (if krb5_get_init_creds_password w h (princ c) pass service
                    opts =? 0
               then true else full).
Proof.
  intros h1 h2 Hc Hlive Hcase. subst h1 h2.
  unfold k5login_password_auth. unfold_run. rewrite Hc. tidy.
  destruct Hcase
    as [(Hpw & ->)
       | (pw & Hpw & [(Hmem & ->) | (e & Hmem & Hacc & ->)])];
    rewrite Hpw; tidy; try (rewrite Hmem; tidy); try (rewrite Hacc; tidy).
  all: match goal with
       | |- context [direct_attempt ?w0 (Some ?a0) ?o0 ?s0 ?p0 ?s] =>
           destruct (direct_attempt_runs w0 a0 full o0 s0 p0 s c)
             as (st' & Hrun & Ht & Hc' & Hh); [exact Hc | exact Hlive |]
       end;
    cbn [trace log set_errno] in Hrun, Ht, Hh;
    exists st'; (split; [exact Hrun |]); (split; [exact Ht |]);
    rewrite Ht; cbn [trace log set_errno attempted parsed];
    repeat split; try assumption; rewrite Hc'; exact Hc.
Qed.

Lemma missing_trust_file_means_one_direct_attempt_witness :
  exists st',
    k5login_password_auth
      (Cases.without_account
         (Scenario.the_world Scenario.kdc_secret Scenario.no_file 1000 0 0 0))
      Scenario.plain_build (Some 1%nat) [] None (Some "secret")
      (Scenario.allocated "bob")
    = Ok (PAM_SUCCESS, 0) st'
    /\ trace st'
       = EvExchange None (Some "secret") None []
         :: EvGetpwnam "bob" :: trace (Scenario.allocated "bob")
    /\ attempted (trace st') = [None]
    /\ parsed (trace st') = []
    /\ ctx st' = Some (mk_context "bob" None)
    /\ heap_find 1%nat (heap st') = Some true.
Proof.
  refine (missing_trust_file_means_one_direct_attempt
            (Cases.without_account
               (Scenario.the_world Scenario.kdc_secret Scenario.no_file 1000
                                   0 0 0))
            Scenario.plain_build 1%nat false [] None (Some "secret")
            (Scenario.allocated "bob") (mk_context "bob" None)
            (EvGetpwnam "bob" :: trace (Scenario.allocated "bob")) _ _ _);
    try reflexivity.
  left. split; reflexivity.
Defined.

(** X10.  When the trust file passes the readability test but cannot be
    opened, or is opened but cannot be examined, the trust-file
    authentication returns PAM_AUTH_ERR and reports the errno of the call
    that failed, which is not 0; it parses no text and attempts no
    exchange. *)
Theorem unopenable_trust_file_reports_errno
    (w : world) (b : build) (creds : option nat) (opts : creds_opt)
    (service pass : option string) (st : state) (c : context) (pw : passwd)
    (e : errcode) :
  let file := (pw_dir pw ++ "/.k5login")%string in
  let h1 := EvGetpwnam (name c) :: trace st in
  let h2 := EvMalloc :: h1 in
  let h3 := EvAccess file :: h2 in
  let h4 := EvFopen file :: h3 in
  ctx st = Some c ->
  pamk5_compat_getpwnam w (trace st) (name c) = Some pw ->
  malloc w h1 = true ->
  access w h2 file = inl tt ->
  fopen w h3 file = inr e
  \/ (exists content,
         fopen w h3 file = inl content /\ fstat w h4 file = inr e) ->
  exists st',
    k5login_password_auth w b creds opts service pass st
    = Ok (PAM_AUTH_ERR, code_of e) st'
    /\ code_of e <> 0
    /\ attempted (trace st') = attempted (trace st)
    /\ parsed (trace st') = parsed (trace st)
    /\ ctx st' = ctx st.
Proof.
  intros file h1 h2 h3 h4 Hc Hpw Hmem Hacc Hfail. subst file h1 h2 h3 h4.
  unfold k5login_password_auth. unfold_run.
  rewrite Hc. tidy. rewrite Hpw. tidy. rewrite Hmem. tidy.
  rewrite Hacc. tidy.
  destruct Hfail as [Hopen | (content & Hopen & Hstat)];
    rewrite Hopen; tidy; try (rewrite Hstat; tidy);
    (eexists; split; [reflexivity |]); tidy;
    (split; [destruct e; discriminate |]); now repeat split.
Qed.

Lemma unopenable_trust_file_reports_errno_witness :
  exists st',
    k5login_password_auth
      (Scenario.the_world Scenario.kdc_bob Scenario.no_file 1000 0 0 0)
      Scenario.plain_build (Some 1%nat) [] None (Some "secret")
      (Scenario.allocated "bob")
    = Ok (PAM_AUTH_ERR, 2) st'
    /\ 2 <> 0
    /\ attempted (trace st') = []
    /\ parsed (trace st') = []
    /\ ctx st' = Some (mk_context "bob" None).
Proof.
  refine (unopenable_trust_file_reports_errno
            (Scenario.the_world Scenario.kdc_bob Scenario.no_file 1000 0 0 0)
            Scenario.plain_build (Some 1%nat) [] None (Some "secret")
            (Scenario.allocated "bob") (mk_context "bob" None)
            (mk_passwd "/home/bob" 1000) (Pos 2) _ _ _ _ _);
    try reflexivity.
  now left.
Defined.

(** ** The trust file: what the loop does with its lines *)

Lemma lines_from_unterminated (acc tail : string) :
  strchr tail NL = false -> lines_from acc tail = [].
Proof.
  revert acc. induction tail as [| x t IH]; intros acc; simpl;
    [reflexivity |].
  destruct (Ascii.eqb x NL); [discriminate | apply IH].
Qed.

Lemma last_cons {A : Type} (l : list A) (x d : A) :
  last (x :: l) d = last l x.
Proof.
  revert x d. induction l as [| y l IH]; intros x d; [reflexivity |].
  change (last (x :: y :: l) d) with (last (y :: l) d).
  now rewrite !IH.
Qed.

(** Lines that fit, are accepted by the parser and fail the exchange:
    the loop tries each in turn and carries the status of the last one
    to the label [fail]; what follows the last newline is not a line. *)
Lemma read_k5login_all_fail
    (w : world) (b : build) (a : nat) (opts : creds_opt)
    (service pass : option string) (file : string) (code : principal -> Z)
    (tail : string) (before : list (string * principal)) :
  (2 <= BUFSIZ b)%nat ->
  strchr tail NL = false ->
  strchr tail NUL = false ->
  Forall (fun lp => fits b (fst lp) = true) before ->
  (forall h l p, In (l, p) before -> krb5_parse_name w h l = inl p) ->
  (forall h l p, In (l, p) before ->
     krb5_get_init_creds_password w h (Some p) pass service opts = code p) ->
  (forall l p, In (l, p) before -> code p <> 0) ->
  forall (fuel : nat) (retval : Z) (st : state),
    (String.length (lines_then (map fst before) tail) < fuel)%nat ->
    exists st',
      read_k5login fuel w b (Some a) opts service pass file
                   (lines_then (map fst before) tail) retval st
      = Ok (PAM_AUTH_ERR,
            last (map (fun lp => code (snd lp)) before) retval) st'
      /\ attempted (trace st')
         = (attempted (trace st) ++ map (fun lp => Some (snd lp)) before)%list
      /\ ctx st' = ctx st
      /\ creds_out st' = creds_out st
      /\ heap st' = heap st.
Proof.
  intros Hsize Hnl Hnul.
  induction before as [| [l p] before IH];
    intros Hfits Hparse Hcode Hfail fuel retval st Hfuel.
  - cbn [map lines_then last] in Hfuel |- *.
    destruct (read_k5login_all_rejected w b (Some a) opts service pass file
                retval fuel tail st Hsize Hfuel Hnul)
      as (st' & Hrun & Ha & Hc & Hco & Hh).
    { intros h t Ht. unfold lines_of in Ht.
      rewrite lines_from_unterminated in Ht by assumption. destruct Ht. }
    exists st'. split; [exact Hrun |]. rewrite app_nil_r. now repeat split.
  - cbn [map lines_then fst snd] in Hfuel |- *.
    destruct fuel as [| fuel]; [lia |].
    inversion Hfits as [| ? ? Hl Hrest]; subst.
    rewrite (read_k5login_line w b opts service pass file a fuel l _ p retval
               st Hl (Hparse _ l p (or_introl eq_refl))).
    unfold get_init_creds_password at 1. unfold bind at 1. unfold bind at 1.
    unfold call at 1. tidy.
    rewrite (Hcode _ l p (or_introl eq_refl)).
    pose proof (Hfail l p (or_introl eq_refl)) as Hne.
    apply Z.eqb_neq in Hne. rewrite Hne. unfold ret at 1. rewrite Hne.
    match goal with
    | |- context [read_k5login fuel _ _ _ _ _ _ _ _ ?r ?st0] =>
        destruct (IH Hrest
                    (fun h l' p' H => Hparse h l' p' (or_intror H))
                    (fun h l' p' H => Hcode h l' p' (or_intror H))
                    (fun l' p' H => Hfail l' p' (or_intror H))
                    fuel r st0)
          as (st' & Hrun & Ha & Hc' & Hco & Hh)
    end.
    + pose proof (length_lines_then_tail l
                    (lines_then (map fst before) tail)). lia.
    + exists st'. split; [rewrite last_cons; exact Hrun |].
      split; [| now repeat split].
      rewrite Ha. cbn [trace log attempted map snd].
      now rewrite <- app_assoc.
Qed.

(** X11.  Let the trust file be found, opened and owned by the account
    or by uid 0, and let it hold well-formed lines (each fits the line
    buffer and is accepted by the parser) for each of which the exchange
    fails, followed by characters without a newline.  Then every
    candidate is tried once, in file order; the characters after the
    last newline are not tried; the principal of the context is left as
    it was; and the status reported with PAM_AUTH_ERR is the status of
    the last candidate tried (KRB5KRB_AP_ERR_BAD_INTEGRITY when there is
    none). *)
Theorem failing_trust_file_reports_last_status
    (w : world) (b : build) (a : nat) (opts : creds_opt)
    (service pass : option string) (st : state) (c : context) (pw : passwd)
    (st_uid : Z) (before : list (string * principal)) (tail : string)
    (code : principal -> Z) :
  let file := (pw_dir pw ++ "/.k5login")%string in
  let h1 := EvGetpwnam (name c) :: trace st in
  let h2 := EvMalloc :: h1 in
  let h3 := EvAccess file :: h2 in
  let h4 := EvFopen file :: h3 in
  ctx st = Some c ->
  pamk5_compat_getpwnam w (trace st) (name c) = Some pw ->
  malloc w h1 = true ->
  access w h2 file = inl tt ->
  fopen w h3 file = inl (lines_then (map fst before) tail) ->
  fstat w h4 file = inl st_uid ->
  st_uid = 0 \/ st_uid = pw_uid pw ->
  (2 <= BUFSIZ b)%nat ->
  strchr tail NL = false ->
  strchr tail NUL = false ->
  Forall (fun lp => fits b (fst lp) = true) before ->
  (forall h l p, In (l, p) before -> krb5_parse_name w h l = inl p) ->
  (forall h l p, In (l, p) before ->
     krb5_get_init_creds_password w h (Some p) pass service opts = code p) ->
  (forall l p, In (l, p) before -> code p <> 0) ->
  exists st',
    k5login_password_auth w b (Some a) opts service pass st
    = Ok (PAM_AUTH_ERR,
          last (map (fun lp => code (snd lp)) before)
               KRB5KRB_AP_ERR_BAD_INTEGRITY) st'
    /\ attempted (trace st')
       = (attempted (trace st) ++ map (fun lp => Some (snd lp)) before)%list
    /\ ctx st' = ctx st.
Proof.
  intros file h1 h2 h3 h4 Hc Hpw Hmem Hacc Hopen Hstat Howner Hsize Hnl Hnul
         Hfits Hparse Hcode Hfail.
  rewrite (k5login_reads_accepted_file w b (Some a) opts service pass st c
             pw _ st_uid Hc Hpw Hmem Hacc Hopen Hstat Howner).
  match goal with
  | |- context [read_k5login ?f _ _ _ _ _ _ ?fl _ ?r ?st0] =>
      destruct (read_k5login_all_fail w b a opts service pass fl code tail
                  before Hsize Hnl Hnul Hfits Hparse Hcode Hfail f r st0
                  (Nat.lt_succ_diag_r _))
        as (st' & Hrun & Ha & Hc' & _)
  end.
  exists st'. split; [exact Hrun |]. split; [exact Ha | exact Hc'].
Qed.

Lemma failing_trust_file_reports_last_status_witness :
  exists st',
    k5login_password_auth
      (Scenario.the_world Cases.kdc_last_unknown Cases.cut_file 1000 0 0 0)
      Scenario.plain_build (Some 1%nat) [] None (Some "secret")
      (Scenario.allocated "bob")
    = Ok (PAM_AUTH_ERR, KRB5KDC_ERR_C_PRINCIPAL_UNKNOWN) st'
    /\ attempted (trace st')
       = [Some (mk_principal "OTHER" ["bob"]);
          Some (mk_principal "LAST" ["bob"])]
    /\ ctx st' = Some (mk_context "bob" None).
Proof.
  refine (failing_trust_file_reports_last_status
            (Scenario.the_world Cases.kdc_last_unknown Cases.cut_file 1000
                                0 0 0)
            Scenario.plain_build 1%nat [] None (Some "secret")
            (Scenario.allocated "bob") (mk_context "bob" None)
            (mk_passwd "/home/bob" 1000) 1000
            [("bob@OTHER", mk_principal "OTHER" ["bob"]);
             ("bob@LAST", mk_principal "LAST" ["bob"])]
            "bob@REALM"
            (fun p => Cases.kdc_last_unknown (Some p) (Some "secret"))
            _ _ _ _ _ _ _ _ _ _ _ _ _ _);
    try reflexivity.
  - now right.
  - vm_compute. lia.
  - repeat constructor.
  - intros h l p [H | [H | []]]; injection H as <- <-; reflexivity.
  - intros l p [H | [H | []]]; injection H as <- <-; discriminate.
Defined.

(** *** Lines that do not fit the buffer *)

Lemma bind_ext_ok {S A B : Type} (m : run S A) (k k' : A -> run S B) s :
  (forall a s', m s = Ok a s' -> k a s' = k' a s') ->
  bind m k s = bind m k' s.
Proof. intros H. unfold bind. destruct (m s); auto. Qed.

Lemma ends_line_nonempty (line : string) (st : state) nl st' :
  ends_line line st = Ok nl st' ->
  st' = st /\ (0 < String.length line)%nat.
Proof.
  unfold ends_line. destruct (strlen line) as [| i] eqn:Hi; [discriminate |].
  unfold ret. intros H. inversion H; subst.
  split; [reflexivity | eapply strlen_positive; exact Hi].
Qed.

(** More fuel than the stream has characters is as good as any. *)
Lemma skip_line_fuel (size f1 : nat) :
  forall (f2 : nat) (stream : string) (st : state),
    (String.length stream < f1)%nat ->
    (String.length stream < f2)%nat ->
    skip_line f1 size stream st = skip_line f2 size stream st.
Proof.
  induction f1 as [| f1 IH]; intros f2 stream st H1 H2; [lia |].
  destruct f2 as [| f2]; [lia |].
  destruct stream as [| x s]; [reflexivity |].
  cbn [skip_line fgets].
  destruct (fgets_chars (size - 1) (String x s)) as [line rest] eqn:Hf.
  destruct (fgets_chars_cases _ _ _ _ Hf) as [Hs _].
  assert (Hlen : String.length (String x s)
                 = (String.length line + String.length rest)%nat)
    by (rewrite Hs; apply length_append).
  apply bind_ext_ok. intros nl s1 He.
  apply ends_line_nonempty in He. destruct He as [-> Hpos].
  destruct nl; [reflexivity |].
  apply IH; simpl in H1, H2, Hlen; lia.
Qed.

Lemma read_k5login_fuel
    (w : world) (b : build) (creds : option nat) (opts : creds_opt)
    (service pass : option string) (file : string) (f1 : nat) :
  forall (f2 : nat) (stream : string) (retval : Z) (st : state),
    (String.length stream < f1)%nat ->
    (String.length stream < f2)%nat ->
    read_k5login f1 w b creds opts service pass file stream retval st
    = read_k5login f2 w b creds opts service pass file stream retval st.
Proof.
  induction f1 as [| f1 IH]; intros f2 stream retval st H1 H2; [lia |].
  destruct f2 as [| f2]; [lia |].
  destruct stream as [| x s]; [reflexivity |].
  cbn [read_k5login fgets].
  destruct (fgets_chars (BUFSIZ b - 1) (String x s)) as [line rest] eqn:Hf.
  destruct (fgets_chars_cases _ _ _ _ Hf) as [Hs _].
  assert (Hlen : String.length (String x s)
                 = (String.length line + String.length rest)%nat)
    by (rewrite Hs; apply length_append).
  apply bind_ext_ok. intros nl s1 He.
  apply ends_line_nonempty in He. destruct He as [-> Hpos].
  assert (Hr1 : (String.length rest < f1)%nat)
    by (simpl in H1, Hlen; lia).
  assert (Hr2 : (String.length rest < f2)%nat)
    by (simpl in H2, Hlen; lia).
  destruct nl; cbn [negb].
  - apply bind_ext_ok. intros k s2 _. destruct k as [p | e].
    + apply bind_ext_ok. intros r s3 _.
      destruct (r =? 0); [reflexivity | now apply IH].
    + now apply IH.
  - unfold bind. rewrite (skip_line_fuel (BUFSIZ b) f1 f2 rest st Hr1 Hr2).
    destruct (skip_line_total (BUFSIZ b) f2 rest st Hr2)
      as [(why & Hu) | (rest0 & Hrun & Hle)].
    + now rewrite Hu.
    + rewrite Hrun. apply IH; lia.
Qed.

(** [fgets] on a line that is longer than the buffer takes the first
    characters of the line. *)
Lemma fgets_chars_long (room : nat) :
  forall (m s : string),
    strchr m NL = false ->
    (room <= String.length m)%nat ->
    exists m1 m2,
      m = (m1 ++ m2)%string /\ String.length m1 = room
      /\ fgets_chars room (m ++ s) = (m1, (m2 ++ s)%string).
Proof.
  induction room as [| room IH]; intros m s Hm Hlen.
  - exists EmptyString, m. now repeat split.
  - destruct m as [| x m]; [simpl in Hlen; lia |].
    simpl in Hm, Hlen |- *.
    destruct (Ascii.eqb x NL); [discriminate |].
    destruct (IH m s Hm) as (m1 & m2 & -> & Hl & Hf); [lia |].
    exists (String x m1), m2. rewrite Hf. simpl. now rewrite Hl.
Qed.

Lemma fgets_before_newline (size : nat) (m rest : string) :
  fgets size (m ++ String NL rest)
  = Some (fgets_chars (size - 1) (m ++ String NL rest)).
Proof. now destruct m. Qed.

(** Skipping reads on to the first newline and stops right after it. *)
Lemma skip_line_long (size : nat) (rest : string) (st : state) (fuel : nat) :
  forall m : string,
    (2 <= size)%nat ->
    strchr m NL = false ->
    strchr m NUL = false ->
    (String.length m < fuel)%nat ->
    skip_line fuel size (m ++ String NL rest) st = Ok rest st.
Proof.
  induction fuel as [| fuel IH]; intros m Hsize Hnl Hnul Hfuel; [lia |].
  cbn [skip_line]. rewrite fgets_before_newline.
  destruct (Nat.lt_ge_cases (String.length m) (size - 1)) as [Hfit | Hlong].
  - rewrite (fgets_chars_line m rest (size - 1) Hnl Hfit).
    unfold bind. now rewrite (ends_line_full _ _ Hnul).
  - destruct (fgets_chars_long (size - 1) m (String NL rest) Hnl Hlong)
      as (m1 & m2 & Hm & Hl1 & Hf).
    rewrite Hf. subst m.
    rewrite strchr_append in Hnl, Hnul.
    apply orb_false_iff in Hnl, Hnul.
    destruct Hnl as [Hnl1 Hnl2]. destruct Hnul as [Hnul1 Hnul2].
    rewrite length_append in Hfuel.
    unfold bind. rewrite ends_line_piece; try assumption.
    + apply IH; try assumption. lia.
    + destruct m1; [simpl in Hl1; lia | discriminate].
Qed.

Lemma read_k5login_skips_long
    (w : world) (b : build) (creds : option nat) (opts : creds_opt)
    (service pass : option string) (file : string) (fuel : nat)
    (long rest : string) (retval : Z) (st : state) :
  (2 <= BUFSIZ b)%nat ->
  strchr long NL = false ->
  strchr long NUL = false ->
  (BUFSIZ b - 1 <= String.length long)%nat ->
  (String.length long <= fuel)%nat ->
  read_k5login (S fuel) w b creds opts service pass file
               (long ++ String NL rest) retval st
  = read_k5login fuel w b creds opts service pass file rest retval st.
Proof.
  intros Hsize Hnl Hnul Hlong Hfuel.
  cbn [read_k5login]. rewrite fgets_before_newline.
  destruct (fgets_chars_long (BUFSIZ b - 1) long (String NL rest) Hnl Hlong)
    as (m1 & m2 & Hm & Hl1 & Hf).
  rewrite Hf. subst long.
  rewrite strchr_append in Hnl, Hnul.
  apply orb_false_iff in Hnl, Hnul.
  destruct Hnl as [Hnl1 Hnl2]. destruct Hnul as [Hnul1 Hnul2].
  rewrite length_append in Hfuel.
  unfold bind at 1. rewrite ends_line_piece; try assumption.
  - cbn [negb]. unfold bind at 1.
    rewrite skip_line_long; try assumption; [reflexivity | lia].
  - destruct m1; [simpl in Hl1; lia | discriminate].
Qed.

(** X12.  A line of the trust file that does not fit the line buffer
    with its newline is ignored, however long it is: the loop, run as
    the trust-file authentication runs it on the text of the file, does
    on a text that starts with such a line what it does on the text
    that follows the line. *)
Theorem overlong_line_is_ignored
    (w : world) (b : build) (creds : option nat) (opts : creds_opt)
    (service pass : option string) (file : string)
    (long rest : string) (retval : Z) (st : state) :
  (2 <= BUFSIZ b)%nat ->
  strchr long NL = false ->
  strchr long NUL = false ->
  (BUFSIZ b - 1 <= String.length long)%nat ->
  read_k5login (S (String.length (long ++ String NL rest))) w b creds opts
               service pass file (long ++ String NL rest) retval st
  = read_k5login (S (String.length rest)) w b creds opts service pass file
                 rest retval st.
Proof.
  intros Hsize Hnl Hnul Hlong.
  assert (Hlen : String.length (long ++ String NL rest)
                 = (String.length long + S (String.length rest))%nat)
    by (rewrite length_append; reflexivity).
  rewrite read_k5login_skips_long; try assumption; [| lia].
  apply read_k5login_fuel; lia.
Qed.

Lemma overlong_line_is_ignored_witness :
  read_k5login 26
    (Scenario.the_world Scenario.kdc_bob Scenario.no_file 1000 0 0 0)
    Cases.small_build (Some 1%nat) [] None (Some "secret")
    "/home/bob/.k5login"
    ("bob@ELSEWHERE" ++ String NL ("bob@REALM" ++ String NL ""))%string
    KRB5KRB_AP_ERR_BAD_INTEGRITY (Scenario.allocated "bob")
  = read_k5login 11
      (Scenario.the_world Scenario.kdc_bob Scenario.no_file 1000 0 0 0)
      Cases.small_build (Some 1%nat) [] None (Some "secret")
      "/home/bob/.k5login" ("bob@REALM" ++ String NL "")%string
      KRB5KRB_AP_ERR_BAD_INTEGRITY (Scenario.allocated "bob").
Proof.
  apply (overlong_line_is_ignored
           (Scenario.the_world Scenario.kdc_bob Scenario.no_file 1000 0 0 0)
           Cases.small_build (Some 1%nat) [] None (Some "secret")
           "/home/bob/.k5login" "bob@ELSEWHERE"
           ("bob@REALM" ++ String NL "")%string KRB5KRB_AP_ERR_BAD_INTEGRITY
           (Scenario.allocated "bob")).
  - vm_compute. lia.
  - reflexivity.
  - reflexivity.
  - vm_compute. lia.
Defined.

(** ** The calls a part of the code makes *)

Lemma grows_refl P h : grows P h h.
Proof. exists []. now split. Qed.

Lemma grows_cons P h h' e :
  P e = true -> grows P h h' -> grows P h (e :: h').
Proof.
  intros He (later & -> & Hl). exists (e :: later).
  split; [reflexivity |]. simpl. now rewrite He.
Qed.

Lemma grows_trans P h1 h2 h3 :
  grows P h1 h2 -> grows P h2 h3 -> grows P h1 h3.
Proof.
  intros (l1 & -> & H1) (l2 & -> & H2). exists (l2 ++ l1)%list.
  split; [now rewrite app_assoc |].
  rewrite forallb_app. now rewrite H1, H2.
Qed.

Lemma grows_weaken P Q h h' :
  (forall e, P e = true -> Q e = true) -> grows P h h' -> grows Q h h'.
Proof.
  intros HPQ (l & -> & H). exists l. split; [reflexivity |].
  rewrite forallb_forall in *. auto.
Qed.

Lemma grows_attempted P h h' :
  (forall p pa s o, P (EvExchange p pa s o) = false) ->
  grows P h h' -> attempted h' = attempted h.
Proof.
  intros HP (l & -> & H). induction l as [| e l IH]; [reflexivity |].
  simpl in H. apply andb_true_iff in H. destruct H as [He Hl].
  destruct e; simpl; auto. now rewrite HP in He.
Qed.

Lemma grows_prompts P h h' :
  (forall pr, P (EvGetPassword pr) = false) ->
  grows P h h' -> prompts h' = prompts h.
Proof.
  intros HP (l & -> & H). induction l as [| e l IH]; [reflexivity |].
  simpl in H. apply andb_true_iff in H. destruct H as [He Hl].
  destruct e; simpl; auto. now rewrite HP in He.
Qed.

Lemma grows_verified P h h' :
  (forall c s k, P (EvVerify c s k) = false) ->
  grows P h h' -> verified h' = verified h.
Proof.
  intros HP (l & -> & H). induction l as [| e l IH]; [reflexivity |].
  simpl in H. apply andb_true_iff in H. destruct H as [He Hl].
  destruct e; simpl; auto. now rewrite HP in He.
Qed.

Lemma emits_trans P st1 st2 st3 :
  emits P st1 st2 -> emits P st2 st3 -> emits P st1 st3.
Proof. apply grows_trans. Qed.

Lemma emits_weaken P Q st st' :
  (forall e, P e = true -> Q e = true) -> emits P st st' -> emits Q st st'.
Proof. apply grows_weaken. Qed.

Lemma quiet_trans P st1 st2 st3 :
  quiet P st1 st2 -> quiet P st2 st3 -> quiet P st1 st3.
Proof.
  intros (H1 & A1 & O1) (H2 & A2 & O2).
  split; [eapply emits_trans; eassumption |]. split; congruence.
Qed.

Lemma quiet_weaken P Q st st' :
  (forall e, P e = true -> Q e = true) -> quiet P st st' -> quiet Q st st'.
Proof.
  intros HPQ (H & A & O). split; [eapply emits_weaken; eassumption |].
  now split.
Qed.

(** Closes a goal on the calls made between two states that are given
    in full. *)
Ltac grow :=
  unfold emits;
  cbn [trace log set_errno set_ctx set_creds_out set_heap set_leaked
       set_next_addr];
  rewrite ?trace_set_item;
  cbn [trace log set_errno set_ctx set_creds_out set_heap set_leaked
       set_next_addr];
  repeat (apply grows_cons; [reflexivity |]); apply grows_refl.

Ltac hush :=
  unfold quiet; split; [grow | split; reflexivity].

Lemma parse_name_quiet w args st r st' :
  parse_name w args st = Ok r st' -> quiet parse_event st st'.
Proof.
  unfold parse_name, prompt_for_principal, qualify.
  crunch; hush.
Qed.

(** One step of the code, given by the run [H] of it. *)
Ltac step_quiet H :=
  revert H;
  unfold calloc_creds, get_init_creds_password, fill_creds,
    krb5_free_cred_contents, free_creds;
  crunch; hush.

Ltac step_emits H :=
  revert H;
  unfold calloc_creds, get_init_creds_password, fill_creds,
    krb5_free_cred_contents, free_creds;
  crunch; grow.

Lemma quiet_refl P st : quiet P st st.
Proof. hush. Qed.

(** Extends [Q], on the calls made up to the state where the run [H]
    starts, by the step [H]. *)
Ltac advance Q H :=
  let Q' := fresh "Q" in
  match type of H with
  | _ = Ok _ ?s' =>
      match type of Q with
      | quiet ?P ?s0 _ =>
          assert (Q' : quiet P s0 s')
            by (eapply quiet_trans; [exact Q | step_quiet H]);
          clear Q; rename Q' into Q
      end
  end.

Lemma pkinit_auth_quiet w b args service st r st' :
  pkinit_auth w b args service st = Ok r st' -> quiet pkinit_event st st'.
Proof.
  unfold pkinit_auth. intros H.
  pose proof (quiet_refl pkinit_event st) as Q.
  split_bind H as c s0 Hc. advance Q Hc.
  split_bind H as u s1 Hprompt.
  destruct (pkinit_prompt args); advance Q Hprompt.
  all: split_bind H as a s2 Hcalloc; advance Q Hcalloc;
    split_bind H as u2 s3 Hset; advance Q Hset;
    (destruct a as [addr |];
     [| unfold ret in H; inversion H; subst; exact Q]);
    split_bind H as r1 s4 Halloc; advance Q Halloc;
    (destruct (negb (r1 =? 0));
     [unfold ret in H; inversion H; subst; exact Q |]);
    split_bind H as r2 s5 Hpk; advance Q Hpk;
    split_bind H as r3 s6 Hex;
    (destruct (negb (r2 =? 0)); advance Q Hex);
    split_bind H as u3 s7 Hfree; unfold opt_free in Hfree; advance Q Hfree;
    (destruct (negb (r3 =? 0));
     [| unfold ret in H; inversion H; subst; exact Q]);
    split_bind H as u4 s8 Hfc; advance Q Hfc;
    split_bind H as u5 s9 Hf; advance Q Hf;
    split_bind H as u6 s10 Hn; advance Q Hn;
    unfold ret in H; inversion H; subst; exact Q.
Qed.

Lemma emits_refl P st : emits P st st.
Proof. apply grows_refl. Qed.

Lemma pkinit_first_shape w b args service st pk st' :
  pkinit_first w b args service st = Ok pk st' ->
  quiet (fun e => HAVE_PKINIT b && pkinit_event e) st st'
  /\ (pk = None -> use_pkinit args = false)
  /\ (HAVE_PKINIT b = false ->
      st' = st /\ (pk = None \/ pk = Some KRB5_KDC_UNREACH)).
Proof.
  unfold pkinit_first. destruct (HAVE_PKINIT b) eqn:Hb.
  - destruct (use_pkinit args || try_pkinit args) eqn:Hf.
    + intros H. split_bind H as r s1 Hp. apply pkinit_auth_quiet in Hp.
      split; [| split; [| discriminate]].
      * revert H.
        repeat match goal with
               | |- (if ?c then _ else _) _ = _ -> _ => destruct c
               end;
          unfold ret; intros H; inversion H; subst; exact Hp.
      * revert H. destruct (r =? 0); [unfold ret; congruence |].
        destruct (negb (r =? HX509_PKCS11_NO_TOKEN b)
                  && negb (r =? HX509_PKCS11_NO_SLOT b));
          [unfold ret; congruence |].
        cbn [negb andb]. destruct (use_pkinit args);
          [unfold ret; congruence | reflexivity].
    + unfold ret. intros H. inversion H; subst.
      apply orb_false_iff in Hf. destruct Hf as [Hu _].
      split; [apply quiet_refl |]. split; [auto | discriminate].
  - destruct (use_pkinit args) eqn:Hu; unfold ret; intros H;
      inversion H; subst;
      (split; [apply quiet_refl |]); (split; [congruence |]);
      intros _; split; auto.
Qed.

Lemma get_init_creds_password_emits w creds p pass service opts st r st' :
  get_init_creds_password w creds p pass service opts st = Ok r st' ->
  emits attempt_event st st'.
Proof. intros H. step_emits H. Qed.

Lemma read_k5login_emits
    w b creds opts service pass file fuel stream retval st r st' :
  read_k5login fuel w b creds opts service pass file stream retval st
  = Ok r st' ->
  emits attempt_event st st'.
Proof.
  revert stream retval st.
  induction fuel as [| fuel IH]; intros stream retval st; [discriminate |].
  cbn [read_k5login]. destruct (fgets (BUFSIZ b) stream) as [[line rest] |].
  - intros H. split_bind H as nl s1 He.
    apply ends_line_nonempty in He. destruct He as [-> _].
    destruct nl; cbn [negb] in H.
    + split_bind H as k s2 Hk.
      assert (E2 : emits attempt_event st s2) by step_emits Hk.
      destruct k as [p | e].
      * split_bind H as rv s3 Hg.
        apply get_init_creds_password_emits in Hg.
        assert (E3 : emits attempt_event st s3)
          by (eapply emits_trans; eassumption).
        destruct (rv =? 0).
        -- eapply emits_trans; [exact E3 |]. step_emits H.
        -- eapply emits_trans; [exact E3 | eapply IH; exact H].
      * eapply emits_trans; [exact E2 | eapply IH; exact H].
    + split_bind H as rest' s2 Hs. apply skip_line_state in Hs. subst s2.
      eapply IH; exact H.
  - intros H. step_emits H.
Qed.

Lemma direct_attempt_emits w creds opts service pass st r st' :
  direct_attempt w creds opts service pass st = Ok r st' ->
  emits attempt_event st st'.
Proof.
  unfold direct_attempt. intros H.
  split_bind H as c s1 Hc. unfold deref_ctx in Hc.
  destruct (ctx st); [| discriminate]. inversion Hc; subst.
  split_bind H as rv s2 Hg. apply get_init_creds_password_emits in Hg.
  unfold ret in H. now inversion H; subst.
Qed.

Lemma k5login_password_auth_emits w b creds opts service pass st r st' :
  k5login_password_auth w b creds opts service pass st = Ok r st' ->
  emits attempt_event st st'.
Proof.
  unfold k5login_password_auth. unfold_run.
  repeat (tidy;
          match goal with
          | |- direct_attempt _ _ _ _ _ ?s = _ -> _ =>
              let H := fresh in
              intros H; apply direct_attempt_emits in H;
              eapply emits_trans; [| exact H]; grow
          | |- read_k5login _ _ _ _ _ _ _ _ _ _ ?s = _ -> _ =>
              let H := fresh in
              intros H; apply read_k5login_emits in H;
              eapply emits_trans; [| exact H]; grow
          | |- Ok _ _ = _ -> _ =>
              let H := fresh in
              intros H; inversion H; subst; grow
          | |- Undefined _ = _ -> _ => discriminate
          | |- _ => case_head
          end).
Qed.

Lemma obtain_password_emits w service retry pass st r st' :
  obtain_password w service retry pass st = Ok r st' ->
  emits password_event st st'.
Proof. unfold obtain_password. crunch; grow. Qed.

Lemma attempt_is_pass_event e : attempt_event e = true -> pass_event e = true.
Proof. unfold pass_event. intros ->. apply orb_true_r. Qed.

Lemma password_is_pass_event e :
  password_event e = true -> pass_event e = true.
Proof. unfold pass_event. now intros ->. Qed.

Lemma password_pass_emits w b args service creds opts retry pass st e st' :
  password_pass w b args service creds opts retry pass st = Ok e st' ->
  emits pass_event st st'.
Proof.
  unfold password_pass. intros H. split_bind H as o s1 Ho.
  apply obtain_password_emits in Ho.
  apply (emits_weaken _ _ _ _ password_is_pass_event) in Ho.
  destruct o as [[retry' pass'] | v].
  - split_bind H as sr s2 Hsr. destruct sr as [su rv].
    assert (E : emits attempt_event s1 s2).
    { destruct (search_k5login args).
      - eapply k5login_password_auth_emits; exact Hsr.
      - eapply direct_attempt_emits; exact Hsr. }
    apply (emits_weaken _ _ _ _ attempt_is_pass_event) in E.
    assert (Hst : st' = s2).
    { revert H. unfold ret.
      repeat match goal with
             | |- (if ?c then _ else _) _ = _ -> _ => destruct c
             end; intros H; now inversion H. }
    subst st'. eapply emits_trans; eassumption.
  - unfold ret in H. inversion H; subst. exact Ho.
Qed.

Lemma password_loop_emits w b args service creds opts fuel retry pass st e st' :
  password_loop fuel w b args service creds opts retry pass st = Ok e st' ->
  emits pass_event st st'.
Proof.
  revert retry pass st.
  induction fuel as [| fuel IH]; intros retry pass st; [discriminate |].
  cbn [password_loop]. intros H. split_bind H as e1 s1 Hpass.
  apply password_pass_emits in Hpass.
  destruct e1 as [v | v | r' v];
    try (unfold ret in H; inversion H; subst; exact Hpass).
  destruct (negb (r' =? 0) && (v =? KRB5KRB_AP_ERR_BAD_INTEGRITY)).
  - eapply emits_trans; [exact Hpass | eapply IH; exact H].
  - unfold ret in H. inversion H; subst. exact Hpass.
Qed.

(** A pass entered with a password asks for none and leaves [retry] as
    it was. *)
Lemma password_pass_stored w b args service creds opts retry p st e st' :
  password_pass w b args service creds opts retry (Some p) st = Ok e st' ->
  emits attempt_event st st'
  /\ (forall r' v, e = PassTest r' v -> r' = retry).
Proof.
  unfold password_pass, obtain_password. intros H.
  split_bind H as o s1 Ho. unfold ret in Ho. inversion Ho; subst. clear Ho.
  split_bind H as sr s2 Hsr. destruct sr as [su rv].
  assert (E : emits attempt_event s1 s2).
  { destruct (search_k5login args).
    - eapply k5login_password_auth_emits; exact Hsr.
    - eapply direct_attempt_emits; exact Hsr. }
  revert H. unfold ret.
  repeat match goal with
         | |- (if ?c then _ else _) _ = _ -> _ => destruct c
         end; intros H; inversion H; subst;
    (split; [exact E |]); intros r' v Hv; now inversion Hv.
Qed.

(** Entered with a password and with [retry] 0, the loop makes one pass
    and asks for no password. *)
Lemma password_loop_stored w b args service creds opts fuel p st e st' :
  password_loop fuel w b args service creds opts 0 (Some p) st = Ok e st' ->
  emits attempt_event st st'.
Proof.
  destruct fuel as [| fuel]; [discriminate |].
  cbn [password_loop]. intros H. split_bind H as e1 s1 Hpass.
  apply password_pass_stored in Hpass. destruct Hpass as [E Hretry].
  destruct e1 as [v | v | r' v];
    try (unfold ret in H; inversion H; subst; exact E).
  rewrite (Hretry r' v eq_refl) in H. cbn [Z.eqb negb andb] in H.
  unfold ret in H. inversion H; subst. exact E.
Qed.





(** *** The label [done] *)

Lemma verify_step_emits w args service retval st e st' :
  verify_step w args service retval st = Ok e st' ->
  emits verify_event st st'.
Proof.
  unfold verify_step, verify_creds, first_keytab_principal.
  crunch; grow.
Qed.

Lemma discard_creds_emits creds_valid st u st' :
  discard_creds creds_valid st = Ok u st' -> emits release_event st st'.
Proof.
  unfold discard_creds, krb5_free_cred_contents, free_creds.
  crunch; grow.
Qed.

Lemma verify_is_done_event e : verify_event e = true -> done_event e = true.
Proof. unfold done_event. now intros ->. Qed.

Lemma release_is_done_event e : release_event e = true -> done_event e = true.
Proof. unfold done_event. intros ->. apply orb_true_r. Qed.

(** What the label [done] does: it verifies when the status is 0 and no
    service is named, and otherwise only releases. *)
Lemma done_label_shape w args service retval creds_valid opts st r st' :
  done_label w args service retval creds_valid opts st = Ok r st' ->
  emits done_event st st'
  /\ (retval <> 0 \/ service <> None -> emits release_event st st')
  /\ (r = PAM_SUCCESS \/ exists e, e <> 0 /\ r = pam_status_of e)
  /\ (retval <> 0 -> r = pam_status_of retval)
  /\ (r = PAM_SUCCESS ->
      retval = 0 /\ creds_out st' = creds_out st /\ heap st' = heap st
      /\ (service = None -> verified (trace st') = true)).
Proof.
  unfold done_label. intros H.
  split_bind H as e s1 Hver. split_bind H as res s2 Hres.
  split_bind H as u s3 Hfree. unfold ret in H. inversion H; subst. clear H.
  assert (E3 : emits release_event s2 st'
               /\ creds_out st' = creds_out s2 /\ heap st' = heap s2
               /\ verified (trace st') = verified (trace s2)).
  { destruct (is_some opts).
    - unfold opt_free, call in Hfree. inversion Hfree; subst.
      split; [grow | now repeat split].
    - unfold ret in Hfree. inversion Hfree; subst.
      split; [grow | now repeat split]. }
  destruct E3 as (E3 & C3 & H3 & V3).
  assert (E2 : emits release_event s1 s2
               /\ (r = PAM_SUCCESS \/ exists e0, e0 <> 0 /\ r = pam_status_of e0)
               /\ (r = PAM_SUCCESS -> e = 0 /\ s2 = s1)
               /\ (e <> 0 -> r = pam_status_of e)).
  { revert Hres. destruct (e =? 0) eqn:He.
    - unfold ret. intros K. inversion K; subst.
      apply Z.eqb_eq in He.
      split; [grow | split; [now left | split; [now split | congruence]]].
    - intros K. split_bind K as u' s4 Hdis.
      apply discard_creds_emits in Hdis.
      unfold ret in K. inversion K; subst.
      apply Z.eqb_neq in He.
      split; [exact Hdis |].
      split; [right; now exists e |].
      split; [| reflexivity].
      intros Hs. now destruct (pam_status_of_failure e). }
  destruct E2 as (E2 & R2 & S2 & R4).
  pose proof (verify_step_emits _ _ _ _ _ _ _ Hver) as E1.
  pose proof (verify_step_condition _ _ _ _ _ _ _ Hver) as [Vrun Vskip].
  pose proof (verify_step_memory _ _ _ _ _ _ _ Hver) as (C1 & H1 & _).
  split; [| split; [| split; [exact R2 | split]]].
  - eapply emits_trans;
      [eapply emits_weaken; [apply verify_is_done_event | exact E1] |].
    eapply emits_weaken; [apply release_is_done_event |].
    eapply emits_trans; eassumption.
  - intros Hskip. destruct (Vskip Hskip) as [-> _].
    eapply emits_trans; eassumption.
  - intros Hz. destruct (Vskip (or_introl Hz)) as [_ ->].
    destruct R2 as [Hs | (e0 & He0 & Hr)]; [| exact (R4 Hz)].
    destruct (S2 Hs) as [K _]. contradiction.
  - intros Hs. destruct (S2 Hs) as [-> ->].
    assert (Hretval : retval = 0).
    { destruct (Z.eq_dec retval 0) as [Hz | Hz]; [exact Hz |].
      destruct (Vskip (or_introl Hz)) as [_ Hr]. congruence. }
    split; [exact Hretval |].
    split; [congruence |]. split; [congruence |].
    intros Hnone. rewrite V3. apply Vrun. now split.
Qed.


(** *** The steps before the password loop *)

Lemma parse_is_early pk e : parse_event e = true -> early_event pk e = true.
Proof. destruct e; simpl; try discriminate; reflexivity. Qed.

Lemma pkinit_is_early pk e :
  pk && pkinit_event e = true -> early_event pk e = true.
Proof.
  destruct e; simpl; intros H; rewrite ?H, ?orb_true_r; reflexivity.
Qed.

Lemma early_is_setup pk e : early_event pk e = true -> setup_event pk e = true.
Proof. destruct e; simpl; auto. Qed.

(** How the code before the label [done] ends: before the password is
    looked at, after that but before the loop, or through the loop. *)
Lemma acquire_shape fuel w b args service st f st1 :
  acquire fuel w b args service st = Ok f st1 ->
  (quiet (early_event (HAVE_PKINIT b)) st st1
   /\ (f = Return PAM_SERVICE_ERR
       \/ exists r, f = GotoDone r (uninitialized_creds_valid w) None
                    /\ (HAVE_PKINIT b = false -> r = KRB5_KDC_UNREACH)))
  \/ (use_pkinit args = false
      /\ quiet (setup_event (HAVE_PKINIT b)) st st1
      /\ (f = Return PAM_SERVICE_ERR
          \/ exists r o, f = GotoDone r 0 o /\ r <> 0))
  \/ (exists s7 a pass e,
         use_pkinit args = false
         /\ quiet (setup_event (HAVE_PKINIT b)) st s7
         /\ creds_out s7 = Some a
         /\ heap_find a (heap s7) = Some false
         /\ (pass = None \/ pass = get_item (authtok_item service) s7)
         /\ (pass = None -> use_authtok args = false)
         /\ (pass = None ->
             try_first_pass args || use_first_pass args = false
             \/ get_item (authtok_item service) s7 = None
             \/ exists h,
                  pam_get_item w h (authtok_item service) <> PAM_SUCCESS)
         /\ password_loop fuel w b args service (Some a)
              (set_credential_options b args [] (is_some service))
              (if try_first_pass args then 1 else 0) pass s7
            = Ok e st1
         /\ f = GotoDone (fst (loop_exit e)) (snd (loop_exit e))
                  (Some (set_credential_options b args []
                           (is_some service)))).
Proof.
  unfold acquire. intros H.
  split_bind H as s0 sx Hget. unfold get in Hget. inversion Hget.
  subst s0 sx. clear Hget.
  destruct (ctx st) eqn:Hctx.
  2: { unfold ret in H. inversion H; subst. left.
       split; [apply quiet_refl | now left]. }
  split_bind H as r s1 Hparse. apply parse_name_quiet in Hparse.
  apply (quiet_weaken _ _ _ _ (parse_is_early (HAVE_PKINIT b))) in Hparse.
  destruct (negb (r =? 0)).
  { unfold ret in H. inversion H; subst. left. split; [exact Hparse | now left]. }
  split_bind H as u s2 Hdebug.
  assert (Q2 : quiet (early_event (HAVE_PKINIT b)) st s2).
  { eapply quiet_trans; [exact Hparse |].
    destruct (debug args && negb (search_k5login args)); step_quiet Hdebug. }
  clear Hparse Hdebug.
  split_bind H as pk s3 Hpk. apply pkinit_first_shape in Hpk.
  destruct Hpk as (Q3 & Hnone & Hoff).
  apply (quiet_weaken _ _ _ _ (pkinit_is_early (HAVE_PKINIT b))) in Q3.
  assert (Q : quiet (early_event (HAVE_PKINIT b)) st s3)
    by (eapply quiet_trans; eassumption).
  clear Q2 Q3.
  destruct pk as [rk |].
  { unfold ret in H. inversion H; subst. left. split; [exact Q |].
    right. exists rk. split; [reflexivity |]. intros Hb.
    destruct (Hoff Hb) as [_ [K | K]]; [discriminate | now inversion K]. }
  specialize (Hnone eq_refl). clear Hoff.
  apply (quiet_weaken _ _ _ _ (early_is_setup (HAVE_PKINIT b))) in Q.
  right.
  split_bind H as addr s4 Hcalloc. split_bind H as u' s5 Hset.
  unfold modify in Hset. inversion Hset; subst. clear Hset.
  unfold calloc_creds in Hcalloc.
  destruct (malloc w (trace s3)); inversion Hcalloc; subst; clear Hcalloc.
  2: { unfold ret in H. inversion H; subst. left.
       split; [exact Hnone |]. split; [| now left].
       eapply quiet_trans; [exact Q | hush]. }
  split_bind H as ra s6 Halloc. unfold call in Halloc.
  inversion Halloc; subst. clear Halloc.
  match type of H with
  | (if negb (?x =? 0) then _ else _) _ = _ => destruct (x =? 0) eqn:Hra
  end; cbn [negb] in H.
  2: { unfold ret in H. inversion H; subst. left.
       split; [exact Hnone |]. split.
       - eapply quiet_trans; [exact Q | hush].
       - right. eexists. eexists. split; [reflexivity |].
         now apply Z.eqb_neq. }
  split_bind H as rp s7 Hitem. destruct rp as [rv pass].
  assert (Q7 : quiet (setup_event (HAVE_PKINIT b)) st s7
               /\ creds_out s7 = Some (next_addr s3)
               /\ heap_find (next_addr s3) (heap s7) = Some false
               /\ (pass = None \/ pass = get_item (authtok_item service) s7)
               /\ (pass = None ->
                   try_first_pass args || use_first_pass args = false
                   \/ get_item (authtok_item service) s7 = None
                   \/ exists h,
                        pam_get_item w h (authtok_item service)
                        <> PAM_SUCCESS)).
  { revert Hitem.
    destruct (try_first_pass args || use_first_pass args
              || use_authtok args) eqn:Hflags.
    - unfold_run. intros K. inversion K; subst. clear K.
      split; [eapply quiet_trans; [exact Q | hush] |].
      cbn [creds_out heap log set_creds_out set_heap set_next_addr
           heap_find].
      rewrite Nat.eqb_refl.
      split; [reflexivity |]. split; [reflexivity |].
      match goal with
      | |- context [pam_get_item w ?h ?i =? PAM_SUCCESS] =>
          destruct (pam_get_item w h i =? PAM_SUCCESS) eqn:Hg
      end.
      + split; [now right |]. intros Hp. right. left. exact Hp.
      + split; [now left |]. intros _. right. right.
        eexists. apply Z.eqb_neq. exact Hg.
    - unfold ret. intros K. inversion K; subst. clear K.
      split; [eapply quiet_trans; [exact Q | hush] |].
      cbn [creds_out heap log set_creds_out set_heap set_next_addr
           heap_find].
      rewrite Nat.eqb_refl.
      split; [reflexivity |]. split; [reflexivity |].
      split; [now left |]. intros _. left.
      apply orb_false_iff in Hflags. now destruct Hflags. }
  destruct Q7 as (Q7 & C7 & H7 & P7 & N7). clear Hitem Q.
  destruct (use_authtok args
            && (negb (rv =? PAM_SUCCESS) || negb (is_some pass))) eqn:Hauth.
  { unfold ret in H. inversion H; subst. left.
    split; [exact Hnone |]. split; [exact Q7 |].
    right. eexists. eexists. split; [reflexivity | discriminate]. }
  split_bind H as e s8 Hloop. right.
  assert (Hf : st1 = s8
               /\ f = GotoDone (fst (loop_exit e)) (snd (loop_exit e))
                        (Some (set_credential_options b args []
                                 (is_some service))))
    by (destruct e; unfold ret in H; inversion H; subst; now split).
  destruct Hf as [-> Hf]. clear H.
  exists s7, (next_addr s3), pass, e.
  split; [exact Hnone |]. split; [exact Q7 |].
  split; [exact C7 |]. split; [exact H7 |]. split; [exact P7 |].
  split.
  { intros ->. cbn [is_some negb] in Hauth.
    rewrite orb_true_r, andb_true_r in Hauth. exact Hauth. }
  split; [exact N7 |]. split; [exact Hloop | exact Hf].
Qed.

(** ** What a call asks of the user, of PAM and of the KDC *)

(** Shows that the calls of one class all belong to another. *)
Ltac included :=
  let e := fresh "e" in
  let H := fresh "H" in
  intros e H; destruct e; cbn in H |- *;
  repeat match goal with
         | K : context [match ?x with _ => _ end] |- _ => destruct x
         end;
  cbn in H |- *; try reflexivity; discriminate.

Lemma setup_no_prompt pk e : setup_event pk e = true -> no_prompt e = true.
Proof. revert e. destruct pk; included. Qed.

Lemma attempt_no_prompt e : attempt_event e = true -> no_prompt e = true.
Proof. revert e. included. Qed.

Lemma done_no_prompt e : done_event e = true -> no_prompt e = true.
Proof. revert e. included. Qed.

Lemma setup_no_exchange e : setup_event false e = true -> no_exchange e = true.
Proof. revert e. included. Qed.

Lemma release_no_exchange e : release_event e = true -> no_exchange e = true.
Proof. revert e. included. Qed.

Lemma release_no_prompt e : release_event e = true -> no_prompt e = true.
Proof. revert e. included. Qed.

Lemma early_no_password pk e :
  early_event pk e = true -> no_password e = true.
Proof. revert e. destruct pk; included. Qed.

Lemma done_no_password e : done_event e = true -> no_password e = true.
Proof. revert e. included. Qed.

Lemma setup_not_verify pk e : setup_event pk e = true -> not_verify e = true.
Proof. revert e. destruct pk; included. Qed.

Lemma pass_not_verify e : pass_event e = true -> not_verify e = true.
Proof. revert e. included. Qed.

Lemma release_not_verify e : release_event e = true -> not_verify e = true.
Proof. revert e. included. Qed.

Lemma emits_prompts st st' :
  emits no_prompt st st' -> prompts (trace st') = prompts (trace st).
Proof. apply grows_prompts. reflexivity. Qed.

Lemma emits_attempted st st' :
  emits no_exchange st st' -> attempted (trace st') = attempted (trace st).
Proof. apply grows_attempted. reflexivity. Qed.

Lemma emits_verified st st' :
  emits not_verify st st' -> verified (trace st') = verified (trace st).
Proof. apply grows_verified. reflexivity. Qed.

Lemma quiet_get_item P item st st' :
  quiet P st st' -> get_item item st' = get_item item st.
Proof.
  intros (_ & Ha & Ho). unfold get_item. now rewrite Ha, Ho.
Qed.

(** The end of a call: a [return], or the label [done]. *)
Lemma finish_emits P w args service st s1 f r st' :
  emits P st s1 ->
  (forall e, done_event e = true -> P e = true) ->
  match f with
  | Return v => ret v
  | GotoDone retval creds_valid opts =>
      done_label w args service retval creds_valid opts
  end s1 = Ok r st' ->
  emits P st st'.
Proof.
  intros E HP H. destruct f as [v | rv cv o].
  - unfold ret in H. inversion H; subst. exact E.
  - apply done_label_shape in H. destruct H as (D & _).
    eapply emits_trans; [exact E |].
    eapply emits_weaken; [exact HP | exact D].
Qed.

(** The same when the label [done] is reached with a failure, or for a
    service. *)
Lemma finish_unverified P w args service st s1 f r st' :
  emits P st s1 ->
  (forall e, release_event e = true -> P e = true) ->
  (forall rv cv o, f = GotoDone rv cv o -> rv <> 0 \/ service <> None) ->
  match f with
  | Return v => ret v
  | GotoDone retval creds_valid opts =>
      done_label w args service retval creds_valid opts
  end s1 = Ok r st' ->
  emits P st st'.
Proof.
  intros E HP Hf H. destruct f as [v | rv cv o].
  - unfold ret in H. inversion H; subst. exact E.
  - apply done_label_shape in H. destruct H as (_ & D & _).
    eapply emits_trans; [exact E |].
    eapply emits_weaken; [exact HP | exact (D (Hf _ _ _ eq_refl))].
Qed.

(** X13.  Without [try_first_pass], a call that is to use the password
    stored in PAM, because [use_authtok] is set, or because
    [use_first_pass] is set and PAM holds a password, never asks the
    user for a password, whether the stored password is accepted or
    not. *)
Theorem stored_password_is_never_prompted_for
    (fuel : nat) (w : world) (b : build) (args : pam_args)
    (service : option string) (st st' : state) (r : Z) :
  try_first_pass args = false ->
  use_authtok args = true
  \/ (use_first_pass args = true
      /\ get_item (authtok_item service) st <> None
      /\ forall h, pam_get_item w h (authtok_item service) = PAM_SUCCESS) ->
  pamk5_password_auth fuel w b args service st = Ok r st' ->
  prompts (trace st') = prompts (trace st).
Proof.
  intros Htry Hmode H. apply emits_prompts.
  unfold pamk5_password_auth in H. split_bind H as f s1 Hacq.
  destruct (acquire_shape _ _ _ _ _ _ _ _ Hacq)
    as [(Q & _) | [(_ & Q & _) | C]].
  - destruct Q as [E _].
    eapply finish_emits; [| exact done_no_prompt | exact H].
    eapply emits_weaken; [| exact E].
    intros e He. eapply setup_no_prompt. eapply early_is_setup. exact He.
  - destruct Q as [E _].
    eapply finish_emits; [| exact done_no_prompt | exact H].
    eapply emits_weaken; [apply setup_no_prompt | exact E].
  - destruct C as (s7 & a & pass & e & _ & Q & _ & _ & _ & Nauth & Nwhy
                   & Hloop & _).
    destruct pass as [p |].
    2: { exfalso. destruct Hmode as [Hu | (Hu & Hstored & Hget)].
         - rewrite (Nauth eq_refl) in Hu. discriminate.
         - destruct (Nwhy eq_refl) as [K | [K | (h & K)]].
           + apply orb_false_iff in K. destruct K as [_ K]. congruence.
           + rewrite (quiet_get_item _ _ _ _ Q) in K. contradiction.
           + apply K. apply Hget. }
    rewrite Htry in Hloop. apply password_loop_stored in Hloop.
    destruct Q as [E _].
    eapply finish_emits; [| exact done_no_prompt | exact H].
    eapply emits_trans.
    + eapply emits_weaken; [apply setup_no_prompt | exact E].
    + eapply emits_weaken; [apply attempt_no_prompt | exact Hloop].
Qed.

Lemma stored_password_is_never_prompted_for_witness :
  exists st',
    pamk5_password_auth 2
      (Scenario.the_world Scenario.kdc_mismatch Scenario.no_file 0 0 0 0)
      Scenario.plain_build Cases.authtok_args None
      (Scenario.start "alice" (Some "wrong"))
    = Ok PAM_AUTH_ERR st'
    /\ prompts (trace st') = prompts (trace (Scenario.start "alice" (Some "wrong"))).
Proof.
  eexists. split; [vm_compute; reflexivity |].
  eapply (stored_password_is_never_prompted_for 2
            (Scenario.the_world Scenario.kdc_mismatch Scenario.no_file 0 0 0
                                0)
            Scenario.plain_build Cases.authtok_args None
            (Scenario.start "alice" (Some "wrong")) _ PAM_AUTH_ERR).
  - reflexivity.
  - now left.
  - vm_compute; reflexivity.
Defined.

(** X14.  In a build without PKINIT, a call with [use_authtok] for
    which PAM holds no password fails: it makes no exchange with the
    KDC and asks the user for nothing. *)
Theorem missing_stored_password_fails_without_exchange
    (fuel : nat) (w : world) (b : build) (args : pam_args)
    (service : option string) (st st' : state) (r : Z) :
  HAVE_PKINIT b = false ->
  use_authtok args = true ->
  get_item (authtok_item service) st = None ->
  pamk5_password_auth fuel w b args service st = Ok r st' ->
  r <> PAM_SUCCESS
  /\ attempted (trace st') = attempted (trace st)
  /\ prompts (trace st') = prompts (trace st).
Proof.
  intros Hb Hauth Hnone H.
  unfold pamk5_password_auth in H. split_bind H as f s1 Hacq.
  destruct (acquire_shape _ _ _ _ _ _ _ _ Hacq)
    as [(Q & Hf) | [(_ & Q & Hf) | C]].
  - rewrite Hb in Q. destruct Q as [E _].
    apply (emits_weaken _ _ _ _ (early_is_setup false)) in E.
    assert (Hfail : forall rv cv o,
               f = GotoDone rv cv o -> rv <> 0 \/ service <> None).
    { intros rv cv o ->. left.
      destruct Hf as [K | (r0 & K & Hr0)]; [discriminate |].
      inversion K; subst. rewrite (Hr0 Hb). discriminate. }
    split; [| split].
    + destruct Hf as [-> | (r0 & -> & Hr0)].
      * unfold ret in H. inversion H. discriminate.
      * apply done_label_shape in H. destruct H as (_ & _ & _ & Hr & _).
        rewrite Hr by (rewrite (Hr0 Hb); discriminate).
        apply pam_status_of_failure.
    + apply emits_attempted.
      eapply finish_unverified;
        [| exact release_no_exchange | exact Hfail | exact H].
      eapply emits_weaken; [exact setup_no_exchange | exact E].
    + apply emits_prompts.
      eapply finish_unverified;
        [| exact release_no_prompt | exact Hfail | exact H].
      eapply emits_weaken; [apply setup_no_prompt | exact E].
  - rewrite Hb in Q. destruct Q as [E _].
    assert (Hfail : forall rv cv o,
               f = GotoDone rv cv o -> rv <> 0 \/ service <> None).
    { intros rv cv o ->. left.
      destruct Hf as [K | (r0 & o0 & K & Hr0)]; [discriminate |].
      now inversion K; subst. }
    split; [| split].
    + destruct Hf as [-> | (r0 & o0 & -> & Hr0)].
      * unfold ret in H. inversion H. discriminate.
      * apply done_label_shape in H. destruct H as (_ & _ & _ & Hr & _).
        rewrite (Hr Hr0). apply pam_status_of_failure.
    + apply emits_attempted.
      eapply finish_unverified;
        [| exact release_no_exchange | exact Hfail | exact H].
      eapply emits_weaken; [exact setup_no_exchange | exact E].
    + apply emits_prompts.
      eapply finish_unverified;
        [| exact release_no_prompt | exact Hfail | exact H].
      eapply emits_weaken; [apply setup_no_prompt | exact E].
  - exfalso.
    destruct C as (s7 & a & pass & e & _ & Q & _ & _ & P7 & Nauth & _).
    assert (Hp : pass = None).
    { destruct P7 as [K | K]; [exact K |].
      rewrite K, (quiet_get_item _ _ _ _ Q). exact Hnone. }
    rewrite (Nauth Hp) in Hauth. discriminate.
Qed.

Lemma missing_stored_password_fails_without_exchange_witness :
  exists st',
    pamk5_password_auth 2
      (Scenario.the_world Scenario.kdc_secret Scenario.no_file 0 0 0 0)
      Scenario.plain_build Cases.authtok_args None
      (Scenario.start "alice" None)
    = Ok PAM_AUTH_ERR st'
    /\ PAM_AUTH_ERR <> PAM_SUCCESS
    /\ attempted (trace st') = attempted (trace (Scenario.start "alice" None))
    /\ prompts (trace st') = prompts (trace (Scenario.start "alice" None)).
Proof.
  eexists. split; [vm_compute; reflexivity |].
  eapply (missing_stored_password_fails_without_exchange 2
            (Scenario.the_world Scenario.kdc_secret Scenario.no_file 0 0 0 0)
            Scenario.plain_build Cases.authtok_args None
            (Scenario.start "alice" None) _ PAM_AUTH_ERR).
  - reflexivity.
  - reflexivity.
  - reflexivity.
  - vm_compute; reflexivity.
Defined.

(** X15.  When [use_pkinit] is set, no password is ever involved: the
    call does not ask the user for one, does not read or write the one
    stored in PAM, and every exchange it makes carries no password.  In
    a build without PKINIT it makes no exchange at all and the value it
    returns is PAM_SERVICE_ERR (the principal could not be resolved) or
    PAM_AUTHINFO_UNAVAIL. *)
Theorem mandatory_pkinit_never_uses_a_password
    (fuel : nat) (w : world) (b : build) (args : pam_args)
    (service : option string) (st st' : state) (r : Z) :
  use_pkinit args = true ->
  pamk5_password_auth fuel w b args service st = Ok r st' ->
  emits no_password st st'
  /\ (HAVE_PKINIT b = false ->
      (r = PAM_SERVICE_ERR \/ r = PAM_AUTHINFO_UNAVAIL)
      /\ attempted (trace st') = attempted (trace st)).
Proof.
  intros Hpk H.
  unfold pamk5_password_auth in H. split_bind H as f s1 Hacq.
  destruct (acquire_shape _ _ _ _ _ _ _ _ Hacq)
    as [(Q & Hf) | [(K & _) | C]].
  - destruct Q as [E _]. split.
    + eapply finish_emits; [| exact done_no_password | exact H].
      eapply emits_weaken; [apply early_no_password | exact E].
    + intros Hb. rewrite Hb in E.
      apply (emits_weaken _ _ _ _ (early_is_setup false)) in E.
      assert (Hfail : forall rv cv o,
                 f = GotoDone rv cv o -> rv <> 0 \/ service <> None).
      { intros rv cv o ->. left.
        destruct Hf as [K | (r0 & K & Hr0)]; [discriminate |].
        inversion K; subst. rewrite (Hr0 Hb). discriminate. }
      split.
      * destruct Hf as [-> | (r0 & -> & Hr0)].
        -- unfold ret in H. inversion H. now left.
        -- apply done_label_shape in H. destruct H as (_ & _ & _ & Hr & _).
           right. rewrite Hr by (rewrite (Hr0 Hb); discriminate).
           now rewrite (Hr0 Hb).
      * apply emits_attempted.
        eapply finish_unverified;
          [| exact release_no_exchange | exact Hfail | exact H].
        eapply emits_weaken; [exact setup_no_exchange | exact E].
  - congruence.
  - destruct C as (s7 & a & pass & e & K & _). congruence.
Qed.

Lemma mandatory_pkinit_never_uses_a_password_witness :
  exists st',
    pamk5_password_auth 2
      (Scenario.the_world Scenario.kdc_secret Scenario.no_file 0 0 0 0)
      Scenario.plain_build Scenario.pkinit_args None
      (Scenario.start "alice" (Some "secret"))
    = Ok PAM_AUTHINFO_UNAVAIL st'
    /\ emits no_password (Scenario.start "alice" (Some "secret")) st'
    /\ (PAM_AUTHINFO_UNAVAIL = PAM_SERVICE_ERR
        \/ PAM_AUTHINFO_UNAVAIL = PAM_AUTHINFO_UNAVAIL)
    /\ attempted (trace st')
       = attempted (trace (Scenario.start "alice" (Some "secret"))).
Proof.
  eexists. split; [vm_compute; reflexivity |].
  destruct (mandatory_pkinit_never_uses_a_password 2
              (Scenario.the_world Scenario.kdc_secret Scenario.no_file 0 0 0
                                  0)
              Scenario.plain_build Scenario.pkinit_args None
              (Scenario.start "alice" (Some "secret")) _ PAM_AUTHINFO_UNAVAIL
              eq_refl ltac:(vm_compute; reflexivity)) as [E Hb].
  destruct (Hb eq_refl) as [Hr Ha].
  split; [exact E |]. split; [exact Hr | exact Ha].
Defined.

(** X16.  A call for a service ticket (the service is named) never asks
    for the verification of what it obtained. *)
Theorem service_ticket_is_never_verified
    (fuel : nat) (w : world) (b : build) (args : pam_args)
    (service : string) (st st' : state) (r : Z) :
  pamk5_password_auth fuel w b args (Some service) st = Ok r st' ->
  verified (trace st') = verified (trace st).
Proof.
  intros H. apply emits_verified.
  unfold pamk5_password_auth in H. split_bind H as f s1 Hacq.
  assert (Hfail : forall rv cv o,
             f = GotoDone rv cv o -> rv <> 0 \/ Some service <> None)
    by (intros; right; discriminate).
  eapply finish_unverified;
    [| exact release_not_verify | exact Hfail | exact H].
  destruct (acquire_shape _ _ _ _ _ _ _ _ Hacq)
    as [(Q & _) | [(_ & Q & _) | C]].
  - destruct Q as [E _]. eapply emits_weaken; [| exact E].
    intros e He. eapply setup_not_verify. eapply early_is_setup. exact He.
  - destruct Q as [E _].
    eapply emits_weaken; [apply setup_not_verify | exact E].
  - destruct C as (s7 & a & pass & e & _ & Q & _ & _ & _ & _ & _ & Hloop & _).
    destruct Q as [E _]. apply password_loop_emits in Hloop.
    eapply emits_trans.
    + eapply emits_weaken; [apply setup_not_verify | exact E].
    + eapply emits_weaken; [apply pass_not_verify | exact Hloop].
Qed.

Lemma service_ticket_is_never_verified_witness :
  exists st',
    pamk5_password_auth 2
      (Scenario.the_world Scenario.kdc_secret Scenario.no_file 0 0 0 0)
      Scenario.plain_build Scenario.first_pass_args (Some "kadmin/changepw")
      (Cases.changing "alice" "secret")
    = Ok PAM_SUCCESS st'
    /\ verified (trace st') = verified (trace (Cases.changing "alice" "secret")).
Proof.
  eexists. split; [vm_compute; reflexivity |].
  eapply (service_ticket_is_never_verified 2
            (Scenario.the_world Scenario.kdc_secret Scenario.no_file 0 0 0 0)
            Scenario.plain_build Scenario.first_pass_args "kadmin/changepw"
            (Cases.changing "alice" "secret") _ PAM_SUCCESS).
  vm_compute; reflexivity.
Defined.





Lemma pam_status_of_result e : In (pam_status_of e) pam_results.
Proof.
  unfold pam_status_of, pam_results.
  repeat match goal with
         | |- context [if ?c then _ else _] => destruct c
         end; simpl; tauto.
Qed.

(** X18.  Whatever the collaborators answer, the value a call returns
    is one of PAM_SUCCESS, PAM_SERVICE_ERR, PAM_AUTH_ERR,
    PAM_USER_UNKNOWN, PAM_NEW_AUTHTOK_REQD, PAM_ACCT_EXPIRED and
    PAM_AUTHINFO_UNAVAIL; a Kerberos status is never returned as it
    is. *)
Theorem result_is_a_pam_status
    (fuel : nat) (w : world) (b : build) (args : pam_args)
    (service : option string) (st st' : state) (r : Z) :
  pamk5_password_auth fuel w b args service st = Ok r st' ->
  In r pam_results.
Proof.
  intros H.
  unfold pamk5_password_auth in H. split_bind H as f s1 Hacq.
  destruct f as [v | rv cv o].
  - assert (Hv : v = PAM_SERVICE_ERR).
    { destruct (acquire_shape _ _ _ _ _ _ _ _ Hacq)
        as [(_ & Hf) | [(_ & _ & Hf) | C]].
      - destruct Hf as [K | (r0 & K & _)]; [now inversion K | discriminate].
      - destruct Hf as [K | (r0 & o & K & _)];
          [now inversion K | discriminate].
      - destruct C as (s7 & a & pass & e & _ & _ & _ & _ & _ & _ & _ & _ & K).
        discriminate. }
    unfold ret in H. inversion H; subst. simpl. tauto.
  - apply done_label_shape in H. destruct H as (_ & _ & Hr & _).
    destruct Hr as [-> | (e & _ & ->)];
      [simpl; tauto | apply pam_status_of_result].
Qed.

Lemma result_is_a_pam_status_witness :
  exists st',
    pamk5_password_auth 2
      (Scenario.the_world Scenario.kdc_down Scenario.no_file 0 0 0 0)
      Scenario.plain_build Scenario.plain_args None
      (Scenario.start "alice" None)
    = Ok PAM_AUTHINFO_UNAVAIL st'
    /\ In PAM_AUTHINFO_UNAVAIL pam_results.
Proof.
  eexists. split; [vm_compute; reflexivity |].
  eapply (result_is_a_pam_status 2
            (Scenario.the_world Scenario.kdc_down Scenario.no_file 0 0 0 0)
            Scenario.plain_build Scenario.plain_args None
            (Scenario.start "alice" None) _ PAM_AUTHINFO_UNAVAIL).
  vm_compute; reflexivity.
Defined.

(** ** PKINIT and verification *)

(** X19.  [pkinit_auth] returns 0 only with [*creds] pointing to a new
    structure that holds the credential.  When it fails it has released
    what it allocated and [*creds] is NULL; except when the allocation of
    the option set fails: then it returns that status at once, with
    [*creds] pointing to the new, empty structure. *)
Theorem pkinit_auth_releases_on_failure
    (w : world) (b : build) (args : pam_args) (service : option string)
    (st st' : state) (r : Z) :
  pkinit_auth w b args service st = Ok r st' ->
  (r = 0 ->
   exists a, creds_out st' = Some a /\ heap st' = (a, true) :: heap st
             /\ leaked st' = leaked st)
  /\ (r <> 0 ->
      (creds_out st' = None /\ heap st' = heap st /\ leaked st' = leaked st)
      \/ (exists a h,
             creds_out st' = Some a /\ heap st' = (a, false) :: heap st
             /\ leaked st' = leaked st
             /\ r = krb5_get_init_creds_opt_alloc w h
             /\ trace st' = EvOptAlloc :: h)).
Proof.
  unfold pkinit_auth. intros H.
  split_bind H as c s0 Hc.
  assert (Hs0 : s0 = st)
    by (revert Hc; unfold deref_ctx; destruct (ctx st);
        [intros K; now inversion K | discriminate]).
  subst s0. clear Hc.
  split_bind H as u s1 Hprompt.
  assert (M1 : heap s1 = heap st /\ leaked s1 = leaked st)
    by (destruct (pkinit_prompt args); revert Hprompt; crunch; now split).
  destruct M1 as [Mh Ml]. clear Hprompt.
  split_bind H as a s2 Hcalloc. split_bind H as u2 s3 Hset.
  unfold modify in Hset. inversion Hset; subst. clear Hset.
  unfold calloc_creds in Hcalloc.
  destruct (malloc w (trace s1)); inversion Hcalloc; subst; clear Hcalloc.
  2: { unfold ret in H. inversion H; subst.
       split; [discriminate |]. intros _. left.
       cbn [creds_out heap leaked log set_creds_out]. now repeat split. }
  split_bind H as r1 s4 Halloc. unfold call in Halloc.
  inversion Halloc; subst. clear Halloc.
  match type of H with
  | (if negb (?x =? 0) then _ else _) _ = _ => destruct (x =? 0) eqn:Hr1
  end; cbn [negb] in H.
  2: { unfold ret in H. inversion H; subst. apply Z.eqb_neq in Hr1.
       split; [intros K; contradiction |]. intros _. right.
       eexists. eexists.
       cbn [creds_out heap leaked trace log set_creds_out set_heap
            set_next_addr].
       rewrite Mh, Ml. repeat split. }
  clear Hr1.
  split_bind H as r2 s5 Hpk. unfold call in Hpk.
  inversion Hpk; subst. clear Hpk.
  split_bind H as r3 s6 Hex.
  assert (M6 : creds_out s6 = Some (next_addr s1)
               /\ heap s6 = (next_addr s1, r3 =? 0) :: heap st
               /\ leaked s6 = leaked st).
  { revert Hex.
    match goal with
    | |- (if negb (?x =? 0) then _ else _) _ = _ -> _ =>
        destruct (x =? 0) eqn:Hr2
    end; cbn [negb].
    - intros Hex. apply get_init_creds_password_effect in Hex.
      destruct Hex as (Ec & El & Eh).
      cbn [creds_out heap leaked log set_creds_out set_heap set_next_addr]
        in Ec, El, Eh.
      rewrite Ec, El, Eh, Mh, Ml.
      destruct (r3 =? 0); [rewrite heap_put_head |]; now repeat split.
    - unfold ret. intros K. inversion K; subst. rewrite Hr2.
      cbn [creds_out heap leaked log set_creds_out set_heap set_next_addr].
      rewrite Mh, Ml. now repeat split. }
  destruct M6 as (Mc6 & Mh6 & Ml6). clear Hex.
  split_bind H as u3 s7 Hfree. unfold opt_free, call in Hfree.
  inversion Hfree; subst. clear Hfree.
  destruct (r3 =? 0) eqn:Hr3; cbn [negb] in H.
  - unfold ret in H. inversion H; subst. apply Z.eqb_eq in Hr3.
    split; [| intros K; contradiction]. intros _.
    exists (next_addr s1). cbn [creds_out heap leaked log].
    now repeat split.
  - apply Z.eqb_neq in Hr3.
    split; [intros K; rewrite K in H; exfalso |].
    { split_bind H as u4 s8 Hfc. split_bind H as u5 s9 Hf.
      split_bind H as u6 s10 Hn. unfold ret in H. inversion H; subst.
      contradiction. }
    intros _. left.
    destruct (discard_creds_release 1 (log EvOptFree s6) st'
                (next_addr s1) false (heap st))
      as (Rc & Rh & Rl); try assumption; try discriminate.
    + unfold discard_creds. unfold bind at 1. unfold get.
      cbn [creds_out log]. rewrite Mc6. cbn [Z.eqb negb].
      revert H. unfold bind, ret, modify.
      destruct (krb5_free_cred_contents (next_addr s1) (log EvOptFree s6))
        as [u4 s8 | |]; try discriminate.
      destruct (free_creds (next_addr s1) s8) as [u5 s9 | |];
        try discriminate.
      intros K. inversion K; subst. reflexivity.
    + cbn [leaked log] in Rl. rewrite Rl, Ml6. now repeat split.
Qed.

Lemma pkinit_auth_releases_on_failure_witness :
  exists st',
    pkinit_auth
      (Scenario.the_world Scenario.kdc_down Scenario.no_file 0 0 0 0)
      Scenario.pkinit_build Scenario.pkinit_args None
      (Scenario.start "alice" None)
    = Ok KRB5_KDC_UNREACH st'
    /\ ((creds_out st' = None
         /\ heap st' = heap (Scenario.start "alice" None)
         /\ leaked st' = leaked (Scenario.start "alice" None))
        \/ (exists a h,
               creds_out st' = Some a
               /\ heap st' = (a, false) :: heap (Scenario.start "alice" None)
               /\ leaked st' = leaked (Scenario.start "alice" None)
               /\ KRB5_KDC_UNREACH
                  = krb5_get_init_creds_opt_alloc
                      (Scenario.the_world Scenario.kdc_down Scenario.no_file
                                          0 0 0 0) h
               /\ trace st' = EvOptAlloc :: h)).
Proof.
  eexists. split; [vm_compute; reflexivity |].
  refine (proj2 (pkinit_auth_releases_on_failure
                   (Scenario.the_world Scenario.kdc_down Scenario.no_file 0 0
                                       0 0)
                   Scenario.pkinit_build Scenario.pkinit_args None
                   (Scenario.start "alice" None) _ KRB5_KDC_UNREACH _) _).
  - vm_compute; reflexivity.
  - discriminate.
Defined.



(** ** A failed resolution, and the password that is typed *)

Lemma parse_no_exchange e : parse_event e = true -> no_exchange e = true.
Proof. revert e. included. Qed.

Lemma parse_no_prompt e : parse_event e = true -> no_prompt e = true.
Proof. revert e. included. Qed.

(** X21.  When the principal cannot be resolved, whether for lack of
    memory or because the library rejects the name, the call returns
    PAM_SERVICE_ERR at once: it makes no exchange, asks for no password
    and leaves the credential memory as it was. *)
Theorem resolution_failure_is_a_service_error
    (fuel : nat) (w : world) (b : build) (args : pam_args)
    (service : option string) (st s1 : state) (c : context) (r : Z) :
  ctx st = Some c ->
  parse_name w args st = Ok r s1 ->
  r <> 0 ->
  pamk5_password_auth fuel w b args service st = Ok PAM_SERVICE_ERR s1
  /\ attempted (trace s1) = attempted (trace st)
  /\ prompts (trace s1) = prompts (trace st)
  /\ same_memory st s1.
Proof.
  intros Hc Hparse Hr.
  split.
  - unfold pamk5_password_auth, acquire.
    unfold bind at 1. unfold bind at 1. unfold get at 1. rewrite Hc.
    unfold bind at 1. rewrite Hparse.
    apply Z.eqb_neq in Hr. rewrite Hr. reflexivity.
  - pose proof (parse_name_quiet _ _ _ _ _ Hparse) as [E _].
    split; [| split].
    + apply emits_attempted.
      eapply emits_weaken; [exact parse_no_exchange | exact E].
    + apply emits_prompts.
      eapply emits_weaken; [exact parse_no_prompt | exact E].
    + eapply parse_name_memory; exact Hparse.
Qed.

Lemma resolution_failure_is_a_service_error_witness :
  pamk5_password_auth 2
    (Scenario.the_world Scenario.kdc_secret Scenario.no_file 0 0 0 0)
    Scenario.plain_build Scenario.plain_args None
    (Scenario.start "alice@A@B" (Some "secret"))
  = Ok PAM_SERVICE_ERR
       (log (EvParseName "alice@A@B")
            (Scenario.start "alice@A@B" (Some "secret")))
  /\ attempted [EvParseName "alice@A@B"] = []
  /\ prompts [EvParseName "alice@A@B"] = 0%nat
  /\ same_memory (Scenario.start "alice@A@B" (Some "secret"))
       (log (EvParseName "alice@A@B")
            (Scenario.start "alice@A@B" (Some "secret"))).
Proof.
  apply (resolution_failure_is_a_service_error 2
           (Scenario.the_world Scenario.kdc_secret Scenario.no_file 0 0 0 0)
           Scenario.plain_build Scenario.plain_args None
           (Scenario.start "alice@A@B" (Some "secret"))
           (log (EvParseName "alice@A@B")
                (Scenario.start "alice@A@B" (Some "secret")))
           (mk_context "alice@A@B" None) (-1765328250)).
  - reflexivity.
  - reflexivity.
  - discriminate.
Defined.

(** X22.  A pass of the password loop that has no password at hand asks
    for one, with the prompt "Current" when a service is named; it
    stores what the user typed in PAM, under PAM_OLDAUTHTOK when a
    service is named and under PAM_AUTHTOK otherwise, before it uses it;
    and without the trust-file search the one exchange it makes carries
    the password read back from PAM, which is the one typed.  The other
    PAM item is not touched. *)
Theorem typed_password_is_stored_then_sent
    (w : world) (b : build) (args : pam_args) (service : option string)
    (a : nat) (full : bool) (opts : creds_opt) (retry : Z) (st : state)
    (c : context) (typed : string) :
  let prompt := match service with
                | None => None
                | Some _ => Some "Current"
                end in
  let item := authtok_item service in
  let other := match service with
               | None => PAM_OLDAUTHTOK
               | Some _ => PAM_AUTHTOK
               end in
  let h1 := EvGetPassword prompt :: trace st in
  let h2 := EvSetItem item typed :: h1 in
  let h3 := EvGetItem item :: h2 in
  search_k5login args = false ->
  ctx st = Some c ->
  heap_find a (heap st) = Some full ->
  pamk5_get_password w (trace st) prompt = inl typed ->
  pam_set_item w h1 item typed = PAM_SUCCESS ->
  pam_get_item w h2 item = PAM_SUCCESS ->
  exists e st',
    password_pass w b args service (Some a) opts retry None st = Ok e st'
    /\ trace st' = EvExchange (princ c) (Some typed) service opts :: h3
    /\ get_item item st' = Some typed
    /\ get_item other st' = get_item other st
    /\ e = (if krb5_get_init_creds_password w h3 (princ c) (Some typed)
                 service opts =? 0
            then PassBreak 0
            else PassTest 0 (krb5_get_init_creds_password w h3 (princ c)
                               (Some typed) service opts)).
Proof.
  intros prompt item other h1 h2 h3 Hk Hc Hlive Hget Hset Hread.
  subst prompt item other h1 h2 h3.
  unfold password_pass, obtain_password. rewrite Hk.
  destruct service as [sv |];
    unfold authtok_item, set_item, get_item in *;
    cbn [Z.eqb PAM_AUTHTOK PAM_OLDAUTHTOK Pos.eqb] in *.
  all: unfold direct_attempt, get_init_creds_password, fill_creds;
    unfold_run; rewrite Hget; tidy; rewrite Hset; tidy;
    cbn [Z.eqb PAM_SUCCESS negb]; tidy; rewrite Hread;
    cbn [Z.eqb PAM_SUCCESS]; tidy; rewrite Hc; tidy.
  all: match goal with
       | |- context [krb5_get_init_creds_password ?w0 ?h ?p ?pa ?s0 ?o
                     =? 0] =>
           destruct (krb5_get_init_creds_password w0 h p pa s0 o =? 0) eqn:Hr
       end; tidy; rewrite ?Hlive; tidy; rewrite ?Hr; tidy;
    cbn [Z.eqb PAM_SUCCESS PAM_AUTH_ERR Pos.eqb negb]; tidy.
  all: do 2 eexists; (split; [reflexivity |]); unfold set_heap; tidy;
    repeat split;
    try (apply Z.eqb_eq in Hr; rewrite Hr; reflexivity).
Qed.

Lemma typed_password_is_stored_then_sent_witness :
  exists e st',
    password_pass
      (Scenario.the_world Scenario.kdc_secret Scenario.no_file 0 0 0 0)
      Scenario.plain_build Scenario.plain_args (Some "kadmin/changepw")
      (Some 1%nat) [] 1 None (Scenario.allocated "alice")
    = Ok e st'
    /\ trace st'
       = [EvExchange None (Some "typed") (Some "kadmin/changepw") [];
          EvGetItem PAM_OLDAUTHTOK; EvSetItem PAM_OLDAUTHTOK "typed";
          EvGetPassword (Some "Current")]
    /\ get_item PAM_OLDAUTHTOK st' = Some "typed"
    /\ get_item PAM_AUTHTOK st' = None
    /\ e = PassTest 0 KRB5KRB_AP_ERR_BAD_INTEGRITY.
Proof.
  refine (typed_password_is_stored_then_sent
            (Scenario.the_world Scenario.kdc_secret Scenario.no_file 0 0 0 0)
            Scenario.plain_build Scenario.plain_args (Some "kadmin/changepw")
            1%nat false [] 1 (Scenario.allocated "alice")
            (mk_context "alice" None) "typed" _ _ _ _ _ _);
    reflexivity.
Defined.

End AuthMore.

(** * Further properties of [fast.c] *)

Module FastMore.

Import Fast FastFacts.

Lemma bind_inv_fast {A B : Type} (m : M A) (k : A -> M B) s b s'' :
  bind m k s = Ok b s'' ->
  exists a s', m s = Ok a s' /\ k a s' = Ok b s''.
Proof.
  unfold bind. destruct (m s) as [a s'| |]; try discriminate.
  intros H. now exists a, s'.
Qed.

(** X23.  [pamk5_fast_setup] keeps the settings it is given, in their
    order, and adds at most one: the name of a FAST armor cache, and only
    when the library accepted that name, as the last call made.  In a
    build without [krb5_get_init_creds_opt_set_fast_ccache_name] it does
    nothing at all. *)
Theorem fast_setup_adds_at_most_the_armor_cache
    (w : world) (b : build) (cfg : pam_config) (opts opts' : creds_opt)
    (st st' : state) :
  pamk5_fast_setup w b cfg opts st = Ok opts' st' ->
  (opts' = opts
   \/ exists cache h,
        opts' = (opts ++ [SetFastCcacheName cache])%list
        /\ trace st' = EvSetFastCcacheName cache :: h
        /\ krb5_get_init_creds_opt_set_fast_ccache_name w h cache = 0)
  /\ (HAVE_SET_FAST_CCACHE_NAME b = false -> opts' = opts /\ st' = st).
Proof.
  unfold pamk5_fast_setup.
  destruct (HAVE_SET_FAST_CCACHE_NAME b); cbn [negb].
  - intros H. split; [| discriminate].
    apply bind_inv_fast in H. destruct H as (c & s0 & _ & H).
    apply bind_inv_fast in H. destruct H as (valid & s1 & _ & H).
    apply bind_inv_fast in H. destruct H as (chosen & s2 & _ & H).
    destruct chosen as [[cache |] |];
      try (unfold ret in H; inversion H; now left).
    revert H. unfold_run.
    destruct (krb5_get_init_creds_opt_set_fast_ccache_name w (trace s2) cache
              =? 0) eqn:Hset; intros H; inversion H; subst.
    + right. exists cache, (trace s2). apply Z.eqb_eq in Hset.
      now repeat split.
    + now left.
  - unfold ret. intros H. inversion H; subst.
    split; [now left | intros _; now split].
Qed.

Lemma fast_setup_adds_at_most_the_armor_cache_witness :
  exists st',
    pamk5_fast_setup Scenario.fast_world Scenario.fast_build
                     Scenario.fast_config [SetTktLife 600] Cases.fast_again
    = Ok [SetTktLife 600;
          SetFastCcacheName "FILE:/tmp/krb5cc_pam_armor_a1B2c3"] st'
    /\ ([SetTktLife 600;
         SetFastCcacheName "FILE:/tmp/krb5cc_pam_armor_a1B2c3"]
        = [SetTktLife 600]
        \/ exists cache h,
             [SetTktLife 600;
              SetFastCcacheName "FILE:/tmp/krb5cc_pam_armor_a1B2c3"]
             = ([SetTktLife 600] ++ [SetFastCcacheName cache])%list
             /\ trace st' = EvSetFastCcacheName cache :: h
             /\ krb5_get_init_creds_opt_set_fast_ccache_name
                  Scenario.fast_world h cache = 0).
Proof.
  eexists. split; [vm_compute; reflexivity |].
  refine (proj1 (fast_setup_adds_at_most_the_armor_cache
                   Scenario.fast_world Scenario.fast_build
                   Scenario.fast_config [SetTktLife 600] _ Cases.fast_again _
                   _)).
  vm_compute; reflexivity.
Defined.

(** X24.  When the configured armor cache resolves and holds a
    principal, it is used as it is: its name is the one handed to the
    library, nothing is asked of the KDC, no anonymous cache is made even
    when anonymous armoring is allowed, and the anonymous cache of the
    context is left alone. *)
Theorem valid_configured_cache_is_used_as_is
    (w : world) (b : build) (cfg : pam_config) (opts : creds_opt)
    (st : state) (old : option ccache) (cache : string) (handle : ccache)
    (p : principal) :
  let h1 := EvCcResolve cache :: trace st in
  let h2 := EvCcGetPrincipal handle :: h1 in
  let h3 := EvCcClose handle :: h2 in
  HAVE_SET_FAST_CCACHE_NAME b = true ->
  ctx st = Some old ->
  fast_ccache cfg = Some cache ->
  krb5_cc_resolve w (trace st) cache = inl handle ->
  krb5_cc_get_principal w h1 handle = inl p ->
  exists st',
    pamk5_fast_setup w b cfg opts st
    = Ok (if krb5_get_init_creds_opt_set_fast_ccache_name w h3 cache =? 0
          then (opts ++ [SetFastCcacheName cache])%list else opts) st'
    /\ trace st' = EvSetFastCcacheName cache :: h3
    /\ ctx st' = ctx st.
Proof.
  intros h1 h2 h3 Hfast Hctx Hcache Hres Hprinc. subst h1 h2 h3.
  unfold pamk5_fast_setup, probe_configured_cache.
  rewrite Hfast, Hcache. cbn [negb].
  unfold_run. rewrite Hctx. tidy. rewrite Hres. tidy. rewrite Hprinc. tidy.
  destruct (krb5_get_init_creds_opt_set_fast_ccache_name w _ cache =? 0);
    eexists; (split; [reflexivity |]); tidy;
    (split; [reflexivity | exact Hctx]).
Qed.

Lemma valid_configured_cache_is_used_as_is_witness :
  exists st',
    pamk5_fast_setup Cases.fast_world_valid Scenario.fast_build
                     Scenario.fast_config [] Cases.fast_again
    = Ok [SetFastCcacheName "/tmp/krb5cc_armor"] st'
    /\ trace st'
       = [EvSetFastCcacheName "/tmp/krb5cc_armor";
          EvCcClose "/tmp/krb5cc_armor";
          EvCcGetPrincipal "/tmp/krb5cc_armor";
          EvCcResolve "/tmp/krb5cc_armor"]
    /\ ctx st' = Some (Some "/tmp/krb5cc_pam_armor_old000").
Proof.
  refine (valid_configured_cache_is_used_as_is
            Cases.fast_world_valid Scenario.fast_build Scenario.fast_config
            [] Cases.fast_again (Some "/tmp/krb5cc_pam_armor_old000")
            "/tmp/krb5cc_armor" "/tmp/krb5cc_armor"
            (mk_principal "EXAMPLE.ORG" ["host"; "login"]) _ _ _ _ _);
    reflexivity.
Defined.

(** X25.  Once [cache_init_anonymous] has resolved its new cache, the
    cache is returned only when the credentials were obtained and
    stored: on any failure of that part the cache is destroyed and
    [*ccache] is NULL; the option set is freed whenever it was
    allocated; and the status returned is the status of the step that
    failed. *)
Theorem anonymous_cache_is_destroyed_on_failure
    (w : world) (b : build) (cfg : pam_config) (c0 : option ccache)
    (st s6 : state) (old : option ccache) (realm path : string)
    (cache : ccache) (r : Z) (have_opts : bool) :
  let comps := [KRB5_WELLKNOWN_NAME; KRB5_ANON_NAME] in
  let template :=
    (strip_file_prefix (ccache_dir cfg) ++ "/krb5cc_pam_armor_XXXXXX")%string in
  let h1 := EvGetDefaultRealm :: trace st in
  let h2 := EvBuildPrincipal realm comps :: h1 in
  let h3 := EvAsprintf template :: h2 in
  let h4 := EvMkstemp template :: h3 in
  let h5 := EvCcResolve path :: h4 in
  HAVE_SET_ANONYMOUS b = true ->
  ctx st = Some old ->
  krb5_get_default_realm w (trace st) = inl realm ->
  krb5_build_principal_ext w h1 realm comps = 0 ->
  asprintf w h2 template = inl tt ->
  pamk5_cache_mkstemp w h3 template = inl path ->
  krb5_cc_resolve w h4 path = inl cache ->
  obtain_anonymous w b (anonymous_principal realm) cache
                   (mk_state (errno st) (ctx st) h5)
  = Ok (r, have_opts) s6 ->
  exists st',
    cache_init_anonymous w b cfg c0 st
    = Ok (r, if r =? 0 then Some cache else None) st'
    /\ trace st'
       = ((if have_opts then [EvOptFree] else [])
          ++ (if r =? 0 then [] else [EvCcDestroy cache])
          ++ trace s6)%list
    /\ ctx st' = ctx s6.
Proof.
  intros comps template h1 h2 h3 h4 h5 Hanon Hctx Hrealm Hbuild Hpath Hmk
         Hres Hrun.
  subst h1 h2 h3 h4 h5 template comps.
  unfold cache_init_anonymous. rewrite Hanon. cbn [negb].
  unfold bind at 1. unfold deref_ctx at 1. rewrite Hctx.
  unfold bind at 1. unfold call at 1. rewrite Hrealm.
  unfold bind at 1. unfold call at 1. cbn [trace log]. rewrite Hbuild.
  cbn [Z.eqb negb].
  unfold bind at 1. unfold bind at 1. unfold call at 1. cbn [trace log].
  rewrite Hpath.
  unfold bind at 1. unfold call at 1. cbn [trace log]. rewrite Hmk.
  unfold bind at 1. unfold call at 1. cbn [trace log]. rewrite Hres.
  unfold bind at 1.
  match goal with
  | |- context [obtain_anonymous w b ?p cache ?s] =>
      replace s with (mk_state (errno st) (ctx st)
                        (EvCcResolve path
                         :: EvMkstemp
                              (strip_file_prefix (ccache_dir cfg)
                               ++ "/krb5cc_pam_armor_XXXXXX")
                         :: EvAsprintf
                              (strip_file_prefix (ccache_dir cfg)
                               ++ "/krb5cc_pam_armor_XXXXXX")
                         :: EvBuildPrincipal realm
                              [KRB5_WELLKNOWN_NAME; KRB5_ANON_NAME]
                         :: EvGetDefaultRealm :: trace st))
        by reflexivity
  end.
  rewrite Hrun. unfold ret at 1. cbn [fst snd].
  destruct (r =? 0), have_opts; unfold_run; tidy;
    eexists; (split; [reflexivity |]); tidy; split; reflexivity.
Qed.

Lemma anonymous_cache_is_destroyed_on_failure_witness :
  exists st',
    cache_init_anonymous Cases.fast_world_down Scenario.fast_build
                         Scenario.fast_config None Scenario.fast_start
    = Ok (KRB5_KDC_UNREACH, None) st'
    /\ trace st'
       = [EvOptFree; EvCcDestroy "/tmp/krb5cc_pam_armor_XXXXXX";
          EvExchange (mk_principal "EXAMPLE.ORG" ["WELLKNOWN"; "ANONYMOUS"])
                     None
                     [SetAnonymous 1; SetTktLife 60;
                      SetOutCcache "/tmp/krb5cc_pam_armor_XXXXXX"];
          EvOptAlloc; EvCcResolve "/tmp/krb5cc_pam_armor_XXXXXX";
          EvMkstemp "/tmp/krb5cc_pam_armor_XXXXXX";
          EvAsprintf "/tmp/krb5cc_pam_armor_XXXXXX";
          EvBuildPrincipal "EXAMPLE.ORG" ["WELLKNOWN"; "ANONYMOUS"];
          EvGetDefaultRealm]
    /\ ctx st' = Some None.
Proof.
  refine (anonymous_cache_is_destroyed_on_failure
            Cases.fast_world_down Scenario.fast_build Scenario.fast_config
            None Scenario.fast_start
            (mk_state 0 (Some None)
               [EvExchange
                  (mk_principal "EXAMPLE.ORG" ["WELLKNOWN"; "ANONYMOUS"])
                  None
                  [SetAnonymous 1; SetTktLife 60;
                   SetOutCcache "/tmp/krb5cc_pam_armor_XXXXXX"];
                EvOptAlloc; EvCcResolve "/tmp/krb5cc_pam_armor_XXXXXX";
                EvMkstemp "/tmp/krb5cc_pam_armor_XXXXXX";
                EvAsprintf "/tmp/krb5cc_pam_armor_XXXXXX";
                EvBuildPrincipal "EXAMPLE.ORG" ["WELLKNOWN"; "ANONYMOUS"];
                EvGetDefaultRealm])
            None "EXAMPLE.ORG" "/tmp/krb5cc_pam_armor_XXXXXX"
            "/tmp/krb5cc_pam_armor_XXXXXX" KRB5_KDC_UNREACH true
            _ _ _ _ _ _ _ _);
    reflexivity.
Defined.

Lemma obtain_anonymous_ctx w b p cache st rv st' :
  obtain_anonymous w b p cache st = Ok rv st' -> ctx st' = ctx st.
Proof.
  unfold obtain_anonymous. unfold_run.
  repeat (tidy; case_head); tidy; intros H; inversion H; reflexivity.
Qed.

Lemma cache_init_anonymous_ctx w b cfg c0 st rc st' :
  cache_init_anonymous w b cfg c0 st = Ok rc st' -> ctx st' = ctx st.
Proof.
  unfold cache_init_anonymous.
  destruct (HAVE_SET_ANONYMOUS b); cbn [negb];
    [| unfold ret; intros H; now inversion H].
  intros H.
  apply bind_inv_fast in H. destruct H as (c & s0 & Hc & H).
  assert (Hs0 : s0 = st)
    by (revert Hc; unfold deref_ctx; destruct (ctx st);
        [intros K; now inversion K | discriminate]).
  subst s0. clear Hc.
  apply bind_inv_fast in H. destruct H as (realm & s1 & Hr & H).
  unfold call in Hr. inversion Hr; subst. clear Hr.
  destruct (krb5_get_default_realm w (trace st)) as [realm | e];
    [| unfold ret in H; now inversion H].
  apply bind_inv_fast in H. destruct H as (rb & s2 & Hb & H).
  unfold call in Hb. inversion Hb; subst. clear Hb.
  match type of H with
  | (if ?c then _ else _) _ = _ => destruct c
  end; [unfold ret in H; now inversion H |].
  apply bind_inv_fast in H. destruct H as (a & s3 & Ha & H).
  unfold call in Ha. inversion Ha; subst. clear Ha.
  apply bind_inv_fast in H. destruct H as (rc0 & s4 & Hrc & H).
  assert (Hs4 : ctx s4 = ctx st).
  { revert Hrc.
    match goal with
    | |- match ?x with _ => _ end _ = _ -> _ => destruct x
    end; [| unfold ret; intros K; now inversion K].
    intros K. apply bind_inv_fast in K. destruct K as (m & s5 & Hm & K).
    unfold call in Hm. inversion Hm; subst. clear Hm.
    match type of K with
    | match ?x with _ => _ end _ = _ => destruct x
    end.
    - apply bind_inv_fast in K. destruct K as (cc & s6 & Hcc & K).
      unfold call in Hcc. inversion Hcc; subst. clear Hcc.
      match type of K with
      | match ?x with _ => _ end _ = _ => destruct x
      end; [| unfold ret in K; now inversion K].
      apply bind_inv_fast in K. destruct K as (rv & s7 & Ho & K).
      apply obtain_anonymous_ctx in Ho.
      unfold ret in K. inversion K; subst. exact Ho.
    - revert K. unfold_run. intros K. now inversion K. }
  destruct rc0 as [[retval cache] have_opts].
  revert H. unfold_run.
  repeat (tidy; case_head); tidy; intros H; inversion H; subst; tidy;
    exact Hs4.
Qed.

(** X26.  When no configured cache is valid and anonymous armoring is
    allowed: if the anonymous cache cannot be made, the call stops
    there, the option set and the anonymous cache of the context are as
    they were and nothing is handed to the library; if it is made, the
    cache the context held before, if any, is destroyed, the new cache
    takes its place, and its full name is what is handed to the
    library. *)
Theorem anonymous_cache_replaces_the_old_one
    (w : world) (b : build) (cfg : pam_config) (opts : creds_opt)
    (st st1 st2 : state) (old : option ccache) (r : Z)
    (made : option ccache) :
  HAVE_SET_FAST_CCACHE_NAME b = true ->
  ctx st = Some old ->
  probe_configured_cache w cfg st = Ok false st1 ->
  anon_fast cfg = true ->
  cache_init_anonymous w b cfg None st1 = Ok (r, made) st2 ->
  (r <> 0 -> pamk5_fast_setup w b cfg opts st = Ok opts st2
             /\ ctx st2 = ctx st)
  /\ (forall cache, r = 0 -> made = Some cache ->
      let h := (match old with
                | Some o => [EvCcDestroy o]
                | None => []
                end ++ trace st2)%list in
      let h' := EvCcGetFullName cache :: h in
      exists opts' st',
        pamk5_fast_setup w b cfg opts st = Ok opts' st'
        /\ ctx st' = Some (Some cache)
        /\ extends h' (trace st')
        /\ opts'
           = match krb5_cc_get_full_name w h cache with
             | inl full =>
                 if krb5_get_init_creds_opt_set_fast_ccache_name w h' full
                    =? 0
                 then (opts ++ [SetFastCcacheName full])%list else opts
             | inr _ => opts
             end).
Proof.
  intros Hfast Hctx Hprobe Hallow Hinit.
  assert (Hctx2 : ctx st2 = Some old).
  { rewrite (cache_init_anonymous_ctx _ _ _ _ _ _ _ Hinit).
    rewrite (probe_configured_cache_ctx _ _ _ _ _ Hprobe). exact Hctx. }
  assert (Hstart :
            pamk5_fast_setup w b cfg opts st
            = (chosen <- (rc <- ret (r, made) ;;
                          if negb (fst rc =? 0) then ret None
                          else
                            old <- deref_ctx ;;
                            match old with
                            | Some o => call (EvCcDestroy o) (fun _ => tt)
                            | None => ret tt
                            end ;;;
                            modify (set_anon_fast_ccache (snd rc)) ;;;
                            match snd rc with
                            | None =>
                                undefined
                                  "krb5_cc_get_full_name on a NULL cache handle"
                            | Some cache =>
                                n <- call (EvCcGetFullName cache)
                                          (fun h =>
                                             krb5_cc_get_full_name w h cache) ;;
                                ret (Some (match n with
                                           | inl full => Some full
                                           | inr _ => None
                                           end))
                            end) ;;
               match chosen with
               | None => ret opts
               | Some None => ret opts
               | Some (Some cache) =>
                   r <- call (EvSetFastCcacheName cache)
                             (fun h =>
                                krb5_get_init_creds_opt_set_fast_ccache_name
                                  w h cache) ;;
                   if r =? 0 then ret (opts ++ [SetFastCcacheName cache])%list
                   else ret opts
               end) st2).
  { unfold pamk5_fast_setup. rewrite Hfast. cbn [negb].
    unfold bind at 1. unfold deref_ctx at 1. rewrite Hctx.
    unfold bind at 1. rewrite Hprobe. rewrite Hallow. cbn [negb andb].
    unfold anonymous_fallback.
    unfold bind at 1. unfold bind at 1. rewrite Hinit.
    reflexivity. }
  rewrite Hstart. clear Hstart. split.
  - intros Hr. apply Z.eqb_neq in Hr.
    unfold_run. cbn [fst]. rewrite Hr. cbn [negb].
    split; [reflexivity | congruence].
  - intros cache Hr Hmade h h'. subst r made h h'.
    unfold_run. cbn [fst snd Z.eqb negb]. rewrite Hctx2.
    destruct old as [o |]; tidy;
      destruct (krb5_cc_get_full_name w _ cache) as [full | e]; tidy;
      try (destruct (krb5_get_init_creds_opt_set_fast_ccache_name w _ full
                     =? 0)); tidy;
      (do 2 eexists; split; [reflexivity |]); tidy;
      (split; [reflexivity |]);
      (split; [repeat first [apply extends_refl | apply extends_cons]
              | reflexivity]).
Qed.

Lemma anonymous_cache_replaces_the_old_one_witness :
  exists opts' st',
    pamk5_fast_setup Scenario.fast_world Scenario.fast_build
                     Scenario.fast_config [] Cases.fast_again
    = Ok opts' st'
    /\ ctx st' = Some (Some "/tmp/krb5cc_pam_armor_a1B2c3")
    /\ extends
         [EvCcGetFullName "/tmp/krb5cc_pam_armor_a1B2c3";
          EvCcDestroy "/tmp/krb5cc_pam_armor_old000"; EvOptFree;
          EvExchange (mk_principal "EXAMPLE.ORG" ["WELLKNOWN"; "ANONYMOUS"])
                     None
                     [SetAnonymous 1; SetTktLife 60;
                      SetOutCcache "/tmp/krb5cc_pam_armor_a1B2c3"];
          EvOptAlloc; EvCcResolve "/tmp/krb5cc_pam_armor_a1B2c3";
          EvMkstemp "/tmp/krb5cc_pam_armor_XXXXXX";
          EvAsprintf "/tmp/krb5cc_pam_armor_XXXXXX";
          EvBuildPrincipal "EXAMPLE.ORG" ["WELLKNOWN"; "ANONYMOUS"];
          EvGetDefaultRealm; EvCcResolve "/tmp/krb5cc_armor"]
         (trace st')
    /\ opts' = [SetFastCcacheName "FILE:/tmp/krb5cc_pam_armor_a1B2c3"].
Proof.
  refine (proj2 (anonymous_cache_replaces_the_old_one
                   Scenario.fast_world Scenario.fast_build
                   Scenario.fast_config [] Cases.fast_again
                   (mk_state 0 (Some (Some "/tmp/krb5cc_pam_armor_old000"))
                      [EvCcResolve "/tmp/krb5cc_armor"])
                   (mk_state 0 (Some (Some "/tmp/krb5cc_pam_armor_old000"))
                      [EvOptFree;
                       EvExchange
                         (mk_principal "EXAMPLE.ORG"
                                       ["WELLKNOWN"; "ANONYMOUS"])
                         None
                         [SetAnonymous 1; SetTktLife 60;
                          SetOutCcache "/tmp/krb5cc_pam_armor_a1B2c3"];
                       EvOptAlloc;
                       EvCcResolve "/tmp/krb5cc_pam_armor_a1B2c3";
                       EvMkstemp "/tmp/krb5cc_pam_armor_XXXXXX";
                       EvAsprintf "/tmp/krb5cc_pam_armor_XXXXXX";
                       EvBuildPrincipal "EXAMPLE.ORG"
                                        ["WELLKNOWN"; "ANONYMOUS"];
                       EvGetDefaultRealm; EvCcResolve "/tmp/krb5cc_armor"])
                   (Some "/tmp/krb5cc_pam_armor_old000") 0
                   (Some "/tmp/krb5cc_pam_armor_a1B2c3") _ _ _ _ _)
                "/tmp/krb5cc_pam_armor_a1B2c3" _ _);
    reflexivity.
Defined.

Lemma substring_whole (s : string) : String.substring 0 (String.length s) s = s.
Proof. induction s as [| a s IH]; simpl; [reflexivity | now rewrite IH]. Qed.

(** X27.  The directory under which the anonymous cache is made is the
    configured cache directory without a leading [FILE:]; a directory
    that does not start so is taken as it is. *)
Theorem file_prefix_of_cache_directory_is_dropped (dir : string) :
  strip_file_prefix ("FILE:" ++ dir) = dir
  /\ (String.prefix "FILE:" dir = false -> strip_file_prefix dir = dir).
Proof.
  split.
  - unfold strip_file_prefix.
    change (String.prefix "FILE:" ("FILE:" ++ dir)) with (String.prefix "" dir).
    replace (String.prefix "" dir) with true by (now destruct dir).
    change (String.length ("FILE:" ++ dir) - 5)%nat
      with (String.length dir - 0)%nat.
    rewrite Nat.sub_0_r.
    change (String.substring 5 (String.length dir) ("FILE:" ++ dir))
      with (String.substring 0 (String.length dir) dir).
    apply substring_whole.
  - intros H. unfold strip_file_prefix. now rewrite H.
Qed.

End FastMore.
